(** * Local REST API note placement (src/utils/local-rest-api.ts)

    A shallow embedding of the note placement code of the web clipper:
    the availability gate, the connectivity prober, the existence prober,
    the collision-avoidance namer and [createNoteViaLocalRestApi], with
    the network, the console and the clock made explicit.

    A string is held as the bytes of its UTF-8 encoding. A JavaScript
    string may also hold a lone surrogate, a code unit in D800..DFFF
    without its partner; it is held as the three bytes ED, A0..BF, 80..BF
    that the same encoding scheme gives it, which well-formed text never
    contains. Every character the code inspects ('/', '{', 'T') is
    ASCII, so [startsWith], [endsWith] and [split] on bytes agree with
    the same operations on UTF-16 code units. *)

From Stdlib Require Import ZArith List String Ascii Bool Lia.
Import ListNotations.
Local Open Scope string_scope.
Local Open Scope Z_scope.

(** ** The JavaScript built-ins the code calls *)

Module JS.

(** A thrown value: an instance of [Error] carries a message; anything
    else does not pass the [instanceof Error] test. *)
Inductive Thrown : Type :=
| ErrorInstance (message : string)
| NotAnError.

(** [s.startsWith(p)] *)
Definition startsWith (s p : string) : bool := String.prefix p s.

(** [s.endsWith(p)] *)
Fixpoint endsWith (s p : string) : bool :=
  if String.eqb s p then true
  else match s with
       | EmptyString => false
       | String _ rest => endsWith rest p
       end.

(** Truthiness of a string: every string but the empty one. *)
Definition truthy (s : string) : bool :=
  match s with EmptyString => false | String _ _ => true end.

(** Truthiness of a setting that may be missing ([undefined]). *)
Definition truthy_opt (s : option string) : bool :=
  match s with None => false | Some v => truthy v end.

(** Interpolation of a possibly missing string in a template literal. *)
Definition interp (s : option string) : string :=
  match s with None => "undefined" | Some v => v end.

(** *** Numbers in template literals *)

Definition digit (d : Z) : ascii := ascii_of_N (Z.to_N (48 + d mod 10)).

Fixpoint digits_fuel (fuel : nat) (n : Z) (acc : string) : string :=
  match fuel with
  | O => acc
  | S fuel' =>
      let acc' := String (digit n) acc in
      if n <? 10 then acc' else digits_fuel fuel' (n / 10) acc'
  end.

(** Decimal digits of a natural number. [Z.log2] bounds their count. *)
Definition digits (n : Z) : string :=
  digits_fuel (S (Z.to_nat (Z.log2 n))) n EmptyString.

(** [`${n}`] for an integer [n]. *)
Definition numberToString (n : Z) : string :=
  if n <? 0 then String "-" (digits (- n)) else digits n.

(** [n] written with exactly [width] digits, zero padded (its low digits
    when it has more). *)
Fixpoint padded (width : nat) (n : Z) (acc : string) : string :=
  match width with
  | O => acc
  | S w => padded w (n / 10) (String (digit n) acc)
  end.

(** *** encodeURIComponent *)

Definition hexDigitUpper (d : Z) : ascii :=
  ascii_of_N (Z.to_N (if d <? 10 then 48 + d else 55 + d)).

Definition hexDigitLower (d : Z) : ascii :=
  ascii_of_N (Z.to_N (if d <? 10 then 48 + d else 87 + d)).

Definition code (c : ascii) : Z := Z.of_N (N_of_ascii c).

(** The characters [encodeURIComponent] leaves alone:
    A-Z a-z 0-9 - _ . ! ~ * ' ( ) *)
Definition uriUnreserved (c : ascii) : bool :=
  let n := code c in
  ((65 <=? n) && (n <=? 90)) || ((97 <=? n) && (n <=? 122))
  || ((48 <=? n) && (n <=? 57))
  || (n =? 45) || (n =? 95) || (n =? 46) || (n =? 33) || (n =? 126)
  || (n =? 42) || (n =? 39) || (n =? 40) || (n =? 41).

Definition percentEncoded (c : ascii) : string :=
  let n := code c in
  String "%" (String (hexDigitUpper (n / 16)) (String (hexDigitUpper (n mod 16)) EmptyString)).

(** The three bytes of a lone surrogate. *)
Definition surrogateBytes (c0 c1 c2 : ascii) : bool :=
  (code c0 =? 237) && (160 <=? code c1) && (code c1 <=? 191)
  && (128 <=? code c2) && (code c2 <=? 191).

Fixpoint hasLoneSurrogate (s : string) : bool :=
  match s with
  | EmptyString => false
  | String c0 rest0 =>
      match rest0 with
      | String c1 (String c2 _) => surrogateBytes c0 c1 c2
      | _ => false
      end
      || hasLoneSurrogate rest0
  end.

(** Well-formed text: no lone surrogate. *)
Definition wellFormed (s : string) : bool := negb (hasLoneSurrogate s).

(** Every character that is not left alone is replaced by the escapes of
    the bytes of its UTF-8 encoding, which are the bytes of the string
    itself. *)
Fixpoint percentEncodeAll (s : string) : string :=
  match s with
  | EmptyString => EmptyString
  | String c rest =>
      (if uriUnreserved c then String c EmptyString else percentEncoded c)
      ++ percentEncodeAll rest
  end.

(** The exception of [encodeURIComponent], with the message V8 gives it. *)
Definition URIError : Thrown := ErrorInstance "URI malformed".

(** [encodeURIComponent(s)]: a lone surrogate has no UTF-8 encoding, and
    the built-in throws a URIError when it meets one. *)
Definition encodeURIComponent (s : string) : Thrown + string :=
  if hasLoneSurrogate s then inl URIError else inr (percentEncodeAll s).

(** *** JSON.stringify on an object of string fields *)

Definition jsonEscape (c : ascii) : string :=
  let n := code c in
  if n =? 34 then "\" ++ String c EmptyString
  else if n =? 92 then "\\"
  else if n =? 8 then "\b"
  else if n =? 9 then "\t"
  else if n =? 10 then "\n"
  else if n =? 12 then "\f"
  else if n =? 13 then "\r"
  else if n <? 32 then
    "\u00" ++ String (hexDigitLower (n / 16)) (String (hexDigitLower (n mod 16)) EmptyString)
  else String c EmptyString.

(** The code unit that the bytes ED, [c1], [c2] hold. *)
Definition codeUnit (c1 c2 : ascii) : Z :=
  53248 + (code c1 - 128) * 64 + (code c2 - 128).

Definition hex4 (n : Z) : string :=
  String (hexDigitLower (n / 4096))
    (String (hexDigitLower (n / 256 mod 16))
       (String (hexDigitLower (n / 16 mod 16))
          (String (hexDigitLower (n mod 16)) EmptyString))).

(** A lone surrogate is written as its \u escape, every other
    character by [jsonEscape]. *)
Fixpoint jsonEscapeAll (s : string) : string :=
  match s with
  | EmptyString => EmptyString
  | String c0 rest0 =>
      match rest0 with
      | String c1 (String c2 rest2) =>
          if surrogateBytes c0 c1 c2
          then "\u" ++ hex4 (codeUnit c1 c2) ++ jsonEscapeAll rest2
          else jsonEscape c0 ++ jsonEscapeAll rest0
      | _ => jsonEscape c0 ++ jsonEscapeAll rest0
      end
  end.

Definition jsonQuote (s : string) : string :=
  String "034" (jsonEscapeAll s ++ String "034" EmptyString).

Fixpoint jsonMembers (fields : list (string * string)) : string :=
  match fields with
  | [] => EmptyString
  | [(k, v)] => jsonQuote k ++ ":" ++ jsonQuote v
  | (k, v) :: more => jsonQuote k ++ ":" ++ jsonQuote v ++ "," ++ jsonMembers more
  end.

(** [JSON.stringify({k1: v1, ...})], the fields in the order written. *)
Definition JSON_stringify (fields : list (string * string)) : string :=
  "{" ++ jsonMembers fields ++ "}".

(** *** Date *)

Definition msPerDay : Z := 86400000.

(** The proleptic Gregorian date (year, month, day) of the day that is
    [days] days after 1970-01-01. *)
Definition civilFromDays (days : Z) : Z * Z * Z :=
  let z := days + 719468 in
  let era := z / 146097 in
  let doe := z - era * 146097 in
  let yoe := (doe - doe / 1460 + doe / 36524 - doe / 146096) / 365 in
  let doy := doe - (365 * yoe + yoe / 4 - yoe / 100) in
  let mp := (5 * doy + 2) / 153 in
  let d := doy - (153 * mp + 2) / 5 + 1 in
  let m := if mp <? 10 then mp + 3 else mp - 9 in
  let y := yoe + era * 400 + (if m <=? 2 then 1 else 0) in
  (y, m, d).

(** The inverse: days since 1970-01-01 of a Gregorian date. *)
Definition daysFromCivil (y m d : Z) : Z :=
  let y' := if m <=? 2 then y - 1 else y in
  let era := y' / 400 in
  let yoe := y' - era * 400 in
  let mp := if 2 <? m then m - 3 else m + 9 in
  let doy := (153 * mp + 2) / 5 + d - 1 in
  let doe := yoe * 365 + yoe / 4 - yoe / 100 + doy in
  era * 146097 + doe - 719468.

(** The Gregorian leap years and the lengths of the months. *)
Definition leapYear (y : Z) : bool :=
  (y mod 4 =? 0) && (negb (y mod 100 =? 0) || (y mod 400 =? 0)).

Definition daysInMonth (y m : Z) : Z :=
  if m =? 2 then (if leapYear y then 29 else 28)
  else if (m =? 4) || (m =? 6) || (m =? 9) || (m =? 11) then 30
  else 31.

(** UTC calendar date of an instant given in milliseconds since the epoch. *)
Definition utcDate (ms : Z) : Z * Z * Z := civilFromDays (ms / msPerDay).

(** The year of an ISO string: four digits in 0..9999, otherwise the
    expanded form, a sign and six digits. *)
Definition isoYear (y : Z) : string :=
  if (0 <=? y) && (y <=? 9999) then padded 4 y EmptyString
  else if y <? 0 then String "-" (padded 6 (- y) EmptyString)
  else String "+" (padded 6 y EmptyString).

Definition isoDate (ymd : Z * Z * Z) : string :=
  let '(y, m, d) := ymd in
  isoYear y ++ "-" ++ padded 2 m EmptyString ++ "-" ++ padded 2 d EmptyString.

(** [new Date(ms).toISOString()] : YYYY-MM-DDTHH:mm:ss.sssZ *)
Definition toISOString (ms : Z) : string :=
  let t := ms mod msPerDay in
  isoDate (utcDate ms) ++ "T"
  ++ padded 2 (t / 3600000) EmptyString ++ ":"
  ++ padded 2 (t / 60000 mod 60) EmptyString ++ ":"
  ++ padded 2 (t / 1000 mod 60) EmptyString ++ "."
  ++ padded 3 (t mod 1000) EmptyString ++ "Z".

(** [s.split(sep)[0]] for a one-character separator: the text before the
    first occurrence of [sep], all of [s] when there is none. *)
Fixpoint splitFirst (sep : ascii) (s : string) : string :=
  match s with
  | EmptyString => EmptyString
  | String c rest =>
      if Ascii.eqb c sep then EmptyString else String c (splitFirst sep rest)
  end.

End JS.

(** ** Effects: the network, the console and exceptions *)

Module Effects.
Import JS.

(** What is handed to [fetch]. The method is the string the code writes;
    the headers are the object's fields in insertion order. *)
Record Request : Type := mkRequest {
  url : string;
  method : string;
  headers : list (string * string);
  body : option string
}.

(** A response: its status and what [response.text()] settles to. *)
Record Response : Type := mkResponse {
  status : Z;
  text : Thrown + string
}.

(** [response.ok] : the status is in 200..299. *)
Definition ok (r : Response) : bool :=
  (200 <=? status r) && (status r <=? 299).

(** How a [fetch] settles: with a response of any status, or rejected
    (DNS, TLS, timeout, connection refused). *)
Inductive FetchOutcome : Type :=
| Resolves (r : Response)
| Rejects (e : Thrown).

(** An argument of [console.warn]. *)
Inductive ConsoleArg : Type :=
| Text (s : string)
| Value (e : Thrown).

(** The observable effects so far: the requests issued, oldest first,
    and the warnings written. *)
Record World : Type := mkWorld {
  requests : list Request;
  warnings : list (list ConsoleArg)
}.

(** How a computation completes. *)
Inductive Completion (A : Type) : Type :=
| Normal (a : A)
| Abrupt (e : Thrown).
Arguments Normal {A} a.
Arguments Abrupt {A} e.

(** An awaited computation: it runs in a world and leaves a world. *)
Definition Async (A : Type) : Type := World -> Completion A * World.

Definition ret {A} (a : A) : Async A := fun w => (Normal a, w).

Definition throw {A} (e : Thrown) : Async A := fun w => (Abrupt e, w).

Definition bind {A B} (m : Async A) (k : A -> Async B) : Async B :=
  fun w =>
    match m w with
    | (Normal a, w') => k a w'
    | (Abrupt e, w') => (Abrupt e, w')
    end.

(** [try { m } catch (error) { handler error }] *)
Definition tryCatch {A} (m : Async A) (handler : Thrown -> Async A) : Async A :=
  fun w =>
    match m w with
    | (Normal a, w') => (Normal a, w')
    | (Abrupt e, w') => handler e w'
    end.

Definition console_warn (args : list ConsoleArg) : Async unit :=
  fun w => (Normal tt, mkWorld (requests w) (warnings w ++ [args])).

(** The value of an expression that may throw. *)
Definition evaluate {A} (r : Thrown + A) : Async A :=
  match r with
  | inr a => ret a
  | inl e => throw e
  end.

(** [await response.text()] *)
Definition responseText (r : Response) : Async string :=
  match text r with
  | inr s => ret s
  | inl e => throw e
  end.

End Effects.

Declare Scope async_scope.
Delimit Scope async_scope with async.
Notation "x <- m ;; k" := (Effects.bind m (fun x => k))
  (at level 61, m at next level, right associativity) : async_scope.
Notation "m ;;; k" := (Effects.bind m (fun _ => k))
  (at level 61, right associativity) : async_scope.

(** ** The program *)

Module LocalRestApi.
Import JS Effects.
Local Open Scope async_scope.

(** [Template['behavior']] *)
Inductive Behavior : Type :=
| Create
| AppendSpecific
| AppendDaily
| PrependSpecific
| PrependDaily
| Overwrite.

(** The three settings the code reads from [generalSettings]. The
    address and the key may be missing altogether. *)
Record GeneralSettings : Type := mkSettings {
  localRestApiEnabled : bool;
  localRestApiUrl : option string;
  localRestApiKey : option string
}.

(** [LocalRestApiResponse] *)
Record LocalRestApiResponse : Type := mkResult {
  success : bool;
  error : option string
}.

(** [error instanceof Error ? error.message : 'Unknown error'] *)
Definition errorMessage (e : Thrown) : string :=
  match e with
  | ErrorInstance m => m
  | NotAnError => "Unknown error"
  end.

Section Program.

(** The settings snapshot. *)
Variable generalSettings : GeneralSettings.

(** [sanitizeFileName] of string-utils. *)
Variable sanitizeFileName : string -> string.

(** The remote service and the transport: how the next [fetch] settles,
    given the requests issued before it. *)
Variable remote : list Request -> Request -> FetchOutcome.

(** The instant at which the clock is read, ms since the epoch. *)
Variable now : Z.

Definition fetch (r : Request) : Async Response :=
  fun w =>
    (match remote (requests w) r with
     | Resolves resp => Normal resp
     | Rejects e => Abrupt e
     end,
     mkWorld (requests w ++ [r]) (warnings w)).

Definition authorization : string * string :=
  ("Authorization", "Bearer " ++ interp (localRestApiKey generalSettings)).

Definition isLocalRestApiAvailable : Async bool :=
  if negb (localRestApiEnabled generalSettings) then ret false
  else if negb (truthy_opt (localRestApiUrl generalSettings))
          || negb (truthy_opt (localRestApiKey generalSettings))
  then ret false
  else ret true.

Definition testLocalRestApiConnection : Async LocalRestApiResponse :=
  tryCatch
    (response <- fetch (mkRequest
                          (interp (localRestApiUrl generalSettings) ++ "/")
                          "GET" [authorization] None) ;;
     if ok response then ret (mkResult true None)
     else
       errorText <- responseText response ;;
       ret (mkResult false
              (Some ("HTTP " ++ numberToString (status response) ++ ": " ++ errorText))))
    (fun error => ret (mkResult false (Some (errorMessage error)))).

(** The closure [buildUrl] of [createNoteViaLocalRestApi], with the
    [vault] it captures as a parameter. It encodes the path, then the
    vault, and either encoding may throw. *)
Definition buildUrl (vault targetPath : string) : Thrown + string :=
  match encodeURIComponent targetPath with
  | inl error => inl error
  | inr encodedPath =>
      if truthy vault then
        match encodeURIComponent vault with
        | inl error => inl error
        | inr encodedVault =>
            inr (interp (localRestApiUrl generalSettings) ++ "/vault/" ++ encodedVault
                 ++ "/" ++ encodedPath)
        end
      else
        inr (interp (localRestApiUrl generalSettings) ++ "/vault/" ++ encodedPath)
  end.

(** Both encodings are inside the [try]: when one throws, the handler
    warns and answers false, and nothing is fetched. *)
Definition checkFileExists (vault filePath : string) : Async bool :=
  tryCatch
    (encodedFilePath <- evaluate (encodeURIComponent filePath) ;;
     url <-
       (if truthy vault then
          encodedVault <- evaluate (encodeURIComponent vault) ;;
          ret (interp (localRestApiUrl generalSettings) ++ "/vault/" ++ encodedVault
               ++ "/" ++ encodedFilePath)
        else
          ret (interp (localRestApiUrl generalSettings) ++ "/vault/" ++ encodedFilePath)) ;;
     response <- fetch (mkRequest url "GET" [authorization] None) ;;
     if ok response then ret true
     else if status response =? 404 then ret false
     else
       console_warn
         [Text ("Unexpected response when checking file existence: "
                ++ numberToString (status response))] ;;;
       ret false)
    (fun error =>
       console_warn [Text "Error checking file existence:"; Value error] ;;;
       ret false).

(** The loop of [findAvailableFileName]. [remaining] is its variant,
    1000 - counter: the guard [counter < 1000] holds exactly while it is
    positive, and the code after the loop runs when it reaches zero. *)
Fixpoint probeSuffixes (remaining : nat) (vault path baseName : string)
         (counter : Z) : Async string :=
  match remaining with
  | O =>
      let timestamp := now in
      ret (path ++ baseName ++ " " ++ numberToString timestamp ++ ".md")
  | S remaining' =>
      let filePath := path ++ baseName ++ " " ++ numberToString counter ++ ".md" in
      fileExists <- checkFileExists vault filePath ;;
      if negb fileExists then ret filePath
      else probeSuffixes remaining' vault path baseName (counter + 1)
  end.

Definition findAvailableFileName (vault path baseName : string) : Async string :=
  let filePath := path ++ baseName ++ ".md" in
  fileExists <- checkFileExists vault filePath ;;
  if negb fileExists then ret filePath
  else
    let counter := 1 in
    probeSuffixes (Z.to_nat (1000 - counter)) vault path baseName counter.

Definition isDailyNote (behavior : Behavior) : bool :=
  match behavior with
  | AppendDaily | PrependDaily => true
  | _ => false
  end.

(** [if (path && !path.endsWith('/')) path += '/'] *)
Definition normalizePath (path : string) : string :=
  if truthy path && negb (endsWith path "/") then path ++ "/" else path.

(** [new Date().toISOString().split('T')[0]] *)
Definition today : string := splitFirst "T" (toISOString now).

Definition contentType (body : string) : string * string :=
  if startsWith body "{" then ("Content-Type", "application/json")
  else ("Content-Type", "text/markdown").

Definition createNoteViaLocalRestApi
           (fileContent noteName path vault : string) (behavior : Behavior)
  : Async LocalRestApiResponse :=
  tryCatch
    (available <- isLocalRestApiAvailable ;;
     if negb available then
       ret (mkResult false (Some "Local REST API not available"))
     else
       let path := normalizePath path in
       let formattedNoteName := sanitizeFileName noteName in
       (* the locals url, method and body, as the branches leave them *)
       plan <-
         (if isDailyNote behavior then
            let dailyNotePath := today ++ ".md" in
            dailyFileExists <- checkFileExists vault dailyNotePath ;;
            url <- evaluate (buildUrl vault dailyNotePath) ;;
            if negb dailyFileExists then ret (url, "POST", fileContent)
            else
              match behavior with
              | AppendDaily =>
                  ret (url, "PATCH",
                       JSON_stringify [("content", fileContent); ("position", "end")])
              | _ =>
                  ret (url, "PATCH",
                       JSON_stringify [("content", fileContent); ("position", "start")])
              end
          else
            match behavior with
            | AppendSpecific =>
                let filePath := path ++ formattedNoteName ++ ".md" in
                appendFileExists <- checkFileExists vault filePath ;;
                url <- evaluate (buildUrl vault filePath) ;;
                if negb appendFileExists then ret (url, "POST", fileContent)
                else
                  ret (url, "PATCH",
                       JSON_stringify [("content", fileContent); ("position", "end")])
            | PrependSpecific =>
                let filePath := path ++ formattedNoteName ++ ".md" in
                prependFileExists <- checkFileExists vault filePath ;;
                url <- evaluate (buildUrl vault filePath) ;;
                if negb prependFileExists then ret (url, "POST", fileContent)
                else
                  ret (url, "PATCH",
                       JSON_stringify [("content", fileContent); ("position", "start")])
            | Overwrite =>
                let filePath := path ++ formattedNoteName ++ ".md" in
                url <- evaluate (buildUrl vault filePath) ;;
                ret (url, "PUT", fileContent)
            | _ =>
                filePath <- findAvailableFileName vault path formattedNoteName ;;
                url <- evaluate (buildUrl vault filePath) ;;
                ret (url, "POST", fileContent)
            end) ;;
       let '(url, method, body) := plan in
       let headers := [authorization; contentType body] in
       response <- fetch (mkRequest url method headers (Some body)) ;;
       if ok response then ret (mkResult true None)
       else
         errorText <- responseText response ;;
         ret (mkResult false
                (Some ("HTTP " ++ numberToString (status response) ++ ": " ++ errorText))))
    (fun error => ret (mkResult false (Some (errorMessage error)))).

End Program.

End LocalRestApi.

(** ** The revision without probes (src/unnamed/part_000)

    The same file before the existence prober and the namer were added.
    Its [isLocalRestApiAvailable] and [testLocalRestApiConnection] are
    those of [LocalRestApi], word for word; its
    [createNoteViaLocalRestApi] encodes the vault and the file path
    first, whatever the behavior, and then goes straight from the
    behavior to the request. *)

Module Unprobed.
Import JS Effects LocalRestApi.
Local Open Scope async_scope.

Section Program.

Variable generalSettings : GeneralSettings.
Variable sanitizeFileName : string -> string.
Variable remote : list Request -> Request -> FetchOutcome.
Variable now : Z.

Definition createNoteViaLocalRestApi
           (fileContent noteName path vault : string) (behavior : Behavior)
  : Async LocalRestApiResponse :=
  tryCatch
    (available <- isLocalRestApiAvailable generalSettings ;;
     if negb available then
       ret (mkResult false (Some "Local REST API not available"))
     else
       let path := normalizePath path in
       let formattedNoteName := sanitizeFileName noteName in
       let filePath := path ++ formattedNoteName ++ ".md" in
       (* both encodings are evaluated here, before the behavior is
          looked at; vault || '' *)
       encodedVault <-
         evaluate (encodeURIComponent (if truthy vault then vault else EmptyString)) ;;
       encodedFilePath <- evaluate (encodeURIComponent filePath) ;;
       plan <-
         (if isDailyNote behavior then
            let dailyNotePath := today now ++ ".md" in
            encodedDailyNotePath <- evaluate (encodeURIComponent dailyNotePath) ;;
            let url :=
              interp (localRestApiUrl generalSettings) ++ "/vault/" ++ encodedVault
              ++ "/" ++ encodedDailyNotePath in
            match behavior with
            | AppendDaily =>
                ret (url, "PATCH",
                     JSON_stringify [("content", fileContent); ("position", "end")])
            | _ =>
                ret (url, "PATCH",
                     JSON_stringify [("content", fileContent); ("position", "start")])
            end
          else
            match behavior with
            | AppendSpecific =>
                ret (interp (localRestApiUrl generalSettings) ++ "/vault/" ++ encodedVault
                     ++ "/" ++ encodedFilePath,
                     "PATCH",
                     JSON_stringify [("content", fileContent); ("position", "end")])
            | PrependSpecific =>
                ret (interp (localRestApiUrl generalSettings) ++ "/vault/" ++ encodedVault
                     ++ "/" ++ encodedFilePath,
                     "PATCH",
                     JSON_stringify [("content", fileContent); ("position", "start")])
            | Overwrite =>
                ret (interp (localRestApiUrl generalSettings) ++ "/vault/" ++ encodedVault
                     ++ "/" ++ encodedFilePath,
                     "PUT", fileContent)
            | _ =>
                ret (interp (localRestApiUrl generalSettings) ++ "/vault/" ++ encodedVault
                     ++ "/" ++ encodedFilePath,
                     "POST", fileContent)
            end) ;;
       let '(url, method, body) := plan in
       let headers := [authorization generalSettings; contentType body] in
       response <- fetch remote (mkRequest url method headers (Some body)) ;;
       if ok response then ret (mkResult true None)
       else
         errorText <- responseText response ;;
         ret (mkResult false
                (Some ("HTTP " ++ numberToString (status response) ++ ": " ++ errorText))))
    (fun error => ret (mkResult false (Some (errorMessage error)))).

End Program.

End Unprobed.

(** ** Vocabulary for the statements *)

Module Observations.
Import JS Effects LocalRestApi.

Section Vocabulary.

Variable generalSettings : GeneralSettings.
Variable remote : list Request -> Request -> FetchOutcome.

(** The availability gate as a condition on the settings. *)
Definition gateOpen : bool :=
  localRestApiEnabled generalSettings
  && truthy_opt (localRestApiUrl generalSettings)
  && truthy_opt (localRestApiKey generalSettings).

(** The address of [filePath] in [vault], each segment percent-encoded. *)
Definition address (vault filePath : string) : string :=
  if truthy vault then
    interp (localRestApiUrl generalSettings) ++ "/vault/" ++ percentEncodeAll vault
    ++ "/" ++ percentEncodeAll filePath
  else
    interp (localRestApiUrl generalSettings) ++ "/vault/" ++ percentEncodeAll filePath.

(** Both segments can be encoded: neither holds a lone surrogate. *)
Definition encodable (vault filePath : string) : bool :=
  wellFormed filePath && wellFormed vault.

(** The existence probe of [filePath]: an authenticated GET, no body. *)
Definition probe (vault filePath : string) : Request :=
  mkRequest (address vault filePath) "GET"
            [authorization generalSettings] None.

(** What the prober sends for [filePath]: its probe, or nothing when
    the address cannot be encoded. *)
Definition probing (vault filePath : string) : list Request :=
  if encodable vault filePath then [probe vault filePath] else [].

(** What the prober reports for [filePath] when [history] has been
    issued: present or absent. A target whose address cannot be encoded
    is reported absent. *)
Definition reportsPresent (history : list Request) (vault filePath : string) : bool :=
  encodable vault filePath
  && match remote history (probe vault filePath) with
     | Resolves r => ok r
     | Rejects _ => false
     end.

(** The mutating request of a placement, with the headers the code
    attaches to it. *)
Definition mutation (vault filePath method body : string) : Request :=
  mkRequest (address vault filePath) method
            [authorization generalSettings; contentType body]
            (Some body).

(** The world after [r] has been issued. *)
Definition issued (w : World) (r : Request) : World :=
  mkWorld (requests w ++ [r]) (warnings w).

(** The partial-update envelope [{content, position}], JSON encoded. *)
Definition envelope (content position : string) : string :=
  JSON_stringify [("content", content); ("position", position)].

(** The plan of an append or prepend behavior against a target that the
    prober reports present or absent: method and body. *)
Definition mergePlan (present : bool) (content position : string) : string * string :=
  if present then ("PATCH", envelope content position) else ("POST", content).

(** The position an append or prepend behavior asks for. *)
Definition position (behavior : Behavior) : string :=
  match behavior with
  | PrependSpecific | PrependDaily => "start"
  | _ => "end"
  end.

(** The outcome normalization in the words of the specification: a
    status in the success range is a success, any other status fails
    with "HTTP <status>: <body text>", an exception fails with its
    message. *)
Definition normalized (o : FetchOutcome) : LocalRestApiResponse :=
  match o with
  | Rejects e => mkResult false (Some (errorMessage e))
  | Resolves r =>
      if (200 <=? status r) && (status r <=? 299) then mkResult true None
      else match text r with
           | inr t =>
               mkResult false
                 (Some ("HTTP " ++ numberToString (status r) ++ ": " ++ t))
           | inl e => mkResult false (Some (errorMessage e))
           end
  end.

(** The candidates of the collision-avoidance namer: number 0 is the
    unsuffixed name, number k the name with suffix " k". *)
Definition candidate (path baseName : string) (k : nat) : string :=
  match k with
  | O => path ++ baseName ++ ".md"
  | S _ => path ++ baseName ++ " " ++ numberToString (Z.of_nat k) ++ ".md"
  end.

(** What the prober sends for the first [k] candidates, in order. *)
Definition probesUpTo (vault path baseName : string) (k : nat) : list Request :=
  flat_map (fun i => probing vault (candidate path baseName i)) (seq 0 k).

(** What the prober reports for candidate [i] when it is probed after
    [history] and the candidates before it. *)
Definition reportedAt (history : list Request) (vault path baseName : string)
           (i : nat) : bool :=
  reportsPresent (history ++ probesUpTo vault path baseName i) vault
                 (candidate path baseName i).

(** A calendar date written YYYY-MM-DD. *)
Definition dateStamp (y m d : Z) : string :=
  padded 4 y EmptyString ++ "-" ++ padded 2 m EmptyString ++ "-"
  ++ padded 2 d EmptyString.

(** The request of the connectivity prober: a GET of the service root. *)
Definition rootRequest : Request :=
  mkRequest (interp (localRestApiUrl generalSettings) ++ "/") "GET"
            [authorization generalSettings] None.

(** The name with the timestamp suffix. *)
Definition timestamped (path baseName : string) (now : Z) : string :=
  path ++ baseName ++ " " ++ numberToString now ++ ".md".

End Vocabulary.

(** Text of ASCII characters only. *)
Fixpoint plain (s : string) : bool :=
  match s with
  | EmptyString => true
  | String c rest => (code c <? 128) && plain rest
  end.

(** A text made of unreserved characters and '%' only: what is left of
    a segment once it is percent-encoded. *)
Definition percentEncodedText (s : string) : bool :=
  forallb (fun c => uriUnreserved c || Ascii.eqb c "%") (list_ascii_of_string s).

(** A string ends with exactly one '/'. *)
Definition endsWithOneSlash (s : string) : bool :=
  endsWith s "/" && negb (endsWith s "//").

(** *** Fixtures for the examples *)

Definition exampleSettings : GeneralSettings :=
  mkSettings true (Some "http://127.0.0.1:27123") (Some "secret").

(** A sanitizer that drops the characters # ^ [ ] | and keeps the rest. *)
Fixpoint dropReserved (s : string) : string :=
  match s with
  | EmptyString => EmptyString
  | String c rest =>
      if existsb (Ascii.eqb c) ["#"; "^"; "["; "]"; "|"]%char
      then dropReserved rest
      else String c (dropReserved rest)
  end.

(** A remote that holds no document and accepts every write. *)
Definition emptyRemote (_ : list Request) (r : Request) : FetchOutcome :=
  if String.eqb (method r) "GET"
  then Resolves (mkResponse 404 (inr "Not Found"))
  else Resolves (mkResponse 204 (inr EmptyString)).

(** A remote that answers every request with 200. *)
Definition fullRemote (_ : list Request) (_ : Request) : FetchOutcome :=
  Resolves (mkResponse 200 (inr "ok")).

(** A remote that holds exactly the documents at the given addresses. *)
Definition remoteHolding (held : list string) (_ : list Request) (r : Request)
  : FetchOutcome :=
  if String.eqb (method r) "GET" then
    if existsb (String.eqb (url r)) held
    then Resolves (mkResponse 200 (inr "held"))
    else Resolves (mkResponse 404 (inr "Not Found"))
  else Resolves (mkResponse 204 (inr EmptyString)).

(** A remote behind a failing server. *)
Definition brokenRemote (_ : list Request) (_ : Request) : FetchOutcome :=
  Resolves (mkResponse 500 (inr "Internal Server Error")).

(** No route to the remote. *)
Definition unreachable (_ : list Request) (_ : Request) : FetchOutcome :=
  Rejects (ErrorInstance "Failed to fetch").

(** The integration switched off. *)
Definition disabledSettings : GeneralSettings :=
  mkSettings false (Some "http://127.0.0.1:27123") (Some "secret").

Definition freshWorld : World := mkWorld [] [].

(** The lone surrogate U+D800, as a one-character string. *)
Definition loneSurrogate : string :=
  String "237" (String "160" (String "128" EmptyString)).

(** 2026-11-03T06:48:00.123Z *)
Definition exampleNow : Z := 1793688480123.

(** *** Further vocabulary *)

(** The number a string of decimal digits writes, continuing from [acc]. *)
Fixpoint decimalValueFrom (acc : Z) (s : string) : Z :=
  match s with
  | EmptyString => acc
  | String c rest => decimalValueFrom (10 * acc + (code c - 48)) rest
  end.

Definition decimalValue (s : string) : Z := decimalValueFrom 0 s.

(** A write: any request but a GET. *)
Definition isWrite (r : Request) : bool :=
  negb (String.eqb (method r) "GET").

(** A remote that keeps what it is sent: a GET finds a document exactly
    when an earlier write went to its address, and every write is
    accepted. *)
Definition keepingRemote (history : list Request) (r : Request) : FetchOutcome :=
  if isWrite r then Resolves (mkResponse 204 (inr EmptyString))
  else if existsb (fun q => isWrite q && String.eqb (url q) (url r)) history
       then Resolves (mkResponse 200 (inr "kept"))
       else Resolves (mkResponse 404 (inr "Not Found")).

(** The remote path a placement that is not a create works on. *)
Definition placementTarget (sanitizeFileName : string -> string) (now : Z)
           (noteName path : string) (behavior : Behavior) : string :=
  if isDailyNote behavior then today now ++ ".md"
  else normalizePath path ++ sanitizeFileName noteName ++ ".md".

(** Method and body that the revision without probes derives from the
    behavior alone. *)
Definition directPlan (behavior : Behavior) (content : string) : string * string :=
  match behavior with
  | Create => ("POST", content)
  | Overwrite => ("PUT", content)
  | _ => ("PATCH", envelope content (position behavior))
  end.

(** An answer the prober takes at its word: a status in 200..299, or
    404. *)
Definition cleanAnswer (o : FetchOutcome) : bool :=
  match o with
  | Resolves r => ok r || (status r =? 404)
  | Rejects _ => false
  end.

(** The failure result of a placement that ends in an exception. *)
Definition failure (e : Thrown) : LocalRestApiResponse :=
  mkResult false (Some (errorMessage e)).

(** What the prober writes to the console on an answer. *)
Definition probeLog (o : FetchOutcome) : list (list ConsoleArg) :=
  match o with
  | Resolves r =>
      if ok r then []
      else if status r =? 404 then []
      else [[Text ("Unexpected response when checking file existence: "
                   ++ numberToString (status r))]]
  | Rejects e => [[Text "Error checking file existence:"; Value e]]
  end.

(** What the prober writes when an address cannot be encoded. *)
Definition encodingWarning : list ConsoleArg :=
  [Text "Error checking file existence:"; Value URIError].

(** What the prober writes to the console for [filePath] when [history]
    has been issued. *)
Definition proberLog (generalSettings : GeneralSettings)
           (remote : list Request -> Request -> FetchOutcome)
           (history : list Request) (vault filePath : string)
  : list (list ConsoleArg) :=
  if encodable vault filePath
  then probeLog (remote history (probe generalSettings vault filePath))
  else [encodingWarning].

(** Every answer of the remote is one the prober takes at its word. *)
Definition cleanRemote (remote : list Request -> Request -> FetchOutcome) : Prop :=
  forall history r, cleanAnswer (remote history r) = true.

(** The console after a step from [w] to [w']: some more warnings, at
    most [n], and none under the condition [quiet]. *)
Definition logged (quiet : Prop) (w w' : World) (n : nat) : Prop :=
  exists extra,
    warnings w' = (warnings w ++ extra)%list
    /\ (List.length extra <= n)%nat
    /\ (quiet -> extra = []).

(** The value of a hexadecimal digit. *)
Definition hexValue (c : ascii) : Z :=
  let n := code c in
  if (48 <=? n) && (n <=? 57) then n - 48
  else if (97 <=? n) && (n <=? 102) then n - 87
  else if (65 <=? n) && (n <=? 70) then n - 55
  else 0.

(** The character a one-letter JSON escape stands for. *)
Definition unescaped (c : ascii) : ascii :=
  if Ascii.eqb c "b" then "008"
  else if Ascii.eqb c "t" then "009"
  else if Ascii.eqb c "n" then "010"
  else if Ascii.eqb c "f" then "012"
  else if Ascii.eqb c "r" then "013"
  else c.

(** The byte of a number in 0..255. *)
Definition byte (n : Z) : ascii := ascii_of_N (Z.to_N n).

(** The bytes that hold a code unit. *)
Definition utf8 (u : Z) : string :=
  if u <? 128 then String (byte u) EmptyString
  else if u <? 2048 then
    String (byte (192 + u / 64)) (String (byte (128 + u mod 64)) EmptyString)
  else
    String (byte (224 + u / 4096))
      (String (byte (128 + u / 64 mod 64))
         (String (byte (128 + u mod 64)) EmptyString)).

(** Reading a JSON string from just after its opening quote: the text
    it stands for, and what follows its closing quote. A \u escape is
    read as the code unit it names. *)
Fixpoint jsonReadString (s : string) : string * string :=
  match s with
  | EmptyString => (EmptyString, EmptyString)
  | String c0 tail =>
      if Ascii.eqb c0 "034" then (EmptyString, tail)
      else if Ascii.eqb c0 "\" then
        match tail with
        | EmptyString => (String c0 EmptyString, EmptyString)
        | String c1 rest1 =>
            if Ascii.eqb c1 "u" then
              match rest1 with
              | String a (String b (String h (String l rest))) =>
                  let (text, after) := jsonReadString rest in
                  (utf8 (((16 * hexValue a + hexValue b) * 16 + hexValue h) * 16
                         + hexValue l)
                   ++ text,
                   after)
              | _ =>
                  let (text, after) := jsonReadString rest1 in
                  (String c1 text, after)
              end
            else
              let (text, after) := jsonReadString rest1 in
              (String (unescaped c1) text, after)
        end
      else
        let (text, after) := jsonReadString tail in
        (String c0 text, after)
  end.

End Observations.

(** ** Properties *)

Module Properties.
Import JS Effects LocalRestApi Observations.
Local Open Scope async_scope.

(** *** Well-formed text *)

Lemma plain_well_formed (t : string) : plain t = true -> hasLoneSurrogate t = false.
Proof.
  induction t as [|c0 t IH]; intros Hplain; [reflexivity|].
  cbn [plain] in Hplain. apply andb_true_iff in Hplain as [Hc0 Ht].
  cbn [hasLoneSurrogate]. rewrite (IH Ht), orb_false_r.
  destruct t as [|c1 [|c2 t]]; try reflexivity.
  unfold surrogateBytes.
  replace (code c0 =? 237) with false; [reflexivity|].
  symmetry. apply Z.eqb_neq. apply Z.ltb_lt in Hc0. lia.
Qed.

(** A lone surrogate is made of bytes above the ASCII range, so an ASCII
    tail neither completes one nor starts one. *)
Lemma plain_tail (a t : string) :
  plain t = true -> hasLoneSurrogate (a ++ t) = hasLoneSurrogate a.
Proof.
  intros Hplain. induction a as [|c0 a IH].
  - cbn [append]. rewrite plain_well_formed by assumption. reflexivity.
  - cbn [append hasLoneSurrogate]. rewrite IH. f_equal.
    destruct a as [|c1 [|c2 a]]; cbn [append].
    + destruct t as [|c1 [|c2 t]]; try reflexivity.
      cbn [plain] in Hplain. apply andb_true_iff in Hplain as [Hc1 _].
      unfold surrogateBytes.
      replace (160 <=? code c1) with false; [rewrite andb_false_r; reflexivity|].
      symmetry. apply Z.leb_gt. apply Z.ltb_lt in Hc1. lia.
    + destruct t as [|c2 t]; [reflexivity|].
      cbn [plain] in Hplain. apply andb_true_iff in Hplain as [Hc2 _].
      unfold surrogateBytes.
      replace (128 <=? code c2) with false;
        [rewrite andb_false_r; reflexivity|].
      symmetry. apply Z.leb_gt. apply Z.ltb_lt in Hc2. lia.
    + reflexivity.
Qed.

Lemma plain_append (a b : string) :
  plain a = true -> plain b = true -> plain (a ++ b) = true.
Proof.
  intros Ha Hb. induction a as [|c a IH]; [exact Hb|].
  cbn [plain append] in *. apply andb_true_iff in Ha as [Hc Ha].
  rewrite Hc, (IH Ha). reflexivity.
Qed.

Lemma plain_digit (n : Z) : (code (digit n) <? 128) = true.
Proof.
  unfold digit, code.
  pose proof (Z.mod_pos_bound n 10 ltac:(lia)) as Hrange.
  rewrite N_ascii_embedding by lia. apply Z.ltb_lt. lia.
Qed.

Lemma plain_digits_fuel (fuel : nat) :
  forall (n : Z) (acc : string),
    plain acc = true -> plain (digits_fuel fuel n acc) = true.
Proof.
  induction fuel as [|fuel IH]; intros n acc Hacc; [exact Hacc|].
  cbn [digits_fuel].
  assert (Hstep : plain (String (digit n) acc) = true)
    by (cbn [plain]; rewrite plain_digit, Hacc; reflexivity).
  destruct (n <? 10); [exact Hstep|]. apply IH. exact Hstep.
Qed.

Lemma plain_numberToString (n : Z) : plain (numberToString n) = true.
Proof.
  unfold numberToString, digits.
  destruct (n <? 0).
  - cbn [plain]. rewrite plain_digits_fuel by reflexivity. reflexivity.
  - apply plain_digits_fuel. reflexivity.
Qed.

Lemma plain_padded (width : nat) :
  forall (n : Z) (acc : string),
    plain acc = true -> plain (padded width n acc) = true.
Proof.
  induction width as [|width IH]; intros n acc Hacc; [exact Hacc|].
  cbn [padded]. apply IH. cbn [plain]. rewrite plain_digit, Hacc. reflexivity.
Qed.

Lemma plain_splitFirst (sep : ascii) (s : string) :
  plain s = true -> plain (splitFirst sep s) = true.
Proof.
  induction s as [|c s IH]; intros Hs; [reflexivity|].
  cbn [plain splitFirst] in *. apply andb_true_iff in Hs as [Hc Hs].
  destruct (Ascii.eqb c sep); [reflexivity|].
  cbn [plain]. rewrite Hc, (IH Hs). reflexivity.
Qed.

Lemma plain_toISOString (ms : Z) : plain (toISOString ms) = true.
Proof.
  unfold toISOString, isoDate, isoYear.
  destruct (utcDate ms) as [[y m] d].
  repeat (apply plain_append
          || apply plain_padded
          || reflexivity
          || match goal with
             | |- plain (if ?c then _ else _) = true => destruct c
             | |- plain (String _ _) = true =>
                 cbn [plain]; apply andb_true_iff; split
             end).
Qed.

(** The name of the daily note is ASCII text. *)
Lemma plain_today (now : Z) : plain (today now ++ ".md") = true.
Proof.
  apply plain_append; [|reflexivity].
  apply plain_splitFirst, plain_toISOString.
Qed.

Lemma wellFormed_tail (a t : string) :
  plain t = true -> wellFormed (a ++ t) = wellFormed a.
Proof.
  intros Hplain. unfold wellFormed. rewrite plain_tail by assumption. reflexivity.
Qed.

Lemma append_associative (a b c : string) : (a ++ b) ++ c = a ++ b ++ c.
Proof.
  induction a as [|x a IH]; cbn; [reflexivity|]. rewrite IH. reflexivity.
Qed.

(** Every candidate of the namer is well-formed exactly when the
    unsuffixed one is. *)
Lemma wellFormed_candidate (path baseName : string) (i : nat) :
  wellFormed (candidate path baseName i) = wellFormed (path ++ baseName ++ ".md").
Proof.
  destruct i as [|i]; [reflexivity|].
  unfold candidate.
  set (suffix := " " ++ numberToString (Z.of_nat (S i)) ++ ".md").
  rewrite <- (append_associative path baseName suffix).
  rewrite <- (append_associative path baseName ".md").
  rewrite (wellFormed_tail (path ++ baseName) ".md") by reflexivity.
  rewrite (wellFormed_tail (path ++ baseName) suffix); [reflexivity|].
  subst suffix. apply plain_append; [reflexivity|].
  apply plain_append; [apply plain_numberToString|reflexivity].
Qed.

Lemma wellFormed_timestamped (path baseName : string) (now : Z) :
  wellFormed (timestamped path baseName now) = wellFormed (path ++ baseName ++ ".md").
Proof.
  unfold timestamped.
  set (suffix := " " ++ numberToString now ++ ".md").
  rewrite <- (append_associative path baseName suffix).
  rewrite <- (append_associative path baseName ".md").
  rewrite (wellFormed_tail (path ++ baseName) ".md") by reflexivity.
  rewrite (wellFormed_tail (path ++ baseName) suffix); [reflexivity|].
  subst suffix. apply plain_append; [reflexivity|].
  apply plain_append; [apply plain_numberToString|reflexivity].
Qed.

Section Runs.

Variable generalSettings : GeneralSettings.
Variable sanitizeFileName : string -> string.
Variable remote : list Request -> Request -> FetchOutcome.
Variable now : Z.

Local Abbreviation checkFileExists := (checkFileExists generalSettings remote).
Local Abbreviation findAvailableFileName := (findAvailableFileName generalSettings remote now).
Local Abbreviation probeSuffixes := (probeSuffixes generalSettings remote now).
Local Abbreviation createNote :=
  (createNoteViaLocalRestApi generalSettings sanitizeFileName remote now).
Local Abbreviation testConnection := (testLocalRestApiConnection generalSettings remote).
Local Abbreviation address := (address generalSettings).
Local Abbreviation probe := (probe generalSettings).
Local Abbreviation probing := (probing generalSettings).
Local Abbreviation reportsPresent := (reportsPresent generalSettings remote).
Local Abbreviation proberLog := (proberLog generalSettings remote).
Local Abbreviation mutation := (mutation generalSettings).
Local Abbreviation gateOpen := (gateOpen generalSettings).
Local Abbreviation placementTarget := (placementTarget sanitizeFileName now).

Lemma gate_run (w : World) :
  isLocalRestApiAvailable generalSettings w = (Normal gateOpen, w).
Proof.
  unfold isLocalRestApiAvailable, Observations.gateOpen.
  destruct (localRestApiEnabled generalSettings); [|reflexivity].
  destruct (truthy_opt (localRestApiUrl generalSettings)); [|reflexivity].
  destruct (truthy_opt (localRestApiKey generalSettings)); reflexivity.
Qed.

(** [buildUrl] gives the address when both segments can be encoded, and
    throws the URIError otherwise. *)
Lemma buildUrl_address (vault filePath : string) :
  buildUrl generalSettings vault filePath =
  if encodable vault filePath then inr (address vault filePath) else inl URIError.
Proof.
  unfold buildUrl, encodable, wellFormed, encodeURIComponent, Observations.address.
  destruct (hasLoneSurrogate filePath); [reflexivity|].
  destruct (truthy vault) eqn:Htruthy.
  - destruct (hasLoneSurrogate vault); reflexivity.
  - destruct vault; [reflexivity|discriminate Htruthy].
Qed.

Lemma probing_encodable (vault filePath : string) :
  encodable vault filePath = true ->
  probing vault filePath = [probe vault filePath].
Proof.
  intros Henc. unfold Observations.probing. rewrite Henc. reflexivity.
Qed.

Lemma probing_unencodable (vault filePath : string) :
  encodable vault filePath = false -> probing vault filePath = [].
Proof.
  intros Henc. unfold Observations.probing. rewrite Henc. reflexivity.
Qed.

(** The prober in closed form: it always completes normally; when the
    address can be encoded it issues its probe and reports what the
    answer says; when it cannot, it issues nothing, warns and reports
    absent. *)
Lemma checkFileExists_closed (vault filePath : string) (w : World) :
  checkFileExists vault filePath w =
  (Normal (reportsPresent (requests w) vault filePath),
   mkWorld (requests w ++ probing vault filePath)
           (warnings w ++ proberLog (requests w) vault filePath)).
Proof.
  unfold LocalRestApi.checkFileExists, Observations.reportsPresent,
    Observations.probing, Observations.proberLog, Observations.probe,
    Observations.address, encodable, wellFormed, encodeURIComponent,
    encodingWarning, tryCatch, bind, evaluate, throw, fetch, console_warn, ret.
  destruct (hasLoneSurrogate filePath).
  - cbn. rewrite app_nil_r. reflexivity.
  - destruct (truthy vault) eqn:Htruthy.
    + destruct (hasLoneSurrogate vault); cbn.
      * rewrite app_nil_r. reflexivity.
      * destruct (remote _ _) as [r|e]; cbn; [|reflexivity].
        destruct (ok r); cbn; [rewrite app_nil_r; reflexivity|].
        destruct (status r =? 404); cbn; [rewrite app_nil_r|]; reflexivity.
    + destruct vault; [|discriminate Htruthy]. cbn.
      destruct (remote _ _) as [r|e]; cbn; [|reflexivity].
      destruct (ok r); cbn; [rewrite app_nil_r; reflexivity|].
      destruct (status r =? 404); cbn; [rewrite app_nil_r|]; reflexivity.
Qed.

Lemma checkFileExists_run (vault filePath : string) (w : World) :
  exists log,
    checkFileExists vault filePath w =
    (Normal (reportsPresent (requests w) vault filePath),
     mkWorld (requests w ++ probing vault filePath) log).
Proof.
  rewrite checkFileExists_closed. eauto.
Qed.

Lemma closed_gate_run (fileContent noteName path vault : string)
      (behavior : Behavior) (w : World) :
  gateOpen = false ->
  createNote fileContent noteName path vault behavior w =
  (Normal (mkResult false (Some "Local REST API not available")), w).
Proof.
  intros Hgate.
  unfold createNoteViaLocalRestApi, tryCatch, bind.
  rewrite gate_run, Hgate. reflexivity.
Qed.

(** C3. When the availability gate is closed (the integration is
    disabled, or the endpoint address or the key is missing or empty),
    the gate reports false and, for every behavior and every input,
    [createNoteViaLocalRestApi] returns a failure with the message
    "Local REST API not available" and leaves the world as it found it:
    no request is issued (and nothing is logged). *)
Theorem gate_closed_no_network
        (fileContent noteName path vault : string) (behavior : Behavior) (w : World) :
  localRestApiEnabled generalSettings = false
  \/ localRestApiUrl generalSettings = None
  \/ localRestApiUrl generalSettings = Some EmptyString
  \/ localRestApiKey generalSettings = None
  \/ localRestApiKey generalSettings = Some EmptyString ->
  isLocalRestApiAvailable generalSettings w = (Normal false, w)
  /\ createNote fileContent noteName path vault behavior w =
     (Normal (mkResult false (Some "Local REST API not available")), w).
Proof.
  intros Hclosed.
  assert (Hgate : gateOpen = false).
  { unfold Observations.gateOpen.
    destruct Hclosed as [H|[H|[H|[H|H]]]]; rewrite H; cbn;
      rewrite ?andb_false_r; reflexivity. }
  split.
  - rewrite gate_run, Hgate. reflexivity.
  - apply closed_gate_run. exact Hgate.
Qed.

(** C4. [checkFileExists] always completes normally: it never throws.
    When the address can be encoded it issues exactly one GET; it
    returns true exactly when the request was answered with a status in
    200..299, and then logs nothing; on a 404 it returns false and logs
    nothing; on any other status it returns false after one warning
    naming the status; when the request is rejected it returns false
    after one warning carrying the thrown value. When the address cannot
    be encoded (a lone surrogate in the path or the vault) the exception
    of the encoding is caught like any other: no request is issued and
    the prober returns false after one warning carrying the URIError. *)
Theorem checkFileExists_verdict (vault filePath : string) (w : World) :
  exists (b : bool) (w' : World),
    checkFileExists vault filePath w = (Normal b, w')
    /\ requests w' = (requests w ++ probing vault filePath)%list
    /\ (b = true <->
        encodable vault filePath = true
        /\ exists r, remote (requests w) (probe vault filePath) = Resolves r
                     /\ 200 <= status r <= 299)
    /\ (encodable vault filePath = true ->
        requests w' = (requests w ++ [probe vault filePath])%list
        /\ (forall r, remote (requests w) (probe vault filePath) = Resolves r ->
                      200 <= status r <= 299 -> warnings w' = warnings w)
        /\ (forall r, remote (requests w) (probe vault filePath) = Resolves r ->
                      status r = 404 -> b = false /\ warnings w' = warnings w)
        /\ (forall r, remote (requests w) (probe vault filePath) = Resolves r ->
                      ~ 200 <= status r <= 299 -> status r <> 404 ->
                      b = false
                      /\ warnings w' =
                         (warnings w
                          ++ [[Text ("Unexpected response when checking file existence: "
                                     ++ numberToString (status r))]])%list)
        /\ (forall e, remote (requests w) (probe vault filePath) = Rejects e ->
                      b = false
                      /\ warnings w' =
                         (warnings w
                          ++ [[Text "Error checking file existence:"; Value e]])%list))
    /\ (encodable vault filePath = false ->
        b = false
        /\ requests w' = requests w
        /\ warnings w' =
           (warnings w
            ++ [[Text "Error checking file existence:"; Value URIError]])%list).
Proof.
  rewrite checkFileExists_closed.
  unfold Observations.reportsPresent, Observations.probing, Observations.proberLog.
  destruct (encodable vault filePath).
  - cbn [andb].
    destruct (remote (requests w) (probe vault filePath)) as [r|e] eqn:Hremote.
    + unfold probeLog, ok.
      destruct (Z.leb_spec 200 (status r)), (Z.leb_spec (status r) 299); cbn [andb];
        try (destruct (Z.eqb_spec (status r) 404));
        eexists; eexists; (split; [reflexivity|]); cbn [requests warnings];
        rewrite ?app_nil_r;
        repeat split; intros;
        repeat match goal with
               | H : Resolves _ = Resolves _ |- _ => injection H as <-
               | H : _ /\ _ |- _ => destruct H
               | H : exists _, _ |- _ => destruct H as (? & ? & ?)
               end;
        try discriminate; try lia; try reflexivity; eauto.
    + eexists; eexists; (split; [reflexivity|]); cbn [requests warnings probeLog].
      repeat split; intros;
        repeat match goal with
               | H : Rejects _ = Rejects _ |- _ => injection H as <-
               | H : _ /\ _ |- _ => destruct H
               | H : exists _, _ |- _ => destruct H as (? & ? & ?)
               end;
        try discriminate; try reflexivity.
  - cbn [andb].
    eexists; eexists; (split; [reflexivity|]); cbn [requests warnings].
    rewrite app_nil_r.
    repeat split; intros;
      repeat match goal with
             | H : _ /\ _ |- _ => destruct H
             end;
      try discriminate; try reflexivity.
Qed.

(** The last step of a placement, whatever computed the plan: once the
    gate is open and the plan is [(url, method, body)], the request is
    issued and its outcome normalized. *)
Lemma placement_shape (plan : Async (string * string * string))
      (vault target method body : string) (w w1 : World) :
  gateOpen = true ->
  plan w = (Normal (address vault target, method, body), w1) ->
  tryCatch
    (available <- isLocalRestApiAvailable generalSettings ;;
     if negb available then
       ret (mkResult false (Some "Local REST API not available"))
     else
       p <- plan ;;
       let '(url, method, body) := p in
       let headers := [authorization generalSettings; contentType body] in
       response <- fetch remote (mkRequest url method headers (Some body)) ;;
       if ok response then ret (mkResult true None)
       else
         errorText <- responseText response ;;
         ret (mkResult false
                (Some ("HTTP " ++ numberToString (status response) ++ ": " ++ errorText))))
    (fun error => ret (mkResult false (Some (errorMessage error)))) w
  = (Normal (normalized (remote (requests w1) (mutation vault target method body))),
     issued w1 (mutation vault target method body)).
Proof.
  intros Hgate Hplan.
  unfold tryCatch, bind. rewrite gate_run, Hgate. cbn [negb].
  rewrite Hplan. cbv zeta.
  unfold fetch, normalized, issued, ok.
  change (mkRequest (address vault target) method
            [authorization generalSettings; contentType body] (Some body))
    with (mutation vault target method body).
  destruct (remote (requests w1) (mutation vault target method body)) as [r|e];
    [|reflexivity].
  destruct ((200 <=? status r) && (status r <=? 299)); [reflexivity|].
  unfold responseText. destruct (text r); reflexivity.
Qed.

(** When the plan ends in an exception instead, nothing more is issued
    and the placement fails with the exception's message. *)
Lemma placement_thrown (plan : Async (string * string * string))
      (e : Thrown) (w w1 : World) :
  gateOpen = true ->
  plan w = (Abrupt e, w1) ->
  tryCatch
    (available <- isLocalRestApiAvailable generalSettings ;;
     if negb available then
       ret (mkResult false (Some "Local REST API not available"))
     else
       p <- plan ;;
       let '(url, method, body) := p in
       let headers := [authorization generalSettings; contentType body] in
       response <- fetch remote (mkRequest url method headers (Some body)) ;;
       if ok response then ret (mkResult true None)
       else
         errorText <- responseText response ;;
         ret (mkResult false
                (Some ("HTTP " ++ numberToString (status response) ++ ": " ++ errorText))))
    (fun error => ret (mkResult false (Some (errorMessage error)))) w
  = (Normal (failure e), w1).
Proof.
  intros Hgate Hplan.
  unfold tryCatch, bind. rewrite gate_run, Hgate. cbn [negb].
  rewrite Hplan. reflexivity.
Qed.

(** *** The collision-avoidance namer *)

Lemma probesUpTo_S (vault path baseName : string) (k : nat) :
  probesUpTo generalSettings vault path baseName (S k) =
  (probesUpTo generalSettings vault path baseName k
   ++ probing vault (candidate path baseName k))%list.
Proof.
  unfold probesUpTo. rewrite seq_S, flat_map_app. cbn [flat_map].
  rewrite app_nil_r. reflexivity.
Qed.

Lemma candidate_suffixed (path baseName : string) (k : nat) :
  (1 <= k)%nat ->
  candidate path baseName k =
  path ++ baseName ++ " " ++ numberToString (Z.of_nat k) ++ ".md".
Proof.
  destruct k; [lia|reflexivity].
Qed.

Lemma probeSuffixes_step (n : nat) (vault path baseName : string) (counter : Z)
      (w : World) :
  probeSuffixes (S n) vault path baseName counter w =
  match checkFileExists vault
          (path ++ baseName ++ " " ++ numberToString counter ++ ".md") w with
  | (Normal fileExists, w') =>
      if negb fileExists
      then (Normal (path ++ baseName ++ " " ++ numberToString counter ++ ".md"), w')
      else probeSuffixes n vault path baseName (counter + 1) w'
  | (Abrupt e, w') => (Abrupt e, w')
  end.
Proof.
  cbn [LocalRestApi.probeSuffixes]. unfold bind.
  destruct (checkFileExists _ _ w) as [[fileExists|e] w']; [|reflexivity].
  destruct fileExists; reflexivity.
Qed.

Section Search.

Variables vault path baseName : string.
Variable history : list Request.

Local Abbreviation cand := (candidate path baseName).
Local Abbreviation upTo := (probesUpTo generalSettings vault path baseName).
Local Abbreviation reported := (reportedAt generalSettings remote history vault path baseName).

(** The loop started at suffix [k] returns the first candidate from [k] on
    that is reported absent, having probed up to it. *)
Lemma suffix_found (n : nat) :
  forall (k : nat) (w : World),
    (n + k = 1000)%nat -> (1 <= k)%nat ->
    requests w = (history ++ upTo k)%list ->
    forall j : nat,
      (k <= j)%nat -> (j <= 999)%nat ->
      (forall i, (k <= i < j)%nat -> reported i = true) ->
      reported j = false ->
      exists log,
        probeSuffixes n vault path baseName (Z.of_nat k) w =
        (Normal (cand j), mkWorld (history ++ upTo (S j)) log).
Proof.
  induction n as [|n IH]; intros k w Hn Hk Hw j Hkj Hj Hbefore Hat; [lia|].
  rewrite probeSuffixes_step, <- (candidate_suffixed path baseName k Hk).
  destruct (checkFileExists_run vault (cand k) w) as [log ->].
  rewrite Hw. fold (reported k). rewrite <- app_assoc, <- probesUpTo_S.
  destruct (Nat.eq_dec k j) as [->|Hne].
  - rewrite Hat. cbn [negb]. eauto.
  - rewrite Hbefore by lia. cbn [negb].
    replace (Z.of_nat k + 1) with (Z.of_nat (S k)) by lia.
    apply IH; try lia; try reflexivity; try assumption.
    intros i Hi. apply Hbefore. lia.
Qed.

(** When every candidate from [k] on is reported present, the loop ends
    after candidate 999 with the timestamped name. *)
Lemma suffix_exhausted (n : nat) :
  forall (k : nat) (w : World),
    (n + k = 1000)%nat -> (1 <= k)%nat ->
    requests w = (history ++ upTo k)%list ->
    (forall i, (k <= i < 1000)%nat -> reported i = true) ->
    exists log,
      probeSuffixes n vault path baseName (Z.of_nat k) w =
      (Normal (timestamped path baseName now), mkWorld (history ++ upTo 1000) log).
Proof.
  induction n as [|n IH]; intros k w Hn Hk Hw Hall.
  - assert (k = 1000%nat) as -> by lia.
    cbn [LocalRestApi.probeSuffixes]. unfold ret, timestamped.
    exists (warnings w). rewrite <- Hw. destruct w; reflexivity.
  - rewrite probeSuffixes_step, <- (candidate_suffixed path baseName k Hk).
    destruct (checkFileExists_run vault (cand k) w) as [log ->].
    rewrite Hw. fold (reported k). rewrite <- app_assoc, <- probesUpTo_S.
    rewrite Hall by lia. cbn [negb].
    replace (Z.of_nat k + 1) with (Z.of_nat (S k)) by lia.
    apply IH; try lia; try reflexivity.
    intros i Hi. apply Hall. lia.
Qed.

(** Either some candidate below [n] is the first reported absent, or all
    of them are reported present. *)
Lemma first_absent (n : nat) :
  (exists j, (j < n)%nat /\ reported j = false
             /\ forall i, (i < j)%nat -> reported i = true)
  \/ (forall i, (i < n)%nat -> reported i = true).
Proof.
  induction n as [|n [(j & Hj & Hat & Hbefore)|Hall]].
  - right. intros i Hi. lia.
  - left. exists j. repeat split; auto.
  - destruct (reported n) eqn:Hn.
    + right. intros i Hi. destruct (Nat.eq_dec i n) as [->|]; [assumption|].
      apply Hall. lia.
    + left. exists n. repeat split; auto.
Qed.

End Search.

Lemma reportedAt_zero (history : list Request) (vault path baseName : string) :
  reportedAt generalSettings remote history vault path baseName 0 =
  reportsPresent history vault (candidate path baseName 0).
Proof.
  unfold reportedAt, probesUpTo. cbn [seq flat_map]. rewrite app_nil_r. reflexivity.
Qed.

Lemma probesUpTo_one (vault path baseName : string) :
  probesUpTo generalSettings vault path baseName 1 =
  probing vault (candidate path baseName 0).
Proof.
  unfold probesUpTo. cbn [seq flat_map]. apply app_nil_r.
Qed.

Lemma findAvailableFileName_found (vault path baseName : string) (w : World) (j : nat) :
  (j <= 999)%nat ->
  (forall i, (i < j)%nat ->
             reportedAt generalSettings remote (requests w) vault path baseName i = true) ->
  reportedAt generalSettings remote (requests w) vault path baseName j = false ->
  exists log,
    findAvailableFileName vault path baseName w =
    (Normal (candidate path baseName j),
     mkWorld (requests w ++ probesUpTo generalSettings vault path baseName (S j)) log).
Proof.
  intros Hj Hbefore Hat.
  unfold LocalRestApi.findAvailableFileName, bind.
  change (path ++ baseName ++ ".md") with (candidate path baseName 0).
  destruct (checkFileExists_run vault (candidate path baseName 0) w) as [log ->].
  rewrite <- reportedAt_zero, <- probesUpTo_one.
  destruct j as [|j].
  - rewrite Hat. cbn [negb]. unfold ret. eauto.
  - rewrite Hbefore by lia. cbn [negb].
    apply (suffix_found vault path baseName (requests w) 999 1); cbn [requests];
      try lia; try assumption.
    + reflexivity.
    + intros i Hi. apply Hbefore. lia.
Qed.

Lemma findAvailableFileName_exhausted (vault path baseName : string) (w : World) :
  (forall i, (i < 1000)%nat ->
             reportedAt generalSettings remote (requests w) vault path baseName i = true) ->
  exists log,
    findAvailableFileName vault path baseName w =
    (Normal (timestamped path baseName now),
     mkWorld (requests w ++ probesUpTo generalSettings vault path baseName 1000) log).
Proof.
  intros Hall.
  unfold LocalRestApi.findAvailableFileName, bind.
  change (path ++ baseName ++ ".md") with (candidate path baseName 0).
  destruct (checkFileExists_run vault (candidate path baseName 0) w) as [log ->].
  rewrite <- reportedAt_zero, <- probesUpTo_one, Hall by lia. cbn [negb].
  apply (suffix_exhausted vault path baseName (requests w) 999 1); cbn [requests];
    try lia.
  - reflexivity.
  - intros i Hi. apply Hall. lia.
Qed.

(** The namer always returns a name, after probing the first [k]
    candidates and nothing else, for some [k] of at most 1000. *)
Lemma findAvailableFileName_total (vault path baseName : string) (w : World) :
  exists (name : string) (k : nat) (log : list (list ConsoleArg)),
    findAvailableFileName vault path baseName w =
    (Normal name,
     mkWorld (requests w ++ probesUpTo generalSettings vault path baseName k) log)
    /\ (1 <= k <= 1000)%nat
    /\ (name = timestamped path baseName now
        \/ exists j, (j < 1000)%nat /\ name = candidate path baseName j).
Proof.
  destruct (first_absent vault path baseName (requests w) 1000)
    as [(j & Hj & Hat & Hbefore)|Hall].
  - destruct (findAvailableFileName_found vault path baseName w j) as [log Hrun];
      try lia; try assumption.
    exists (candidate path baseName j), (S j), log.
    split; [exact Hrun|]. split; [lia|]. right. exists j. split; [lia|reflexivity].
  - destruct (findAvailableFileName_exhausted vault path baseName w Hall) as [log Hrun].
    exists (timestamped path baseName now), 1000%nat, log.
    split; [exact Hrun|]. split; [lia|]. left. reflexivity.
Qed.

(** All the names the namer considers can be encoded, or none can. *)
Lemma encodable_candidate (vault path baseName : string) (i : nat) :
  encodable vault (candidate path baseName i) =
  encodable vault (path ++ baseName ++ ".md").
Proof.
  unfold encodable. rewrite wellFormed_candidate. reflexivity.
Qed.

Lemma encodable_timestamped (vault path baseName : string) :
  encodable vault (timestamped path baseName now) =
  encodable vault (path ++ baseName ++ ".md").
Proof.
  unfold encodable. rewrite wellFormed_timestamped. reflexivity.
Qed.

(** When the names can be encoded, every candidate is probed. *)
Lemma probesUpTo_encodable (vault path baseName : string) (k : nat) :
  encodable vault (path ++ baseName ++ ".md") = true ->
  probesUpTo generalSettings vault path baseName k =
  map (fun i => probe vault (candidate path baseName i)) (seq 0 k).
Proof.
  intros Henc. induction k as [|k IH]; [reflexivity|].
  rewrite probesUpTo_S, IH, seq_S, map_app.
  unfold Observations.probing. rewrite encodable_candidate, Henc. reflexivity.
Qed.

(** When they cannot, nothing is ever sent. *)
Lemma probesUpTo_unencodable (vault path baseName : string) (k : nat) :
  encodable vault (path ++ baseName ++ ".md") = false ->
  probesUpTo generalSettings vault path baseName k = [].
Proof.
  intros Henc. induction k as [|k IH]; [reflexivity|].
  rewrite probesUpTo_S, IH.
  unfold Observations.probing. rewrite encodable_candidate, Henc. reflexivity.
Qed.

Lemma probesUpTo_length (vault path baseName : string) (k : nat) :
  (List.length (probesUpTo generalSettings vault path baseName k) <= k)%nat.
Proof.
  destruct (encodable vault (path ++ baseName ++ ".md")) eqn:Henc.
  - rewrite probesUpTo_encodable by assumption.
    rewrite length_map, length_seq. lia.
  - rewrite probesUpTo_unencodable by assumption. cbn. lia.
Qed.

(** *** The placement as a whole *)

Lemma placementTarget_daily (noteName path : string) (behavior : Behavior) :
  isDailyNote behavior = true ->
  placementTarget noteName path behavior = today now ++ ".md".
Proof.
  intros Hdaily. unfold Observations.placementTarget. rewrite Hdaily. reflexivity.
Qed.

Lemma placementTarget_regular (noteName path : string) (behavior : Behavior) :
  isDailyNote behavior = false ->
  placementTarget noteName path behavior =
  normalizePath path ++ sanitizeFileName noteName ++ ".md".
Proof.
  intros Hregular. unfold Observations.placementTarget. rewrite Hregular. reflexivity.
Qed.

(** The target of a daily placement can be encoded exactly when the
    vault can. *)
Lemma encodable_daily (vault : string) :
  encodable vault (today now ++ ".md") = wellFormed vault.
Proof.
  unfold encodable, wellFormed at 1.
  rewrite plain_well_formed by apply plain_today. reflexivity.
Qed.

(** A branch that probes [target] and then merges at [place]: run the
    prober, split on its report, and close with the last step. *)
Ltac probed_branch Henc target place :=
  match goal with
  | |- context [createNoteViaLocalRestApi ?gs _ ?remote _ ?content _ _ ?vault _ ?w] =>
      let log := fresh "log" in
      let Hrun := fresh "Hrun" in
      let Hpresent := fresh "Hpresent" in
      destruct (checkFileExists_run vault target w) as [log Hrun];
      rewrite (probing_encodable vault target Henc) in Hrun;
      destruct (Observations.reportsPresent gs remote (requests w) vault target)
        eqn:Hpresent;
      [exists target, "PATCH", (envelope content place),
         (mkWorld (requests w ++ [Observations.probe gs vault target]) log)
      |exists target, "POST", content,
         (mkWorld (requests w ++ [Observations.probe gs vault target]) log)];
      (split; [|auto]);
      unfold createNoteViaLocalRestApi; cbv zeta; cbn [isDailyNote];
      (apply placement_shape; [assumption|]);
      unfold bind; rewrite Hrun, buildUrl_address, Henc; reflexivity
  end.

(** With the gate open and a target that can be encoded, a placement
    ends with exactly one mutating request, issued after the probes of
    its branch, and returns the normalized outcome of that request. *)
Lemma createNote_run (fileContent noteName path vault : string)
      (behavior : Behavior) (w : World) :
  gateOpen = true ->
  encodable vault (placementTarget noteName path behavior) = true ->
  let regular := normalizePath path ++ sanitizeFileName noteName ++ ".md" in
  let daily := today now ++ ".md" in
  exists (target method body : string) (w1 : World),
    createNote fileContent noteName path vault behavior w =
    (Normal (normalized (remote (requests w1) (mutation vault target method body))),
     issued w1 (mutation vault target method body))
    /\ match behavior with
       | Overwrite =>
           w1 = w /\ target = regular /\ method = "PUT" /\ body = fileContent
       | AppendSpecific | PrependSpecific =>
           requests w1 = (requests w ++ [probe vault regular])%list
           /\ target = regular
           /\ (method, body) =
              mergePlan (reportsPresent (requests w) vault regular)
                        fileContent (position behavior)
       | AppendDaily | PrependDaily =>
           requests w1 = (requests w ++ [probe vault daily])%list
           /\ target = daily
           /\ (method, body) =
              mergePlan (reportsPresent (requests w) vault daily)
                        fileContent (position behavior)
       | Create =>
           findAvailableFileName vault (normalizePath path)
                                 (sanitizeFileName noteName) w = (Normal target, w1)
           /\ method = "POST" /\ body = fileContent
       end.
Proof.
  intros Hgate Henc regular daily. subst regular daily.
  destruct behavior;
    [rewrite placementTarget_regular in Henc by reflexivity
    |rewrite placementTarget_regular in Henc by reflexivity
    |rewrite placementTarget_daily in Henc by reflexivity
    |rewrite placementTarget_regular in Henc by reflexivity
    |rewrite placementTarget_daily in Henc by reflexivity
    |rewrite placementTarget_regular in Henc by reflexivity].
  - destruct (findAvailableFileName_total vault (normalizePath path)
                (sanitizeFileName noteName) w) as (name & k & log & Hrun & _ & Hname).
    assert (Hname' : encodable vault name = true).
    { destruct Hname as [->|(j & _ & ->)];
        [rewrite encodable_timestamped|rewrite encodable_candidate]; exact Henc. }
    exists name, "POST", fileContent,
      (mkWorld (requests w ++ probesUpTo generalSettings vault (normalizePath path)
                                         (sanitizeFileName noteName) k) log).
    split; [|auto].
    unfold createNoteViaLocalRestApi. cbv zeta. cbn [isDailyNote].
    apply placement_shape; [assumption|]. unfold bind.
    rewrite Hrun, buildUrl_address, Hname'. reflexivity.
  - probed_branch Henc (normalizePath path ++ sanitizeFileName noteName ++ ".md") "end".
  - probed_branch Henc (today now ++ ".md") "end".
  - probed_branch Henc (normalizePath path ++ sanitizeFileName noteName ++ ".md") "start".
  - probed_branch Henc (today now ++ ".md") "start".
  - exists (normalizePath path ++ sanitizeFileName noteName ++ ".md"), "PUT",
      fileContent, w.
    split; [|auto].
    unfold createNoteViaLocalRestApi. cbv zeta. cbn [isDailyNote].
    apply placement_shape; [assumption|]. unfold bind.
    rewrite buildUrl_address, Henc. reflexivity.
Qed.

(** A branch whose target cannot be encoded: the prober warns and
    reports absent, and [buildUrl] throws. *)
Ltac thrown_branch Hgate Henc :=
  unfold createNoteViaLocalRestApi; cbv zeta; cbn [isDailyNote];
  (apply placement_thrown; [exact Hgate|]);
  unfold LocalRestApi.findAvailableFileName, bind;
  rewrite ?checkFileExists_closed;
  unfold Observations.reportsPresent, Observations.probing, Observations.proberLog;
  rewrite ?Henc; cbn [andb negb ret requests warnings];
  rewrite buildUrl_address, Henc; cbn [evaluate throw];
  rewrite ?app_nil_r; reflexivity.

(** With the gate open and a target that cannot be encoded, a placement
    issues no request at all: the prober, where the branch has one,
    warns once, [buildUrl] throws, and the result is the failure with
    the message of the URIError. *)
Lemma createNote_fails (fileContent noteName path vault : string)
      (behavior : Behavior) (w : World) :
  gateOpen = true ->
  encodable vault (placementTarget noteName path behavior) = false ->
  createNote fileContent noteName path vault behavior w =
  (Normal (failure URIError),
   mkWorld (requests w)
           (warnings w ++ match behavior with
                          | Overwrite => []
                          | _ => [encodingWarning]
                          end)).
Proof.
  intros Hgate Henc.
  destruct behavior;
    [rewrite placementTarget_regular in Henc by reflexivity
    |rewrite placementTarget_regular in Henc by reflexivity
    |rewrite placementTarget_daily in Henc by reflexivity
    |rewrite placementTarget_regular in Henc by reflexivity
    |rewrite placementTarget_daily in Henc by reflexivity
    |rewrite placementTarget_regular in Henc by reflexivity].
  - thrown_branch Hgate Henc.
  - thrown_branch Hgate Henc.
  - thrown_branch Hgate Henc.
  - thrown_branch Hgate Henc.
  - thrown_branch Hgate Henc.
  - unfold createNoteViaLocalRestApi; cbv zeta; cbn [isDailyNote].
    apply placement_thrown; [exact Hgate|]. unfold bind.
    rewrite buildUrl_address, Henc. cbn [evaluate throw].
    rewrite app_nil_r. destruct w; reflexivity.
Qed.

(** *** The date of a daily note *)

Lemma digit_not_T (n : Z) : Ascii.eqb (digit n) "T" = false.
Proof.
  unfold digit.
  pose proof (Z.mod_pos_bound n 10 ltac:(lia)) as Hrange.
  assert (Hcases : n mod 10 = 0 \/ n mod 10 = 1 \/ n mod 10 = 2 \/ n mod 10 = 3
                   \/ n mod 10 = 4 \/ n mod 10 = 5 \/ n mod 10 = 6
                   \/ n mod 10 = 7 \/ n mod 10 = 8 \/ n mod 10 = 9) by lia.
  repeat (destruct Hcases as [->|Hcases]; [reflexivity|]).
  rewrite Hcases. reflexivity.
Qed.

(** In the years 0..9999 the text before the 'T' of the ISO string is
    the date written YYYY-MM-DD. *)
Lemma today_stamp (y m d : Z) :
  utcDate now = (y, m, d) -> 0 <= y <= 9999 ->
  today now = dateStamp y m d.
Proof.
  intros Hdate Hyear.
  unfold today, toISOString, isoDate, isoYear, dateStamp. rewrite Hdate.
  replace ((0 <=? y) && (y <=? 9999)) with true
    by (symmetry; apply andb_true_iff; split; apply Z.leb_le; lia).
  cbn [padded append splitFirst].
  rewrite !digit_not_T. reflexivity.
Qed.

(** [civilFromDays] gives the calendar date of the day: a month in
    1..12, a day of that month, and the date that is [z] days from the
    epoch. *)
Lemma civilFromDays_correct (z : Z) :
  let '(y, m, d) := civilFromDays z in
  daysFromCivil y m d = z /\ 1 <= m <= 12 /\ 1 <= d <= daysInMonth y m.
Proof.
  unfold civilFromDays, daysFromCivil. cbv zeta.
  set (era := (z + 719468) / 146097).
  set (doe := z + 719468 - era * 146097).
  assert (Hdoe : 0 <= doe <= 146096) by (subst doe era; Z.div_mod_to_equations; lia).
  assert (Hz : era * 146097 + doe - 719468 = z) by (subst doe; lia).
  set (yoe := (doe - doe / 1460 + doe / 36524 - doe / 146096) / 365).
  assert (Hyoe : 0 <= yoe <= 399) by (subst yoe; Z.div_mod_to_equations; lia).
  set (doy := doe - (365 * yoe + yoe / 4 - yoe / 100)).
  assert (Hdoy : 0 <= doy <= 365) by (subst doy yoe; Z.div_mod_to_equations; lia).
  assert (Hleap : doy = 365 -> (yoe + 1) mod 4 = 0 /\ ((yoe + 1) mod 100 <> 0 \/ yoe + 1 = 400)).
  { subst doy yoe. Z.div_mod_to_equations. lia. }
  set (mp := (5 * doy + 2) / 153).
  assert (Hmp : 0 <= mp <= 11) by (subst mp; Z.div_mod_to_equations; lia).
  set (d := doy - (153 * mp + 2) / 5 + 1).
  assert (Hd : 1 <= d <= 31) by (subst d mp; Z.div_mod_to_equations; lia).
  assert (Hd30 : mp = 1 \/ mp = 3 \/ mp = 6 \/ mp = 8 -> d <= 30) by (subst d mp; Z.div_mod_to_equations; lia).
  assert (Hd28 : mp = 11 -> d <= 29 /\ (d = 29 -> doy = 365)) by (subst d mp; Z.div_mod_to_equations; lia).
  assert (Hera : (yoe + era * 400) / 400 = era) by (Z.div_mod_to_equations; lia).
  assert (Hback : (153 * mp + 2) / 5 + d - 1 = doy) by (subst d; lia).
  assert (Hdoe' : yoe * 365 + yoe / 4 - yoe / 100 + doy = doe) by (subst doy; lia).
  clearbody d mp doy yoe doe era.
  unfold daysInMonth, leapYear.
  destruct (Z.ltb_spec mp 10).
  - destruct (Z.leb_spec (mp + 3) 2); [lia|].
    destruct (Z.ltb_spec 2 (mp + 3)); [|lia].
    replace (mp + 3 - 3) with mp by lia.
    replace (yoe + era * 400 + 0) with (yoe + era * 400) by lia.
    rewrite Hera, Hback.
    replace (yoe + era * 400 - era * 400) with yoe by lia.
    rewrite Hdoe'. split; [exact Hz|]. split; [lia|].
    destruct (Z.eqb_spec (mp + 3) 2); [lia|].
    destruct (Z.eqb_spec (mp + 3) 4), (Z.eqb_spec (mp + 3) 6),
      (Z.eqb_spec (mp + 3) 9), (Z.eqb_spec (mp + 3) 11); cbn; lia.
  - destruct (Z.leb_spec (mp - 9) 2); [|lia].
    destruct (Z.ltb_spec 2 (mp - 9)); [lia|].
    replace (mp - 9 + 9) with mp by lia.
    replace (yoe + era * 400 + 1 - 1) with (yoe + era * 400) by lia.
    rewrite Hera, Hback.
    replace (yoe + era * 400 - era * 400) with yoe by lia.
    rewrite Hdoe'. split; [exact Hz|]. split; [lia|].
    destruct (Z.eqb_spec (mp - 9) 2) as [Hfeb|Hjan].
    + assert (Hmp11 : mp = 11) by lia.
      destruct (Hd28 Hmp11) as [H29 Hlast].
      destruct ((yoe + era * 400 + 1) mod 4 =? 0) eqn:H4;
        destruct ((yoe + era * 400 + 1) mod 100 =? 0) eqn:H100;
        destruct ((yoe + era * 400 + 1) mod 400 =? 0) eqn:H400; cbn;
        (split; [lia|]);
        try lia;
        rewrite ?Z.eqb_eq, ?Z.eqb_neq in *;
        (assert (d = 29 \/ d <= 28) as [Heq|] by lia; [|lia]);
        specialize (Hlast Heq); specialize (Hleap Hlast);
        exfalso; revert H4 H100 H400 Hleap; clear -Hyoe;
        intros; Z.div_mod_to_equations; lia.
    + destruct (Z.eqb_spec (mp - 9) 4), (Z.eqb_spec (mp - 9) 6),
      (Z.eqb_spec (mp - 9) 9), (Z.eqb_spec (mp - 9) 11); cbn; lia.
Qed.

(** From 0000-01-01T00:00:00.000Z up to 9999-12-31T23:59:59.999Z the
    year has four digits. *)
Lemma four_digit_years (ms y m d : Z) :
  utcDate ms = (y, m, d) ->
  -62167219200000 <= ms < 253402300800000 ->
  0 <= y <= 9999.
Proof.
  intros Hdate Hrange.
  pose proof (civilFromDays_correct (ms / msPerDay)) as Hcivil.
  unfold utcDate in Hdate. rewrite Hdate in Hcivil.
  destruct Hcivil as (Hdays & Hm & Hd).
  assert (Hday : -719528 <= ms / msPerDay < 2932897).
  { unfold msPerDay. Z.div_mod_to_equations. lia. }
  assert (Hd31 : d <= 31).
  { unfold daysInMonth in Hd.
    destruct (m =? 2);
      [destruct (leapYear y)
      |destruct ((m =? 4) || (m =? 6) || (m =? 9) || (m =? 11))]; lia. }
  rewrite <- Hdays in Hday. clear Hdays Hdate Hrange.
  unfold daysFromCivil in Hday. cbv zeta in Hday.
  destruct (Z.leb_spec m 2), (Z.ltb_spec 2 m); try lia;
  Z.div_mod_to_equations; lia.
Qed.

(** *** The claims about the placement *)

Ltac merge_requests Hrun Hreq Hplan :=
  rewrite Hrun; cbn [snd issued requests]; rewrite Hreq; subst;
  match type of Hplan with
  | _ = mergePlan ?present _ _ => destruct present
  end;
  unfold mergePlan in Hplan;
  injection Hplan as -> ->; rewrite <- app_assoc; reflexivity.

(** C1, as the code has it. With the gate open, a regular placement
    targets <directoryPath><sanitizedNoteName>.md. When the vault and
    the target can be percent-encoded: for append-specific and
    prepend-specific the target is probed once and then one request is
    issued, a POST with the raw document body when the prober reports
    the target absent, a PATCH whose body is the JSON encoding of
    {content, position: "end"} (append) or {content, position: "start"}
    (prepend) when it reports it present; for overwrite no probe is
    issued and the only request is one PUT with the raw body. When the
    vault or the target holds a lone surrogate, the encoding throws: no
    request is issued, neither probe nor write, and the result is the
    failure with the message of the URIError. *)
Theorem regular_placement (fileContent noteName path vault : string) (w : World) :
  gateOpen = true ->
  let target := normalizePath path ++ sanitizeFileName noteName ++ ".md" in
  let present := reportsPresent (requests w) vault target in
  (encodable vault target = true ->
   requests (snd (createNote fileContent noteName path vault AppendSpecific w)) =
     (requests w
      ++ [probe vault target;
          if present
          then mutation vault target "PATCH"
                 (JSON_stringify [("content", fileContent); ("position", "end")])
          else mutation vault target "POST" fileContent])%list
   /\ requests (snd (createNote fileContent noteName path vault PrependSpecific w)) =
     (requests w
      ++ [probe vault target;
          if present
          then mutation vault target "PATCH"
                 (JSON_stringify [("content", fileContent); ("position", "start")])
          else mutation vault target "POST" fileContent])%list
   /\ requests (snd (createNote fileContent noteName path vault Overwrite w)) =
     (requests w ++ [mutation vault target "PUT" fileContent])%list)
  /\ (encodable vault target = false ->
      forall behavior : Behavior,
        behavior = AppendSpecific \/ behavior = PrependSpecific \/ behavior = Overwrite ->
        fst (createNote fileContent noteName path vault behavior w) =
          Normal (mkResult false (Some "URI malformed"))
        /\ requests (snd (createNote fileContent noteName path vault behavior w)) =
           requests w).
Proof.
  intros Hgate target present.
  split.
  - intros Henc. repeat split.
    + destruct (createNote_run fileContent noteName path vault AppendSpecific w Hgate)
        as (t & m & b & w1 & Hrun & Hreq & Ht & Hplan);
        [rewrite placementTarget_regular by reflexivity; exact Henc|].
      subst present target. merge_requests Hrun Hreq Hplan.
    + destruct (createNote_run fileContent noteName path vault PrependSpecific w Hgate)
        as (t & m & b & w1 & Hrun & Hreq & Ht & Hplan);
        [rewrite placementTarget_regular by reflexivity; exact Henc|].
      subst present target. merge_requests Hrun Hreq Hplan.
    + destruct (createNote_run fileContent noteName path vault Overwrite w Hgate)
        as (t & m & b & w1 & Hrun & -> & -> & -> & ->);
        [rewrite placementTarget_regular by reflexivity; exact Henc|].
      rewrite Hrun. reflexivity.
  - intros Henc behavior Hregular.
    assert (Hdaily : isDailyNote behavior = false)
      by (destruct Hregular as [->|[->| ->]]; reflexivity).
    rewrite createNote_fails;
      [|exact Hgate|rewrite placementTarget_regular by exact Hdaily; exact Henc].
    split; reflexivity.
Qed.

(** C2, as the code has it. With the gate open and the clock between
    0000-01-01 and 9999-12-31 UTC, a daily placement targets
    <YYYY-MM-DD>.md, the UTC calendar date of the instant the clock is
    read, whatever directory path the caller supplies. When the vault
    can be percent-encoded the target is probed once; when the prober
    reports it absent the request is a POST carrying the document body
    as raw text, for append-daily as for prepend-daily; when it reports
    it present the request is a PATCH with the JSON body
    {content, position: "end"} for append-daily and
    {content, position: "start"} for prepend-daily. When the vault holds
    a lone surrogate, the encoding throws: no request is issued, neither
    probe nor write, and the result is the failure with the message of
    the URIError. *)
Theorem daily_placement (fileContent noteName path vault : string) (w : World)
        (y m d : Z) :
  gateOpen = true ->
  -62167219200000 <= now < 253402300800000 ->
  utcDate now = (y, m, d) ->
  let target := dateStamp y m d ++ ".md" in
  let present := reportsPresent (requests w) vault target in
  (daysFromCivil y m d = now / msPerDay
   /\ 0 <= y <= 9999 /\ 1 <= m <= 12 /\ 1 <= d <= daysInMonth y m)
  /\ (wellFormed vault = true ->
      requests (snd (createNote fileContent noteName path vault AppendDaily w)) =
        (requests w
         ++ [probe vault target;
             if present
             then mutation vault target "PATCH"
                    (JSON_stringify [("content", fileContent); ("position", "end")])
             else mutation vault target "POST" fileContent])%list
      /\ requests (snd (createNote fileContent noteName path vault PrependDaily w)) =
        (requests w
         ++ [probe vault target;
             if present
             then mutation vault target "PATCH"
                    (JSON_stringify [("content", fileContent); ("position", "start")])
             else mutation vault target "POST" fileContent])%list)
  /\ (wellFormed vault = false ->
      forall behavior : Behavior,
        behavior = AppendDaily \/ behavior = PrependDaily ->
        fst (createNote fileContent noteName path vault behavior w) =
          Normal (mkResult false (Some "URI malformed"))
        /\ requests (snd (createNote fileContent noteName path vault behavior w)) =
           requests w).
Proof.
  intros Hgate Hclock Hdate target present.
  pose proof (four_digit_years now y m d Hdate Hclock) as Hyear.
  pose proof (today_stamp y m d Hdate Hyear) as Htoday.
  split; [|split].
  - pose proof (civilFromDays_correct (now / msPerDay)) as Hcivil.
    unfold utcDate in Hdate. rewrite Hdate in Hcivil. tauto.
  - intros Hvault. split.
    + destruct (createNote_run fileContent noteName path vault AppendDaily w Hgate)
        as (t & mt & b & w1 & Hrun & Hreq & Ht & Hplan);
        [rewrite placementTarget_daily, encodable_daily by reflexivity; exact Hvault|].
      rewrite Htoday in *. subst present target. merge_requests Hrun Hreq Hplan.
    + destruct (createNote_run fileContent noteName path vault PrependDaily w Hgate)
        as (t & mt & b & w1 & Hrun & Hreq & Ht & Hplan);
        [rewrite placementTarget_daily, encodable_daily by reflexivity; exact Hvault|].
      rewrite Htoday in *. subst present target. merge_requests Hrun Hreq Hplan.
  - intros Hvault behavior Hdaily.
    assert (Hd : isDailyNote behavior = true)
      by (destruct Hdaily as [->| ->]; reflexivity).
    rewrite createNote_fails;
      [|exact Hgate
       |rewrite placementTarget_daily, encodable_daily by exact Hd; exact Hvault].
    split; reflexivity.
Qed.

(** C10. On the daily branch the note name plays no part: two
    invocations that differ only in the note name issue the same
    requests, log the same warnings and return the same result, for
    append-daily and for prepend-daily. *)
Theorem daily_ignores_note_name
        (fileContent noteName1 noteName2 path vault : string) (w : World) :
  createNote fileContent noteName1 path vault AppendDaily w =
  createNote fileContent noteName2 path vault AppendDaily w
  /\ createNote fileContent noteName1 path vault PrependDaily w =
     createNote fileContent noteName2 path vault PrependDaily w.
Proof.
  unfold createNoteViaLocalRestApi.
  cbv beta iota zeta delta [isDailyNote].
  split; reflexivity.
Qed.

(** C5. [findAvailableFileName] returns the unsuffixed candidate at
    once when the prober reports it absent; otherwise it probes the
    candidates with suffix 1, 2, ... in increasing order and returns the
    first one reported absent, having probed nothing beyond it; when the
    unsuffixed candidate and the 999 suffixed ones are all reported
    present it returns the name with the millisecond timestamp, with no
    probe after the thousandth. In every case it returns a name after
    at most 1000 probes. When the names can be encoded every probe is a
    request, one per candidate; when they cannot, the prober reports
    the unsuffixed candidate absent without sending anything. *)
Theorem findAvailableFileName_search (vault path baseName : string) (w : World) :
  let reported := reportedAt generalSettings remote (requests w) vault path baseName in
  let probes := probesUpTo generalSettings vault path baseName in
  (reported 0%nat = false ->
   exists log,
     findAvailableFileName vault path baseName w =
     (Normal (path ++ baseName ++ ".md"),
      mkWorld (requests w ++ probing vault (path ++ baseName ++ ".md")) log))
  /\ (forall j : nat,
         (1 <= j <= 999)%nat ->
         (forall i, (i < j)%nat -> reported i = true) ->
         reported j = false ->
         exists log,
           findAvailableFileName vault path baseName w =
           (Normal (path ++ baseName ++ " " ++ numberToString (Z.of_nat j) ++ ".md"),
            mkWorld (requests w ++ probes (S j)) log))
  /\ ((forall i, (i < 1000)%nat -> reported i = true) ->
      exists log,
        findAvailableFileName vault path baseName w =
        (Normal (path ++ baseName ++ " " ++ numberToString now ++ ".md"),
         mkWorld (requests w ++ probes 1000%nat) log))
  /\ (exists (name : string) (k : nat) (log : list (list ConsoleArg)),
         findAvailableFileName vault path baseName w =
         (Normal name, mkWorld (requests w ++ probes k) log)
         /\ (1 <= k <= 1000)%nat
         /\ (List.length (probes k) <= k)%nat
         /\ (encodable vault (path ++ baseName ++ ".md") = true ->
             List.length (probes k) = k))
  /\ (encodable vault (path ++ baseName ++ ".md") = true ->
      probing vault (path ++ baseName ++ ".md") =
        [probe vault (path ++ baseName ++ ".md")]
      /\ forall k : nat,
          probes k = map (fun i => probe vault (candidate path baseName i)) (seq 0 k))
  /\ (encodable vault (path ++ baseName ++ ".md") = false ->
      reported 0%nat = false
      /\ probing vault (path ++ baseName ++ ".md") = []
      /\ forall k : nat, probes k = []).
Proof.
  intros reported probes. split; [|split; [|split; [|split; [|split]]]].
  - intros Hat.
    destruct (findAvailableFileName_found vault path baseName w 0) as [log Hrun];
      [lia|intros i Hi; lia|exact Hat|].
    rewrite probesUpTo_one in Hrun. exists log. exact Hrun.
  - intros j Hj Hbefore Hat.
    rewrite <- candidate_suffixed by lia.
    apply findAvailableFileName_found; [lia|exact Hbefore|exact Hat].
  - intros Hall. apply findAvailableFileName_exhausted. exact Hall.
  - destruct (findAvailableFileName_total vault path baseName w)
      as (name & k & log & Hrun & Hk & _).
    exists name, k, log.
    split; [exact Hrun|]. split; [exact Hk|]. split; [apply probesUpTo_length|].
    intros Henc. unfold probes. rewrite probesUpTo_encodable by exact Henc.
    rewrite length_map, length_seq. reflexivity.
  - intros Henc. split; [apply probing_encodable; exact Henc|].
    intros k. apply probesUpTo_encodable. exact Henc.
  - intros Henc. split; [|split].
    + unfold reported. rewrite reportedAt_zero.
      unfold Observations.reportsPresent. cbn [candidate]. rewrite Henc. reflexivity.
    + apply probing_unencodable. exact Henc.
    + intros k. apply probesUpTo_unencodable. exact Henc.
Qed.

(** C9. The connectivity test and the final request of a placement
    normalize the outcome with one and the same rule: a status in
    200..299 is [{success: true}]; any other status fails with
    "HTTP <status>: <response body text>"; an exception, at the request
    or while the body is read, fails with the exception's message, and
    so does the exception of an address that cannot be encoded, which
    leaves the placement without a final request. Both always complete
    normally: neither throws to its caller. *)
Theorem outcomes_normalized :
  (forall w : World,
      testConnection w =
      (Normal (normalized (remote (requests w) (rootRequest generalSettings))),
       issued w (rootRequest generalSettings)))
  /\ (forall (fileContent noteName path vault : string) (behavior : Behavior)
             (w : World),
         gateOpen = true ->
         encodable vault (placementTarget noteName path behavior) = true ->
         exists (final : Request) (w1 : World),
           createNote fileContent noteName path vault behavior w =
           (Normal (normalized (remote (requests w1) final)), issued w1 final))
  /\ (forall (fileContent noteName path vault : string) (behavior : Behavior)
             (w : World),
         gateOpen = true ->
         encodable vault (placementTarget noteName path behavior) = false ->
         exists w1 : World,
           createNote fileContent noteName path vault behavior w =
           (Normal (mkResult false (Some (errorMessage URIError))), w1)
           /\ requests w1 = requests w)
  /\ (forall (fileContent noteName path vault : string) (behavior : Behavior)
             (w : World),
         exists (result : LocalRestApiResponse) (w' : World),
           createNote fileContent noteName path vault behavior w = (Normal result, w'))
  /\ (forall r : Response,
         200 <= status r <= 299 -> normalized (Resolves r) = mkResult true None)
  /\ (forall (r : Response) (t : string),
         ~ 200 <= status r <= 299 -> text r = inr t ->
         normalized (Resolves r) =
         mkResult false (Some ("HTTP " ++ numberToString (status r) ++ ": " ++ t)))
  /\ (forall (r : Response) (message : string),
         ~ 200 <= status r <= 299 -> text r = inl (ErrorInstance message) ->
         normalized (Resolves r) = mkResult false (Some message))
  /\ (forall message : string,
         normalized (Rejects (ErrorInstance message)) = mkResult false (Some message)).
Proof.
  split; [|split; [|split; [|split; [|split; [|split; [|split]]]]]].
  - intros w.
    unfold testLocalRestApiConnection, tryCatch, bind, fetch, normalized, issued, ok.
    change (mkRequest _ "GET" [authorization generalSettings] None)
      with (rootRequest generalSettings).
    destruct (remote (requests w) (rootRequest generalSettings)) as [r|e];
      [|reflexivity].
    destruct ((200 <=? status r) && (status r <=? 299)); [reflexivity|].
    unfold responseText. destruct (text r); reflexivity.
  - intros fileContent noteName path vault behavior w Hgate Henc.
    destruct (createNote_run fileContent noteName path vault behavior w Hgate Henc)
      as (target & method & body & w1 & Hrun & _).
    eauto.
  - intros fileContent noteName path vault behavior w Hgate Henc.
    rewrite createNote_fails by assumption.
    eexists. split; reflexivity.
  - intros fileContent noteName path vault behavior w.
    destruct gateOpen eqn:Hgate.
    + destruct (encodable vault (placementTarget noteName path behavior)) eqn:Henc.
      * destruct (createNote_run fileContent noteName path vault behavior w Hgate Henc)
          as (target & method & body & w1 & Hrun & _).
        eauto.
      * rewrite createNote_fails by assumption. eauto.
    + rewrite closed_gate_run by assumption. eauto.
  - intros r Hok. unfold normalized.
    replace ((200 <=? status r) && (status r <=? 299)) with true; [reflexivity|].
    symmetry. apply andb_true_iff. split; apply Z.leb_le; lia.
  - intros r t Hnot Htext. unfold normalized.
    replace ((200 <=? status r) && (status r <=? 299)) with false.
    + rewrite Htext. reflexivity.
    + symmetry. apply andb_false_iff.
      destruct (Z.leb_spec 200 (status r)); [|auto].
      destruct (Z.leb_spec (status r) 299); [lia|auto].
  - intros r message Hnot Htext. unfold normalized.
    replace ((200 <=? status r) && (status r <=? 299)) with false.
    + rewrite Htext. reflexivity.
    + symmetry. apply andb_false_iff.
      destruct (Z.leb_spec 200 (status r)); [|auto].
      destruct (Z.leb_spec (status r) 299); [lia|auto].
  - reflexivity.
Qed.

(** *** Paths and addresses *)

Lemma endsWith_appended (s p : string) : endsWith (s ++ p) p = true.
Proof.
  induction s as [|c s IH]; cbn [append endsWith].
  - destruct p; cbn [endsWith]; rewrite String.eqb_refl; reflexivity.
  - rewrite IH. destruct (String.eqb (String c (s ++ p)) p); reflexivity.
Qed.

Lemma one_separator_appended (s : string) :
  endsWith s "/" = false -> endsWith (s ++ "/") "//" = false.
Proof.
  induction s as [|c s IH]; intros Hnot; [reflexivity|].
  cbn [endsWith] in Hnot.
  destruct (String.eqb (String c s) "/") eqn:Hone; [discriminate|].
  cbn [append endsWith]. rewrite (IH Hnot).
  destruct (String.eqb (String c (s ++ "/")) "//") eqn:Htwo; [|reflexivity].
  apply String.eqb_eq in Htwo. injection Htwo as -> Hrest.
  destruct s as [|c' s]; [discriminate Hone|].
  cbn in Hrest. injection Hrest as _ Hrest. destruct s; discriminate Hrest.
Qed.

Lemma candidate_form (path baseName : string) (i : nat) :
  exists suffix, candidate path baseName i = path ++ baseName ++ suffix ++ ".md".
Proof.
  destruct i.
  - exists EmptyString. reflexivity.
  - exists (" " ++ numberToString (Z.of_nat (S i))). reflexivity.
Qed.

(** A request to the address of a target that can be encoded goes to
    what [buildUrl] gives for it. *)
Lemma built (vault target : string) :
  encodable vault target = true ->
  buildUrl generalSettings vault target = inr (address vault target).
Proof.
  intros Henc. rewrite buildUrl_address, Henc. reflexivity.
Qed.

(** The requests of a regular placement all address the directory path
    as normalized followed by the sanitized note name, an optional
    suffix and the extension. *)
Lemma regular_targets (fileContent noteName path vault : string)
      (behavior : Behavior) (w : World) :
  gateOpen = true ->
  isDailyNote behavior = false ->
  exists new : list Request,
    requests (snd (createNote fileContent noteName path vault behavior w)) =
    (requests w ++ new)%list
    /\ Forall (fun r =>
                 exists suffix,
                   buildUrl generalSettings vault
                            (normalizePath path ++ sanitizeFileName noteName
                             ++ suffix ++ ".md") = inr (url r)) new.
Proof.
  intros Hgate Hregular.
  destruct (encodable vault (placementTarget noteName path behavior)) eqn:Henc.
  - destruct (createNote_run fileContent noteName path vault behavior w Hgate Henc)
      as (target & method & body & w1 & Hrun & Hbranch).
    rewrite Hrun. cbn [snd issued requests].
    rewrite placementTarget_regular in Henc by exact Hregular.
    destruct behavior; try discriminate Hregular.
    + destruct Hbranch as (Hfind & _ & _).
      destruct (findAvailableFileName_total vault (normalizePath path)
                  (sanitizeFileName noteName) w) as (name & k & log & Htotal & _ & Hname).
      rewrite Htotal in Hfind. injection Hfind as <- <-. cbn [requests].
      exists (probesUpTo generalSettings vault (normalizePath path)
                         (sanitizeFileName noteName) k
              ++ [mutation vault name method body])%list.
      split; [rewrite app_assoc; reflexivity|].
      apply Forall_app. split.
      * rewrite probesUpTo_encodable by exact Henc.
        apply Forall_map, Forall_forall. intros i _.
        pose proof (encodable_candidate vault (normalizePath path)
                      (sanitizeFileName noteName) i) as Hi.
        rewrite Henc in Hi.
        destruct (candidate_form (normalizePath path) (sanitizeFileName noteName) i)
          as [suffix Hform].
        exists suffix. rewrite <- Hform. apply built. exact Hi.
      * constructor; [|constructor].
        destruct Hname as [->|(j & _ & ->)].
        -- exists (" " ++ numberToString now).
           apply (built vault (timestamped (normalizePath path)
                                           (sanitizeFileName noteName) now)).
           rewrite encodable_timestamped. exact Henc.
        -- pose proof (encodable_candidate vault (normalizePath path)
                         (sanitizeFileName noteName) j) as Hj.
           rewrite Henc in Hj.
           destruct (candidate_form (normalizePath path) (sanitizeFileName noteName) j)
             as [suffix Hform].
           exists suffix. rewrite <- Hform. apply built. exact Hj.
    + destruct Hbranch as (-> & -> & _).
      exists [probe vault (normalizePath path ++ sanitizeFileName noteName ++ ".md");
              mutation vault (normalizePath path ++ sanitizeFileName noteName ++ ".md")
                       method body].
      split; [rewrite <- app_assoc; reflexivity|].
      repeat constructor; exists EmptyString; apply built; exact Henc.
    + destruct Hbranch as (-> & -> & _).
      exists [probe vault (normalizePath path ++ sanitizeFileName noteName ++ ".md");
              mutation vault (normalizePath path ++ sanitizeFileName noteName ++ ".md")
                       method body].
      split; [rewrite <- app_assoc; reflexivity|].
      repeat constructor; exists EmptyString; apply built; exact Henc.
    + destruct Hbranch as (-> & -> & _).
      exists [mutation vault (normalizePath path ++ sanitizeFileName noteName ++ ".md")
                       method body].
      split; [reflexivity|].
      repeat constructor; exists EmptyString; apply built; exact Henc.
  - rewrite createNote_fails by assumption. cbn [snd requests].
    exists []. split; [rewrite app_nil_r; reflexivity|constructor].
Qed.

(** C7, as the code has it. A non-empty directory path is used with a
    trailing '/': unchanged when it already ends with one, with one '/'
    appended otherwise, so it ends with exactly one '/' unless the input
    already ended with two. The note name is sanitized before it is
    used: every request of a regular placement addresses
    <normalized path><sanitized name>[ suffix].md. *)
Theorem path_normalized (path : string) :
  path <> EmptyString ->
  endsWith (normalizePath path) "/" = true
  /\ (endsWith path "/" = true -> normalizePath path = path)
  /\ (endsWith path "/" = false -> normalizePath path = path ++ "/")
  /\ (endsWith path "//" = false -> endsWithOneSlash (normalizePath path) = true)
  /\ (forall (fileContent noteName vault : string) (behavior : Behavior) (w : World),
         gateOpen = true ->
         isDailyNote behavior = false ->
         exists new : list Request,
           requests (snd (createNote fileContent noteName path vault behavior w)) =
           (requests w ++ new)%list
           /\ Forall (fun r =>
                        exists suffix,
                          buildUrl generalSettings vault
                                   (normalizePath path ++ sanitizeFileName noteName
                                    ++ suffix ++ ".md") = inr (url r)) new).
Proof.
  intros Hnonempty.
  assert (Htruthy : truthy path = true) by (destruct path; [congruence|reflexivity]).
  assert (Hshape : normalizePath path
                   = if endsWith path "/" then path else path ++ "/").
  { unfold normalizePath. rewrite Htruthy. destruct (endsWith path "/"); reflexivity. }
  split; [|split; [|split; [|split]]].
  - rewrite Hshape. destruct (endsWith path "/") eqn:Hends;
      [exact Hends|apply endsWith_appended].
  - intros Hends. rewrite Hshape, Hends. reflexivity.
  - intros Hends. rewrite Hshape, Hends. reflexivity.
  - intros Htwo. unfold endsWithOneSlash. rewrite Hshape.
    destruct (endsWith path "/") eqn:Hends.
    + rewrite Hends, Htwo. reflexivity.
    + rewrite endsWith_appended, one_separator_appended by assumption. reflexivity.
  - intros. apply regular_targets; assumption.
Qed.

Lemma list_ascii_of_append (a b : string) :
  list_ascii_of_string (a ++ b) =
  (list_ascii_of_string a ++ list_ascii_of_string b)%list.
Proof.
  induction a as [|c a IH]; cbn; [reflexivity|]. rewrite IH. reflexivity.
Qed.

Lemma encoded_character (c : ascii) :
  percentEncodedText
    (if uriUnreserved c then String c EmptyString else percentEncoded c) = true.
Proof.
  destruct c as [b0 b1 b2 b3 b4 b5 b6 b7].
  destruct b0, b1, b2, b3, b4, b5, b6, b7; vm_compute; reflexivity.
Qed.

(** Percent-encoding leaves nothing but unreserved characters and the
    '%' of its escapes: no '/', no space, no '?' or '#'. *)
Lemma percentEncodeAll_encoded (s : string) :
  percentEncodedText (percentEncodeAll s) = true.
Proof.
  induction s as [|c s IH]; [reflexivity|].
  cbn [percentEncodeAll]. unfold percentEncodedText in *.
  rewrite list_ascii_of_append, forallb_app, IH, andb_true_r.
  apply encoded_character.
Qed.

Lemma encodeURIComponent_encoded (s encoded : string) :
  encodeURIComponent s = inr encoded -> percentEncodedText encoded = true.
Proof.
  unfold encodeURIComponent.
  destruct (hasLoneSurrogate s); [discriminate|].
  intros [= <-]. apply percentEncodeAll_encoded.
Qed.

(** Every request of a placement addresses what [buildUrl] gives for
    some remote path [t]. *)
Lemma placement_targets (fileContent noteName path vault : string)
      (behavior : Behavior) (w : World) :
  gateOpen = true ->
  exists new : list Request,
    requests (snd (createNote fileContent noteName path vault behavior w)) =
    (requests w ++ new)%list
    /\ Forall (fun r => exists t, buildUrl generalSettings vault t = inr (url r)) new.
Proof.
  intros Hgate.
  destruct (isDailyNote behavior) eqn:Hdaily.
  - destruct (encodable vault (placementTarget noteName path behavior)) eqn:Henc.
    + destruct (createNote_run fileContent noteName path vault behavior w Hgate Henc)
        as (target & method & body & w1 & Hrun & Hbranch).
      rewrite Hrun. cbn [snd issued requests].
      rewrite placementTarget_daily in Henc by exact Hdaily.
      destruct behavior; try discriminate Hdaily;
        destruct Hbranch as (-> & -> & _);
        exists [probe vault (today now ++ ".md");
                mutation vault (today now ++ ".md") method body];
        (split; [rewrite <- app_assoc; reflexivity|]);
        repeat constructor; exists (today now ++ ".md"); apply built; exact Henc.
    + rewrite createNote_fails by assumption. cbn [snd requests].
      exists []. split; [rewrite app_nil_r; reflexivity|constructor].
  - destruct (regular_targets fileContent noteName path vault behavior w Hgate Hdaily)
      as (new & Hreq & Hall).
    exists new. split; [exact Hreq|].
    revert Hall. apply Forall_impl. intros r [suffix Hurl]. eauto.
Qed.

(** C8. A target address is <base>/vault/<encoded vault>/<encoded file
    path>, without the vault segment when no vault is configured; the
    vault and the full file path are each percent-encoded, which is
    possible exactly when neither holds a lone surrogate, and every
    request of a placement goes to such an address. In the scenario
    createNote(body "# Hi", name "Daily Log", path "Logs", vault "Main",
    behavior create), with the prober reporting Logs/Daily Log.md absent
    and the remote accepting the write, the requests are one probe and
    exactly one POST to <base>/vault/Main/Logs%2FDaily%20Log.md with the
    raw body "# Hi", and the result is [{success: true}]. *)
Theorem target_urls :
  (forall vault filePath encodedVault encodedPath : string,
      vault <> EmptyString ->
      encodeURIComponent vault = inr encodedVault ->
      encodeURIComponent filePath = inr encodedPath ->
      buildUrl generalSettings vault filePath =
      inr (interp (localRestApiUrl generalSettings) ++ "/vault/"
           ++ encodedVault ++ "/" ++ encodedPath))
  /\ (forall filePath encodedPath : string,
         encodeURIComponent filePath = inr encodedPath ->
         buildUrl generalSettings EmptyString filePath =
         inr (interp (localRestApiUrl generalSettings) ++ "/vault/" ++ encodedPath))
  /\ (forall segment : string,
         wellFormed segment = true ->
         exists encoded,
           encodeURIComponent segment = inr encoded
           /\ percentEncodedText encoded = true)
  /\ (forall segment : string,
         wellFormed segment = false -> encodeURIComponent segment = inl URIError)
  /\ (forall vault filePath : string,
         (exists address, buildUrl generalSettings vault filePath = inr address)
         <-> wellFormed vault = true /\ wellFormed filePath = true)
  /\ (forall (fileContent noteName path vault : string) (behavior : Behavior)
             (w : World),
         gateOpen = true ->
         exists new : list Request,
           requests (snd (createNote fileContent noteName path vault behavior w)) =
           (requests w ++ new)%list
           /\ Forall (fun r => exists t, buildUrl generalSettings vault t = inr (url r))
                     new)
  /\ (forall (base : string) (w : World),
         localRestApiEnabled generalSettings = true ->
         localRestApiUrl generalSettings = Some base ->
         base <> EmptyString ->
         truthy_opt (localRestApiKey generalSettings) = true ->
         sanitizeFileName "Daily Log" = "Daily Log" ->
         reportsPresent (requests w) "Main" "Logs/Daily Log.md" = false ->
         (exists r,
             remote (requests w ++ [probe "Main" "Logs/Daily Log.md"])
                    (mutation "Main" "Logs/Daily Log.md" "POST" "# Hi") = Resolves r
             /\ 200 <= status r <= 299) ->
         exists log,
           createNote "# Hi" "Daily Log" "Logs" "Main" Create w =
           (Normal (mkResult true None),
            mkWorld
              (requests w
               ++ [mkRequest (base ++ "/vault/Main/Logs%2FDaily%20Log.md") "GET"
                             [authorization generalSettings] None;
                   mkRequest (base ++ "/vault/Main/Logs%2FDaily%20Log.md") "POST"
                             [authorization generalSettings;
                              ("Content-Type", "text/markdown")]
                             (Some "# Hi")])
              log)).
Proof.
  split; [|split; [|split; [|split; [|split; [|split]]]]].
  - intros vault filePath encodedVault encodedPath Hvault Hev Hep.
    unfold buildUrl. rewrite Hep, Hev.
    destruct vault; [congruence|reflexivity].
  - intros filePath encodedPath Hep. unfold buildUrl. rewrite Hep. reflexivity.
  - intros segment Hwell. unfold wellFormed in Hwell. apply negb_true_iff in Hwell.
    exists (percentEncodeAll segment). unfold encodeURIComponent. rewrite Hwell.
    split; [reflexivity|apply percentEncodeAll_encoded].
  - intros segment Hill. unfold wellFormed in Hill. apply negb_false_iff in Hill.
    unfold encodeURIComponent. rewrite Hill. reflexivity.
  - intros vault filePath. rewrite buildUrl_address. unfold encodable.
    destruct (wellFormed filePath), (wellFormed vault); cbn [andb]; split;
      try (intros [a Ha]; discriminate Ha);
      try (intros [Hv Hp]; discriminate);
      eauto.
  - intros. apply placement_targets. assumption.
  - intros base w Henabled Hurl Hbase Hkey Hsanitize Habsent (r & Haccepted & Hok).
    assert (Hgate : gateOpen = true).
    { unfold Observations.gateOpen. rewrite Henabled, Hurl, Hkey.
      destruct base; [congruence|reflexivity]. }
    assert (Haddress : address "Main" "Logs/Daily Log.md"
                       = base ++ "/vault/Main/Logs%2FDaily%20Log.md").
    { unfold Observations.address. rewrite Hurl. reflexivity. }
    destruct (createNote_run "# Hi" "Daily Log" "Logs" "Main" Create w Hgate)
      as (target & method & body & w1 & Hrun & Hfind & -> & ->).
    { rewrite placementTarget_regular by reflexivity. rewrite Hsanitize. reflexivity. }
    change (normalizePath "Logs") with "Logs/" in Hfind.
    rewrite Hsanitize in Hfind.
    destruct (findAvailableFileName_found "Main" "Logs/" "Daily Log" w 0)
      as [log Hfound].
    + lia.
    + intros i Hi. lia.
    + rewrite reportedAt_zero. exact Habsent.
    + rewrite Hfound in Hfind. injection Hfind as <- <-.
      exists log. rewrite Hrun. cbn [requests].
      change (candidate "Logs/" "Daily Log" 0) with "Logs/Daily Log.md".
      change (probesUpTo generalSettings "Main" "Logs/" "Daily Log" 1)
        with [probe "Main" "Logs/Daily Log.md"].
      rewrite Haccepted.
      unfold normalized, issued, Observations.mutation, Observations.probe.
      cbn [requests warnings].
      rewrite Haddress, <- app_assoc.
      replace ((200 <=? status r) && (status r <=? 299)) with true
        by (symmetry; apply andb_true_iff; split; apply Z.leb_le; lia).
      reflexivity.
Qed.

End Runs.

(** *** The content type *)

(** C6, as the code decides it. The content type is chosen by the first
    character of the body: the partial-update envelope always starts
    with '{' and is sent as application/json, and a raw body that does
    not start with '{' is sent as text/markdown; but a raw body that
    starts with '{' is sent as application/json too, as the overwrite of
    a note with the body "{draft}" shows. *)
Theorem content_type_by_first_character :
  (forall content position : string,
      contentType (envelope content position) = ("Content-Type", "application/json"))
  /\ (forall body : string,
         startsWith body "{" = false ->
         contentType body = ("Content-Type", "text/markdown"))
  /\ createNoteViaLocalRestApi exampleSettings dropReserved emptyRemote exampleNow
       "{draft}" "Note" "Inbox" "Main" Overwrite freshWorld =
     (Normal (mkResult true None),
      mkWorld
        [mkRequest "http://127.0.0.1:27123/vault/Main/Inbox%2FNote.md" "PUT"
                   [("Authorization", "Bearer secret");
                    ("Content-Type", "application/json")]
                   (Some "{draft}")]
        []).
Proof.
  repeat split.
  intros body Hraw. unfold contentType. rewrite Hraw. reflexivity.
Qed.

(** *** Examples *)

(** C7 fails as stated: a directory path that already ends with two
    separators is used as it is, and the request goes to a target built
    from it. *)
Lemma doubled_separator_kept :
  "Logs//" <> EmptyString
  /\ normalizePath "Logs//" = "Logs//"
  /\ endsWithOneSlash (normalizePath "Logs//") = false
  /\ requests
       (snd (createNoteViaLocalRestApi exampleSettings dropReserved emptyRemote
               exampleNow "# Hi" "Note" "Logs//" "Main" Overwrite freshWorld)) =
     [mkRequest "http://127.0.0.1:27123/vault/Main/Logs%2F%2FNote.md" "PUT"
                [("Authorization", "Bearer secret"); ("Content-Type", "text/markdown")]
                (Some "# Hi")].
Proof.
  repeat split. discriminate.
Qed.

(** C1 fails as stated: a note name that holds a lone surrogate cannot
    be percent-encoded. With the gate open, the overwrite sends no PUT
    and leaves the world as it found it; the append sends neither probe
    nor write, and the prober's warning is all it leaves. Both fail
    with the message of the URIError. *)
Lemma ill_formed_name_not_written :
  gateOpen exampleSettings = true
  /\ createNoteViaLocalRestApi exampleSettings dropReserved emptyRemote exampleNow
       "# Hi" ("Note" ++ loneSurrogate) "Inbox" "Main" Overwrite freshWorld =
     (Normal (mkResult false (Some "URI malformed")), freshWorld)
  /\ createNoteViaLocalRestApi exampleSettings dropReserved emptyRemote exampleNow
       "# Hi" ("Note" ++ loneSurrogate) "Inbox" "Main" AppendSpecific freshWorld =
     (Normal (mkResult false (Some "URI malformed")),
      mkWorld []
        [[Text "Error checking file existence:";
          Value (ErrorInstance "URI malformed")]]).
Proof.
  repeat split.
Qed.

(** C2 fails as stated: a vault name that holds a lone surrogate. With
    the gate open, the daily append sends neither probe nor write and
    fails with the message of the URIError. *)
Lemma ill_formed_vault_not_written :
  gateOpen exampleSettings = true
  /\ utcDate exampleNow = (2026, 11, 3)
  /\ createNoteViaLocalRestApi exampleSettings dropReserved emptyRemote exampleNow
       "# Hi" "Note" "Inbox" loneSurrogate AppendDaily freshWorld =
     (Normal (mkResult false (Some "URI malformed")),
      mkWorld []
        [[Text "Error checking file existence:";
          Value (ErrorInstance "URI malformed")]]).
Proof.
  repeat split.
Qed.

(** C1 at work: appending to a note the remote holds. The sanitizer drops
    the '#' of the name. *)
Lemma regular_placement_witness :
  gateOpen exampleSettings = true
  /\ encodable "Main" "Inbox/Note.md" = true
  /\ requests
       (snd (createNoteViaLocalRestApi exampleSettings dropReserved
               (remoteHolding ["http://127.0.0.1:27123/vault/Main/Inbox%2FNote.md"])
               exampleNow "more" "Note#" "Inbox" "Main" AppendSpecific freshWorld)) =
     [mkRequest "http://127.0.0.1:27123/vault/Main/Inbox%2FNote.md" "GET"
                [("Authorization", "Bearer secret")] None;
      mkRequest "http://127.0.0.1:27123/vault/Main/Inbox%2FNote.md" "PATCH"
                [("Authorization", "Bearer secret");
                 ("Content-Type", "application/json")]
                (Some (JSON_stringify [("content", "more"); ("position", "end")]))].
Proof.
  split; [reflexivity|]. split; [reflexivity|].
  exact (proj1 (proj1 (regular_placement exampleSettings dropReserved
                         (remoteHolding
                            ["http://127.0.0.1:27123/vault/Main/Inbox%2FNote.md"])
                         exampleNow "more" "Note#" "Inbox" "Main" freshWorld eq_refl)
                      eq_refl)).
Defined.

(** C2 at work: prepending to the daily note of 2026-11-03 on an empty
    remote creates it. *)
Lemma daily_placement_witness :
  gateOpen exampleSettings = true
  /\ -62167219200000 <= exampleNow < 253402300800000
  /\ utcDate exampleNow = (2026, 11, 3)
  /\ wellFormed "Main" = true
  /\ requests
       (snd (createNoteViaLocalRestApi exampleSettings dropReserved emptyRemote
               exampleNow "# Hi" "Note" "Inbox" "Main" PrependDaily freshWorld)) =
     [mkRequest "http://127.0.0.1:27123/vault/Main/2026-11-03.md" "GET"
                [("Authorization", "Bearer secret")] None;
      mkRequest "http://127.0.0.1:27123/vault/Main/2026-11-03.md" "POST"
                [("Authorization", "Bearer secret"); ("Content-Type", "text/markdown")]
                (Some "# Hi")].
Proof.
  split; [reflexivity|]. split; [unfold exampleNow; lia|]. split; [reflexivity|].
  split; [reflexivity|].
  refine (proj2 (proj1 (proj2 (daily_placement exampleSettings dropReserved emptyRemote
                                 exampleNow "# Hi" "Note" "Inbox" "Main" freshWorld
                                 2026 11 3 _ _ _)) eq_refl));
    [reflexivity|unfold exampleNow; lia|reflexivity].
Defined.

(** C3 at work: the integration switched off. *)
Lemma gate_closed_no_network_witness :
  (localRestApiEnabled disabledSettings = false
   \/ localRestApiUrl disabledSettings = None
   \/ localRestApiUrl disabledSettings = Some EmptyString
   \/ localRestApiKey disabledSettings = None
   \/ localRestApiKey disabledSettings = Some EmptyString)
  /\ createNoteViaLocalRestApi disabledSettings dropReserved fullRemote exampleNow
       "# Hi" "Note" "Inbox" "Main" Create freshWorld =
     (Normal (mkResult false (Some "Local REST API not available")), freshWorld).
Proof.
  split; [left; reflexivity|].
  exact (proj2 (gate_closed_no_network disabledSettings dropReserved fullRemote
                  exampleNow "# Hi" "Note" "Inbox" "Main" Create freshWorld
                  (or_introl eq_refl))).
Defined.

(** C7 at work: "Logs" is used as "Logs/". *)
Lemma path_normalized_witness :
  "Logs" <> EmptyString
  /\ endsWith (normalizePath "Logs") "/" = true
  /\ normalizePath "Logs" = "Logs/"
  /\ endsWithOneSlash (normalizePath "Logs") = true.
Proof.
  assert (Hnonempty : "Logs" <> EmptyString) by discriminate.
  destruct (path_normalized exampleSettings dropReserved emptyRemote exampleNow
              "Logs" Hnonempty) as (Hends & _ & Happended & Hone & _).
  split; [exact Hnonempty|]. split; [exact Hends|].
  split; [exact (Happended eq_refl)|exact (Hone eq_refl)].
Defined.

(** C5 at work: the first two candidates taken; and every candidate
    taken. *)
Lemma findAvailableFileName_search_witness :
  (exists log,
      findAvailableFileName exampleSettings
        (remoteHolding ["http://127.0.0.1:27123/vault/Main/Inbox%2FNote.md";
                        "http://127.0.0.1:27123/vault/Main/Inbox%2FNote%201.md"])
        exampleNow "Main" "Inbox/" "Note" freshWorld =
      (Normal "Inbox/Note 2.md",
       mkWorld (requests freshWorld
                ++ probesUpTo exampleSettings "Main" "Inbox/" "Note" 3) log))
  /\ (exists log,
         findAvailableFileName exampleSettings fullRemote exampleNow
           "Main" "Inbox/" "Note" freshWorld =
         (Normal "Inbox/Note 1793688480123.md",
          mkWorld (requests freshWorld
                   ++ probesUpTo exampleSettings "Main" "Inbox/" "Note" 1000) log)).
Proof.
  split.
  - refine (proj1 (proj2 (findAvailableFileName_search exampleSettings
                            (remoteHolding
                               ["http://127.0.0.1:27123/vault/Main/Inbox%2FNote.md";
                                "http://127.0.0.1:27123/vault/Main/Inbox%2FNote%201.md"])
                            exampleNow "Main" "Inbox/" "Note" freshWorld))
                  2%nat _ _ _).
    + lia.
    + intros i Hi. destruct i as [|[|i]]; [reflexivity|reflexivity|lia].
    + reflexivity.
  - refine (proj1 (proj2 (proj2 (findAvailableFileName_search exampleSettings
                                   fullRemote exampleNow "Main" "Inbox/" "Note"
                                   freshWorld))) _).
    intros i Hi. unfold reportedAt, reportsPresent.
    rewrite encodable_candidate. reflexivity.
Defined.

(** C8 at work: the scenario on an empty remote. *)
Lemma target_urls_witness :
  exists log,
    createNoteViaLocalRestApi exampleSettings dropReserved emptyRemote exampleNow
      "# Hi" "Daily Log" "Logs" "Main" Create freshWorld =
    (Normal (mkResult true None),
     mkWorld
       [mkRequest "http://127.0.0.1:27123/vault/Main/Logs%2FDaily%20Log.md" "GET"
                  [("Authorization", "Bearer secret")] None;
        mkRequest "http://127.0.0.1:27123/vault/Main/Logs%2FDaily%20Log.md" "POST"
                  [("Authorization", "Bearer secret");
                   ("Content-Type", "text/markdown")]
                  (Some "# Hi")]
       log).
Proof.
  refine (proj2 (proj2 (proj2 (proj2 (proj2 (proj2
            (target_urls exampleSettings dropReserved emptyRemote exampleNow))))))
            "http://127.0.0.1:27123" freshWorld _ _ _ _ _ _ _);
    try reflexivity.
  - discriminate.
  - exists (mkResponse 204 (inr EmptyString)). split; [reflexivity|cbn; lia].
Defined.

(** The second scenario of the specification: the unsuffixed name is
    taken, the name with suffix 1 is free, and the write goes there. *)
Example create_avoids_collision :
  createNoteViaLocalRestApi exampleSettings dropReserved
    (remoteHolding ["http://127.0.0.1:27123/vault/Main/Logs%2FDaily%20Log.md"])
    exampleNow "# Hi" "Daily Log" "Logs" "Main" Create freshWorld =
  (Normal (mkResult true None),
   mkWorld
     [mkRequest "http://127.0.0.1:27123/vault/Main/Logs%2FDaily%20Log.md" "GET"
                [("Authorization", "Bearer secret")] None;
      mkRequest "http://127.0.0.1:27123/vault/Main/Logs%2FDaily%20Log%201.md" "GET"
                [("Authorization", "Bearer secret")] None;
      mkRequest "http://127.0.0.1:27123/vault/Main/Logs%2FDaily%20Log%201.md" "POST"
                [("Authorization", "Bearer secret"); ("Content-Type", "text/markdown")]
                (Some "# Hi")]
     []).
Proof.
  vm_compute. reflexivity.
Qed.

(** A failing server is taken for an absent note, with a warning, and
    its refusal of the write is reported with status and body. *)
Example broken_remote_reported :
  createNoteViaLocalRestApi exampleSettings dropReserved brokenRemote exampleNow
    "more" "Note" "Inbox" "" AppendSpecific freshWorld =
  (Normal (mkResult false (Some "HTTP 500: Internal Server Error")),
   mkWorld
     [mkRequest "http://127.0.0.1:27123/vault/Inbox%2FNote.md" "GET"
                [("Authorization", "Bearer secret")] None;
      mkRequest "http://127.0.0.1:27123/vault/Inbox%2FNote.md" "POST"
                [("Authorization", "Bearer secret"); ("Content-Type", "text/markdown")]
                (Some "more")]
     [[Text "Unexpected response when checking file existence: 500"]]).
Proof.
  vm_compute. reflexivity.
Qed.

(** With no route to the remote the connectivity test fails with the
    transport's message. *)
Example unreachable_reported :
  testLocalRestApiConnection exampleSettings unreachable freshWorld =
  (Normal (mkResult false (Some "Failed to fetch")),
   mkWorld [mkRequest "http://127.0.0.1:27123/" "GET"
                      [("Authorization", "Bearer secret")] None] []).
Proof.
  reflexivity.
Qed.

(** ** Beyond the claims *)

(** *** Addresses *)

Lemma append_cancel_l (a x y : string) : a ++ x = a ++ y -> x = y.
Proof.
  induction a as [|c a IH]; cbn; intros H; [exact H|].
  injection H as H. auto.
Qed.

Lemma code_range (c : ascii) : 0 <= code c < 256.
Proof.
  unfold code. pose proof (N_ascii_bounded c). lia.
Qed.

Lemma code_injective (c1 c2 : ascii) : code c1 = code c2 -> c1 = c2.
Proof.
  unfold code. intros H.
  rewrite <- (ascii_N_embedding c1), <- (ascii_N_embedding c2).
  f_equal. lia.
Qed.

Lemma hexDigitUpper_injective (d1 d2 : Z) :
  0 <= d1 < 16 -> 0 <= d2 < 16 ->
  hexDigitUpper d1 = hexDigitUpper d2 -> d1 = d2.
Proof.
  unfold hexDigitUpper. intros H1 H2 H.
  apply (f_equal N_of_ascii) in H.
  rewrite !N_ascii_embedding in H
    by (destruct (d1 <? 10), (d2 <? 10); lia).
  destruct (Z.ltb_spec d1 10), (Z.ltb_spec d2 10); lia.
Qed.

Lemma percentEncoded_injective (c1 c2 : ascii) :
  percentEncoded c1 = percentEncoded c2 -> c1 = c2.
Proof.
  unfold percentEncoded. intros H. injection H as Hhigh Hlow.
  pose proof (code_range c1). pose proof (code_range c2).
  apply hexDigitUpper_injective in Hhigh; [|Z.div_mod_to_equations; lia..].
  apply hexDigitUpper_injective in Hlow; [|Z.div_mod_to_equations; lia..].
  apply code_injective. Z.div_mod_to_equations. lia.
Qed.

Lemma percentEncodeAll_injective (s1 : string) :
  forall s2, percentEncodeAll s1 = percentEncodeAll s2 -> s1 = s2.
Proof.
  induction s1 as [|c1 s1 IH]; intros [|c2 s2]; cbn [percentEncodeAll]; intros H.
  - reflexivity.
  - destruct (uriUnreserved c2); discriminate H.
  - destruct (uriUnreserved c1); discriminate H.
  - destruct (uriUnreserved c1) eqn:H1, (uriUnreserved c2) eqn:H2; cbn in H.
    + injection H as -> H. f_equal. auto.
    + injection H as -> _. discriminate H1.
    + injection H as <- _. discriminate H2.
    + injection H as Hh Hl H.
      f_equal; [|auto].
      apply percentEncoded_injective. unfold percentEncoded. congruence.
Qed.

Lemma encoded_head (c : ascii) (s : string) :
  percentEncodedText (String c s) = true ->
  c <> "/"%char /\ percentEncodedText s = true.
Proof.
  unfold percentEncodedText. cbn [list_ascii_of_string forallb].
  intros H. apply andb_true_iff in H as [Hc Hs]. split; [|exact Hs].
  intros ->. discriminate Hc.
Qed.

(** Two texts without '/' that agree once a '/' and a tail follow them
    are equal, and so are the tails. *)
Lemma separator_unique (a : string) :
  forall a' b b',
    percentEncodedText a = true -> percentEncodedText a' = true ->
    a ++ "/" ++ b = a' ++ "/" ++ b' -> a = a' /\ b = b'.
Proof.
  induction a as [|c a IH]; intros [|c' a'] b b' Ha Ha'; cbn; intros H.
  - injection H as H. auto.
  - injection H as Hc _. apply encoded_head in Ha' as [Hne _]. congruence.
  - injection H as Hc _. apply encoded_head in Ha as [Hne _]. congruence.
  - injection H as -> H.
    apply encoded_head in Ha as [_ Ha]. apply encoded_head in Ha' as [_ Ha'].
    destruct (IH a' b b' Ha Ha' H) as [-> ->]. auto.
Qed.

Lemma no_separator_inside (a b : string) :
  percentEncodedText (a ++ "/" ++ b) = false.
Proof.
  induction a as [|c a IH]; [reflexivity|].
  change (percentEncodedText (String c (a ++ "/" ++ b)) = false).
  unfold percentEncodedText. cbn [list_ascii_of_string forallb].
  fold (percentEncodedText (a ++ "/" ++ b)).
  rewrite IH. apply andb_false_r.
Qed.

(** Within one vault an address determines the remote path. *)
Lemma address_determines_path (generalSettings : GeneralSettings)
      (vault path1 path2 : string) :
  address generalSettings vault path1 = address generalSettings vault path2 ->
  path1 = path2.
Proof.
  unfold address. intros H.
  destruct (truthy vault); repeat apply append_cancel_l in H;
    apply percentEncodeAll_injective; exact H.
Qed.

(** X1. Addresses do not collide: two targets for which [buildUrl]
    gives the same address have the same vault and the same remote
    path. (No vault is the empty vault.) *)
Theorem buildUrl_injective (generalSettings : GeneralSettings)
        (vault1 path1 vault2 path2 url : string) :
  buildUrl generalSettings vault1 path1 = inr url ->
  buildUrl generalSettings vault2 path2 = inr url ->
  vault1 = vault2 /\ path1 = path2.
Proof.
  rewrite !buildUrl_address.
  destruct (encodable vault1 path1); [|discriminate].
  destruct (encodable vault2 path2); [|discriminate].
  intros [= <-] [= H]. symmetry in H.
  unfold address in H.
  destruct vault1 as [|c1 v1], vault2 as [|c2 v2]; cbn [truthy] in H;
    repeat apply append_cancel_l in H.
  - split; [reflexivity|]. apply percentEncodeAll_injective. exact H.
  - exfalso.
    pose proof (percentEncodeAll_encoded path1) as Hfree.
    rewrite H, no_separator_inside in Hfree. discriminate.
  - exfalso.
    pose proof (percentEncodeAll_encoded path2) as Hfree.
    rewrite <- H, no_separator_inside in Hfree. discriminate.
  - apply separator_unique in H; try apply percentEncodeAll_encoded.
    destruct H as [Hv Hp].
    split; apply percentEncodeAll_injective; assumption.
Qed.

(** *** Names *)

Lemma digit_code (n : Z) : code (digit n) - 48 = n mod 10.
Proof.
  unfold code, digit.
  pose proof (Z.mod_pos_bound n 10 ltac:(lia)).
  rewrite N_ascii_embedding by lia. lia.
Qed.

Lemma digits_fuel_value (fuel : nat) :
  forall (n : Z) (acc : string),
    0 <= n < 2 ^ Z.of_nat fuel ->
    decimalValueFrom 0 (digits_fuel fuel n acc) = decimalValueFrom n acc.
Proof.
  induction fuel as [|fuel IH]; intros n acc Hn.
  - cbn [digits_fuel]. replace n with 0 by (cbn in Hn; lia). reflexivity.
  - cbn [digits_fuel].
    rewrite Nat2Z.inj_succ, Z.pow_succ_r in Hn by lia.
    destruct (Z.ltb_spec n 10).
    + cbn [decimalValueFrom]. rewrite digit_code.
      f_equal. rewrite Z.mod_small; lia.
    + rewrite IH by (Z.div_mod_to_equations; lia).
      cbn [decimalValueFrom]. rewrite digit_code.
      f_equal. Z.div_mod_to_equations. lia.
Qed.

Lemma digits_fuel_append (fuel : nat) :
  forall (n : Z) (acc tail : string),
    digits_fuel fuel n acc ++ tail = digits_fuel fuel n (acc ++ tail).
Proof.
  induction fuel as [|fuel IH]; intros n acc tail; cbn [digits_fuel];
    [reflexivity|].
  destruct (n <? 10); [reflexivity|]. rewrite IH. reflexivity.
Qed.

(** Reading back what [numberToString] writes, whatever follows it. *)
Lemma numberToString_value (n : Z) (tail : string) :
  0 <= n ->
  decimalValueFrom 0 (numberToString n ++ tail) = decimalValueFrom n tail.
Proof.
  intros Hn. unfold numberToString, digits.
  destruct (Z.ltb_spec n 0); [lia|].
  rewrite digits_fuel_append. apply digits_fuel_value.
  split; [lia|].
  destruct (Z.eq_dec n 0) as [->|]; [reflexivity|].
  rewrite Nat2Z.inj_succ, Z2Nat.id by apply Z.log2_nonneg.
  apply Z.log2_spec. lia.
Qed.

Lemma candidate_injective (path baseName : string) (i j : nat) :
  candidate path baseName i = candidate path baseName j -> i = j.
Proof.
  destruct i as [|i], j as [|j]; unfold candidate; intros H;
    repeat apply append_cancel_l in H; try discriminate H; [reflexivity|].
  apply (f_equal (decimalValueFrom 0)) in H.
  rewrite !numberToString_value in H by lia.
  cbn [decimalValueFrom] in H. lia.
Qed.

(** X2. [findAvailableFileName] never sends the same probe twice:
    whatever the remote answers, the requests of one run are pairwise
    distinct and go to pairwise distinct addresses, those of the
    candidates it tries, which are pairwise distinct names. *)
Theorem probes_distinct (generalSettings : GeneralSettings)
        (remote : list Request -> Request -> FetchOutcome) (now : Z)
        (vault path baseName : string) (w : World) :
  exists (name : string) (k : nat) (fresh : list Request) (log : list (list ConsoleArg)),
    findAvailableFileName generalSettings remote now vault path baseName w =
    (Normal name, mkWorld (requests w ++ fresh) log)
    /\ fresh = probesUpTo generalSettings vault path baseName k
    /\ NoDup fresh
    /\ NoDup (map url fresh)
    /\ (forall i j : nat,
           candidate path baseName i = candidate path baseName j -> i = j).
Proof.
  destruct (findAvailableFileName_total generalSettings remote now vault path baseName w)
    as (name & k & log & Hrun & _ & _).
  exists name, k, (probesUpTo generalSettings vault path baseName k), log.
  split; [exact Hrun|]. split; [reflexivity|].
  assert (Hurls : NoDup (map url (probesUpTo generalSettings vault path baseName k))).
  { destruct (encodable vault (path ++ baseName ++ ".md")) eqn:Henc.
    - rewrite probesUpTo_encodable by exact Henc. rewrite map_map.
      apply NoDup_map_NoDup_ForallPairs; [|apply seq_NoDup].
      intros i j _ _ H. cbn [url Observations.probe] in H.
      apply address_determines_path in H.
      apply candidate_injective in H. exact H.
    - rewrite probesUpTo_unencodable by exact Henc. constructor. }
  split; [|split; [exact Hurls|]].
  - apply NoDup_map_inv in Hurls. exact Hurls.
  - apply candidate_injective.
Qed.


Section Further.

Variable generalSettings : GeneralSettings.
Variable sanitizeFileName : string -> string.
Variable remote : list Request -> Request -> FetchOutcome.
Variable now : Z.

(** *** The requests of a placement *)

(** X3. When the names can be encoded, a create probes the candidates
    in order, one request each, and then sends exactly one POST with
    the raw body: to the candidate its last probe reported absent, all
    earlier ones having been reported present and having other
    addresses than the one written to; or, after 1000 probes all
    reporting present, to the name with the timestamp. *)
Theorem create_writes_to_free_name
        (fileContent noteName path vault : string) (w : World) :
  gateOpen generalSettings = true ->
  let dir := normalizePath path in
  let base := sanitizeFileName noteName in
  let reported := reportedAt generalSettings remote (requests w) vault dir base in
  encodable vault (dir ++ base ++ ".md") = true ->
  exists (k : nat) (name : string),
    requests (snd (createNoteViaLocalRestApi generalSettings sanitizeFileName remote
                     now fileContent noteName path vault Create w)) =
    (requests w ++ probesUpTo generalSettings vault dir base k
     ++ [mutation generalSettings vault name "POST" fileContent])%list
    /\ (1 <= k <= 1000)%nat
    /\ probesUpTo generalSettings vault dir base k =
       map (fun i => probe generalSettings vault (candidate dir base i)) (seq 0 k)
    /\ ((name = candidate dir base (k - 1)
         /\ reported (k - 1)%nat = false
         /\ forall i, (i < k - 1)%nat ->
                      reported i = true
                      /\ address generalSettings vault (candidate dir base i)
                         <> address generalSettings vault name)
        \/ (k = 1000%nat
            /\ name = timestamped dir base now
            /\ forall i, (i < 1000)%nat -> reported i = true)).
Proof.
  intros Hgate dir base reported Henc.
  destruct (createNote_run generalSettings sanitizeFileName remote now
              fileContent noteName path vault Create w Hgate)
    as (target & method & body & w1 & Hrun & Hfind & -> & ->).
  { rewrite placementTarget_regular by reflexivity. exact Henc. }
  fold dir base in Hfind. rewrite Hrun. cbn [snd issued requests].
  destruct (first_absent generalSettings remote vault dir base (requests w) 1000)
    as [(j & Hj & Hat & Hbefore)|Hall].
  - destruct (findAvailableFileName_found generalSettings remote now vault dir base w j)
      as [log Hfound]; [lia|exact Hbefore|exact Hat|].
    rewrite Hfound in Hfind. injection Hfind as <- <-. cbn [requests].
    exists (S j), (candidate dir base j).
    replace (S j - 1)%nat with j by lia.
    split; [rewrite app_assoc; reflexivity|].
    split; [lia|].
    split; [apply probesUpTo_encodable; exact Henc|].
    left. split; [reflexivity|]. split; [assumption|].
    intros i Hi. split; [apply Hbefore; exact Hi|].
    intros Hsame. apply address_determines_path in Hsame.
    apply candidate_injective in Hsame. lia.
  - destruct (findAvailableFileName_exhausted generalSettings remote now vault dir base
                w Hall) as [log Hdone].
    rewrite Hdone in Hfind. injection Hfind as <- <-. cbn [requests].
    exists 1000%nat, (timestamped dir base now).
    split; [rewrite app_assoc; reflexivity|].
    split; [lia|].
    split; [apply probesUpTo_encodable; exact Henc|].
    right. split; [reflexivity|]. split; [reflexivity|assumption].
Qed.

(** The probes are GETs without body whose only header is the bearer
    header. *)
Lemma probing_shape (vault filePath : string) :
  Forall (fun r => method r = "GET" /\ body r = None
                   /\ headers r = [authorization generalSettings])
         (probing generalSettings vault filePath).
Proof using.
  unfold probing. destruct (encodable vault filePath); repeat constructor.
Qed.

Lemma probesUpTo_shape (vault path baseName : string) (k : nat) :
  Forall (fun r => method r = "GET" /\ body r = None
                   /\ headers r = [authorization generalSettings])
         (probesUpTo generalSettings vault path baseName k).
Proof using.
  induction k as [|k IH]; [constructor|].
  rewrite probesUpTo_S. apply Forall_app. split; [exact IH|apply probing_shape].
Qed.

(** A branch with one probe: the probe, then the write the plan names. *)
Ltac one_probe Hbranch Hwrite :=
  let Hplan := fresh "Hplan" in
  destruct Hbranch as (-> & -> & Hplan);
  eexists [_], [_]; (split; [rewrite <- app_assoc; reflexivity|]);
  (split; [repeat constructor|]);
  match type of Hplan with
  | (?method, ?body) = mergePlan (reportsPresent _ _ _ ?vault ?target) _ _ =>
      (split;
       [constructor; [|constructor];
        apply Hwrite;
        destruct (reportsPresent _ _ _ _ _); unfold mergePlan in Hplan;
        injection Hplan as -> _; auto
       |repeat split; try reflexivity; try discriminate; cbn; lia])
  end.

(** X4. With the gate open, whatever the behavior and whatever the
    remote answers, a placement issues at most one write, as its last
    request, with a body and the bearer header; every request before it
    is a GET without body whose only header is the bearer header. When
    the target can be encoded there is exactly one write; when it
    cannot, nothing is sent at all. There are at most 1000 probes, at
    most one unless the behavior is create, and none for overwrite. *)
Theorem one_write_after_probes
        (fileContent noteName path vault : string) (behavior : Behavior) (w : World) :
  gateOpen generalSettings = true ->
  exists (probes writes : list Request),
    requests (snd (createNoteViaLocalRestApi generalSettings sanitizeFileName remote
                     now fileContent noteName path vault behavior w)) =
    (requests w ++ probes ++ writes)%list
    /\ Forall (fun r => method r = "GET" /\ body r = None
                        /\ headers r = [authorization generalSettings]) probes
    /\ Forall (fun final => isWrite final = true
                            /\ (exists sent, body final = Some sent)
                            /\ In (authorization generalSettings) (headers final))
              writes
    /\ (encodable vault (placementTarget sanitizeFileName now noteName path behavior)
        = true -> List.length writes = 1%nat)
    /\ (encodable vault (placementTarget sanitizeFileName now noteName path behavior)
        = false -> probes = [] /\ writes = [])
    /\ (List.length probes <= 1000)%nat
    /\ (behavior <> Create -> (List.length probes <= 1)%nat)
    /\ (behavior = Overwrite -> probes = []).
Proof.
  intros Hgate.
  assert (Hwrite : forall target method body,
             method = "POST" \/ method = "PUT" \/ method = "PATCH" ->
             isWrite (mutation generalSettings vault target method body) = true
             /\ (exists sent,
                    Effects.body (mutation generalSettings vault target method body)
                    = Some sent)
             /\ In (authorization generalSettings)
                   (headers (mutation generalSettings vault target method body))).
  { intros target method body Hmethod. split; [|split].
    - destruct Hmethod as [ -> | [ -> | -> ] ]; reflexivity.
    - exists body. reflexivity.
    - left. reflexivity. }
  destruct (encodable vault (placementTarget sanitizeFileName now noteName path behavior))
    eqn:Henc.
  - destruct (createNote_run generalSettings sanitizeFileName remote now
                fileContent noteName path vault behavior w Hgate Henc)
      as (target & method & body & w1 & Hrun & Hbranch).
    rewrite Hrun. cbn [snd issued requests].
    destruct behavior.
    + destruct Hbranch as (Hfind & -> & ->).
      destruct (findAvailableFileName_total generalSettings remote now vault
                  (normalizePath path) (sanitizeFileName noteName) w)
        as (name & k & log & Htotal & Hk & _).
      rewrite Htotal in Hfind. injection Hfind as <- <-. cbn [requests].
      exists (probesUpTo generalSettings vault (normalizePath path)
                         (sanitizeFileName noteName) k),
        [mutation generalSettings vault name "POST" fileContent].
      split; [rewrite app_assoc; reflexivity|].
      split; [apply probesUpTo_shape|].
      split; [constructor; [apply Hwrite; auto|constructor]|].
      pose proof (probesUpTo_length generalSettings vault (normalizePath path)
                    (sanitizeFileName noteName) k) as Hlength.
      repeat split; try reflexivity; try discriminate; try lia; congruence.
    + one_probe Hbranch Hwrite.
    + one_probe Hbranch Hwrite.
    + one_probe Hbranch Hwrite.
    + one_probe Hbranch Hwrite.
    + destruct Hbranch as (-> & -> & -> & ->).
      exists [], [mutation generalSettings vault
                    (normalizePath path ++ sanitizeFileName noteName ++ ".md")
                    "PUT" fileContent].
      split; [reflexivity|]. split; [constructor|].
      split; [constructor; [apply Hwrite; auto|constructor]|].
      repeat split; try reflexivity; try discriminate; cbn; lia.
  - rewrite createNote_fails by assumption. cbn [snd requests].
    exists [], []. split; [rewrite app_nil_r; reflexivity|].
    split; [constructor|]. split; [constructor|].
    repeat split; try reflexivity; try discriminate; cbn; lia.
Qed.

(** *** Results *)

Lemma normalized_success (o : FetchOutcome) :
  (success (normalized o) = true <-> error (normalized o) = None)
  /\ (success (normalized o) = true <->
      exists r, o = Resolves r /\ 200 <= status r <= 299).
Proof using.
  unfold normalized. destruct o as [r|e].
  - destruct ((200 <=? status r) && (status r <=? 299)) eqn:Hok.
    + apply andb_true_iff in Hok as [Hlow Hhigh].
      apply Z.leb_le in Hlow, Hhigh. cbn [success error].
      split; split; intros _; try reflexivity.
      exists r. split; [reflexivity|lia].
    + assert (Hnot : ~ 200 <= status r <= 299).
      { intros [Hlow Hhigh]. apply Z.leb_le in Hlow, Hhigh.
        rewrite Hlow, Hhigh in Hok. discriminate Hok. }
      destruct (text r); cbn [success error];
        split; split; intros Hs; try discriminate Hs;
        destruct Hs as (r' & Heq & Hr); injection Heq as <-; contradiction.
  - cbn [success error].
    split; split; intros Hs; try discriminate Hs.
    destruct Hs as (r' & Heq & _). discriminate Heq.
Qed.

(** The connectivity test in closed form. *)
Lemma testConnection_run (w : World) :
  testLocalRestApiConnection generalSettings remote w =
  (Normal (normalized (remote (requests w) (rootRequest generalSettings))),
   issued w (rootRequest generalSettings)).
Proof using.
  unfold testLocalRestApiConnection, tryCatch, bind, fetch, normalized, issued, ok.
  change (mkRequest _ "GET" [authorization generalSettings] None)
    with (rootRequest generalSettings).
  destruct (remote (requests w) (rootRequest generalSettings)) as [r|e];
    [|reflexivity].
  destruct ((200 <=? status r) && (status r <=? 299)); [reflexivity|].
  unfold responseText. destruct (text r); reflexivity.
Qed.

(** X5. A result is a success exactly when it carries no error message,
    for the connectivity test and for every placement. The test
    succeeds exactly when its GET is answered with a status in 200..299;
    a placement succeeds exactly when the gate is open, its target can
    be encoded and its last request, the write, is answered with a
    status in 200..299. *)
Theorem success_means_accepted :
  (forall w : World,
      exists result,
        fst (testLocalRestApiConnection generalSettings remote w) = Normal result
        /\ (success result = true <-> error result = None)
        /\ (success result = true <->
            exists r, remote (requests w) (rootRequest generalSettings) = Resolves r
                      /\ 200 <= status r <= 299))
  /\ (forall (fileContent noteName path vault : string) (behavior : Behavior)
             (w : World),
         exists result w',
           createNoteViaLocalRestApi generalSettings sanitizeFileName remote now
             fileContent noteName path vault behavior w = (Normal result, w')
           /\ (success result = true <-> error result = None)
           /\ (success result = true <->
               gateOpen generalSettings = true
               /\ encodable vault
                    (placementTarget sanitizeFileName now noteName path behavior) = true
               /\ exists earlier final r,
                   requests w' = (earlier ++ [final])%list
                   /\ remote earlier final = Resolves r
                   /\ 200 <= status r <= 299)).
Proof.
  split.
  - intros w.
    rewrite testConnection_run. cbn [fst]. eexists. split; [reflexivity|].
    apply normalized_success.
  - intros fileContent noteName path vault behavior w.
    destruct (gateOpen generalSettings) eqn:Hgate.
    + destruct (encodable vault
                  (placementTarget sanitizeFileName now noteName path behavior))
        eqn:Henc.
      * destruct (createNote_run generalSettings sanitizeFileName remote now
                    fileContent noteName path vault behavior w Hgate Henc)
          as (target & method & body & w1 & Hrun & _).
        rewrite Hrun. eexists. eexists. split; [reflexivity|].
        destruct (normalized_success
                    (remote (requests w1)
                            (mutation generalSettings vault target method body)))
          as [Hmessage Haccepted].
        split; [exact Hmessage|]. split.
        -- intros Hsuccess. split; [reflexivity|]. split; [reflexivity|].
           apply Haccepted in Hsuccess as (r & Hr & Hok).
           exists (requests w1), (mutation generalSettings vault target method body), r.
           auto.
        -- intros (_ & _ & earlier & final & r & Hreq & Hr & Hok).
           cbn [issued requests] in Hreq.
           apply app_inj_tail in Hreq as [<- <-].
           apply Haccepted. eauto.
      * rewrite createNote_fails by assumption.
        eexists. eexists. split; [reflexivity|]. cbn [failure success error].
        split; [split; discriminate|].
        split; [discriminate|]. intros (_ & Hencoded & _). discriminate Hencoded.
    + rewrite closed_gate_run by assumption.
      eexists. eexists. split; [reflexivity|]. cbn [success error].
      split; [split; discriminate|].
      split; [discriminate|]. intros (Hopen & _). discriminate Hopen.
Qed.

(** *** Probes that go wrong *)

(** X6. For the four append and prepend behaviors, anything but a
    status in 200..299 on the probe -- a 404, but also a 401, a 500 or a
    request that never got through -- leads to the creation request: one
    POST carrying the whole document body, to the probed target. A
    target that cannot be encoded is not probed, and nothing is sent. *)
Theorem failed_probe_creates
        (fileContent noteName path vault : string) (behavior : Behavior) (w : World) :
  gateOpen generalSettings = true ->
  behavior <> Create ->
  behavior <> Overwrite ->
  let target := placementTarget sanitizeFileName now noteName path behavior in
  (forall r, remote (requests w) (probe generalSettings vault target) = Resolves r ->
             ~ 200 <= status r <= 299) ->
  requests (snd (createNoteViaLocalRestApi generalSettings sanitizeFileName remote
                   now fileContent noteName path vault behavior w)) =
  (requests w
   ++ (if encodable vault target
       then [probe generalSettings vault target;
             mutation generalSettings vault target "POST" fileContent]
       else []))%list.
Proof.
  intros Hgate Hcreate Hoverwrite. cbv zeta.
  destruct (encodable vault (placementTarget sanitizeFileName now noteName path behavior))
    eqn:Henc.
  - remember (placementTarget sanitizeFileName now noteName path behavior)
      as target eqn:Htarget.
    intros Hfailed.
    assert (Habsent : reportsPresent generalSettings remote (requests w) vault target
                      = false).
    { unfold reportsPresent. rewrite Henc. cbn [andb].
      destruct (remote (requests w) (probe generalSettings vault target)) as [r|e]
        eqn:Hremote; [|reflexivity].
      specialize (Hfailed r eq_refl). unfold ok.
      destruct (Z.leb_spec 200 (status r)), (Z.leb_spec (status r) 299);
        try reflexivity. lia. }
    rewrite Htarget in Henc.
    destruct (createNote_run generalSettings sanitizeFileName remote now
                fileContent noteName path vault behavior w Hgate Henc)
      as (t & method & body & w1 & Hrun & Hbranch).
    rewrite Hrun. cbn [snd issued requests].
    destruct behavior; try congruence;
      first [rewrite placementTarget_daily in Htarget by reflexivity
            |rewrite placementTarget_regular in Htarget by reflexivity];
      destruct Hbranch as (Hprobed & Ht & Hplan);
      rewrite <- Htarget in Hprobed, Ht, Hplan;
      rewrite Habsent in Hplan; injection Hplan as -> ->;
      rewrite Hprobed, Ht, <- app_assoc; reflexivity.
  - intros _. rewrite createNote_fails by assumption. cbn [snd requests].
    rewrite app_nil_r. reflexivity.
Qed.

(** *** The address of the daily note *)

Lemma digit_unreserved (n : Z) : uriUnreserved (digit n) = true.
Proof using.
  unfold digit.
  pose proof (Z.mod_pos_bound n 10 ltac:(lia)) as Hrange.
  assert (Hcases : n mod 10 = 0 \/ n mod 10 = 1 \/ n mod 10 = 2 \/ n mod 10 = 3
                   \/ n mod 10 = 4 \/ n mod 10 = 5 \/ n mod 10 = 6
                   \/ n mod 10 = 7 \/ n mod 10 = 8 \/ n mod 10 = 9) by lia.
  repeat (destruct Hcases as [->|Hcases]; [reflexivity|]).
  rewrite Hcases. reflexivity.
Qed.

Lemma encodeURIComponent_wellFormed (s : string) :
  wellFormed s = true -> encodeURIComponent s = inr (percentEncodeAll s).
Proof using.
  unfold wellFormed, encodeURIComponent. intros H. apply negb_true_iff in H.
  rewrite H. reflexivity.
Qed.

Lemma encodeURIComponent_illFormed (s : string) :
  wellFormed s = false -> encodeURIComponent s = inl URIError.
Proof using.
  unfold wellFormed, encodeURIComponent. intros H. apply negb_false_iff in H.
  rewrite H. reflexivity.
Qed.

Lemma encodeURIComponent_inr (s encoded : string) :
  encodeURIComponent s = inr encoded ->
  wellFormed s = true /\ encoded = percentEncodeAll s.
Proof using.
  unfold wellFormed, encodeURIComponent.
  destruct (hasLoneSurrogate s); [discriminate|].
  intros [= <-]. split; reflexivity.
Qed.

(** X7. Between 0000-01-01 and 9999-12-31 UTC the name of the daily
    note passes through the percent-encoding unchanged: its address is
    <base>/vault/[<encoded vault>/]YYYY-MM-DD.md, the date verbatim,
    whenever the vault can be encoded. *)
Theorem daily_address_verbatim (vault : string) (y m d : Z) :
  -62167219200000 <= now < 253402300800000 ->
  utcDate now = (y, m, d) ->
  encodeURIComponent (today now ++ ".md") = inr (dateStamp y m d ++ ".md")
  /\ (forall encodedVault : string,
         encodeURIComponent vault = inr encodedVault ->
         buildUrl generalSettings vault (today now ++ ".md") =
         inr (interp (localRestApiUrl generalSettings) ++ "/vault/"
              ++ (if truthy vault then encodedVault ++ "/" else EmptyString)
              ++ dateStamp y m d ++ ".md"))
  /\ (encodeURIComponent vault = inl URIError ->
      buildUrl generalSettings vault (today now ++ ".md") = inl URIError).
Proof.
  intros Hclock Hdate.
  pose proof (four_digit_years now y m d Hdate Hclock) as Hyear.
  pose proof (plain_today now) as Hplain.
  rewrite (today_stamp now y m d Hdate Hyear) in *.
  assert (Hverbatim : percentEncodeAll (dateStamp y m d ++ ".md")
                      = dateStamp y m d ++ ".md").
  { unfold dateStamp. cbn [padded append percentEncodeAll].
    rewrite !digit_unreserved. reflexivity. }
  assert (Hencoded : encodeURIComponent (dateStamp y m d ++ ".md")
                     = inr (dateStamp y m d ++ ".md")).
  { rewrite encodeURIComponent_wellFormed, Hverbatim; [reflexivity|].
    unfold wellFormed. rewrite plain_well_formed by exact Hplain. reflexivity. }
  split; [exact Hencoded|]. split.
  - intros encodedVault Hvault. unfold buildUrl. rewrite Hencoded, Hvault.
    destruct (truthy vault); cbn [append]; [|reflexivity].
    rewrite append_associative. reflexivity.
  - intros Hvault. unfold buildUrl. rewrite Hencoded, Hvault.
    destruct (truthy vault) eqn:Htruthy; [reflexivity|].
    destruct vault; [discriminate Hvault|discriminate Htruthy].
Qed.

(** *** The directory path *)

(** X8. Normalizing the directory path only ever appends: the result is
    the path itself or the path with one '/' after it, the empty path
    stays empty (the note goes to the vault root), and normalizing a
    second time changes nothing. *)
Theorem normalizePath_idempotent (path : string) :
  (normalizePath path = path \/ normalizePath path = path ++ "/")
  /\ normalizePath EmptyString = EmptyString
  /\ normalizePath (normalizePath path) = normalizePath path.
Proof using.
  split; [|split; [reflexivity|]].
  - unfold normalizePath.
    destruct (truthy path && negb (endsWith path "/")); auto.
  - destruct (truthy path && negb (endsWith path "/")) eqn:Hadd.
    + assert (normalizePath path = path ++ "/") as ->
        by (unfold normalizePath; rewrite Hadd; reflexivity).
      unfold normalizePath. rewrite endsWith_appended.
      cbn [negb]. rewrite andb_false_r. reflexivity.
    + assert (normalizePath path = path) as ->
        by (unfold normalizePath; rewrite Hadd; reflexivity).
      unfold normalizePath. rewrite Hadd. reflexivity.
Qed.

(** *** The revision without probes *)

Lemma vault_or_empty (vault : string) :
  (if truthy vault then vault else EmptyString) = vault.
Proof using.
  destruct vault; reflexivity.
Qed.

(** The earlier revision in closed form: with the gate open and a vault
    and a file path that can be encoded, it issues one request, derived
    from the behavior alone, and normalizes its outcome. *)
Lemma unprobed_run (fileContent noteName path vault : string)
      (behavior : Behavior) (w : World) :
  gateOpen generalSettings = true ->
  wellFormed vault = true ->
  wellFormed (normalizePath path ++ sanitizeFileName noteName ++ ".md") = true ->
  let target := placementTarget sanitizeFileName now noteName path behavior in
  let sent :=
    mkRequest (interp (localRestApiUrl generalSettings) ++ "/vault/"
               ++ percentEncodeAll vault ++ "/" ++ percentEncodeAll target)
              (fst (directPlan behavior fileContent))
              [authorization generalSettings;
               contentType (snd (directPlan behavior fileContent))]
              (Some (snd (directPlan behavior fileContent))) in
  Unprobed.createNoteViaLocalRestApi generalSettings sanitizeFileName remote now
    fileContent noteName path vault behavior w =
  (Normal (normalized (remote (requests w) sent)), issued w sent).
Proof.
  intros Hgate Hvault Hpath target sent. subst sent target.
  assert (Hdaily : encodeURIComponent (today now ++ ".md")
                   = inr (percentEncodeAll (today now ++ ".md"))).
  { apply encodeURIComponent_wellFormed. unfold wellFormed.
    rewrite plain_well_formed by apply plain_today. reflexivity. }
  unfold Unprobed.createNoteViaLocalRestApi, tryCatch, bind.
  rewrite (gate_run generalSettings), Hgate. cbn [negb]. cbv zeta.
  rewrite vault_or_empty.
  rewrite (encodeURIComponent_wellFormed vault Hvault).
  rewrite (encodeURIComponent_wellFormed _ Hpath).
  cbn [evaluate ret].
  destruct behavior;
    [rewrite placementTarget_regular by reflexivity
    |rewrite placementTarget_regular by reflexivity
    |rewrite placementTarget_daily by reflexivity
    |rewrite placementTarget_regular by reflexivity
    |rewrite placementTarget_daily by reflexivity
    |rewrite placementTarget_regular by reflexivity];
    cbn [isDailyNote]; rewrite ?Hdaily; cbn [evaluate ret];
    unfold directPlan, envelope;
    cbn [fst snd position];
    unfold fetch, normalized, issued, ok;
    match goal with
    | |- context [remote (requests w) ?r] =>
        destruct (remote (requests w) r) as [resp|e]
    end;
    try reflexivity;
    (destruct ((200 <=? status resp) && (status resp <=? 299)); [reflexivity|]);
    unfold responseText; destruct (text resp); reflexivity.
Qed.

(** When the vault or the file path cannot be encoded, the earlier
    revision fails before it looks at the behavior, and sends nothing,
    the daily behaviors included. *)
Lemma unprobed_fails (fileContent noteName path vault : string)
      (behavior : Behavior) (w : World) :
  gateOpen generalSettings = true ->
  encodable vault (normalizePath path ++ sanitizeFileName noteName ++ ".md") = false ->
  Unprobed.createNoteViaLocalRestApi generalSettings sanitizeFileName remote now
    fileContent noteName path vault behavior w =
  (Normal (failure URIError), w).
Proof.
  intros Hgate Henc.
  unfold Unprobed.createNoteViaLocalRestApi, tryCatch, bind.
  rewrite (gate_run generalSettings), Hgate. cbn [negb]. cbv zeta.
  rewrite vault_or_empty.
  unfold encodable in Henc.
  destruct (wellFormed vault) eqn:Hvault.
  - rewrite andb_true_r in Henc.
    rewrite (encodeURIComponent_wellFormed vault Hvault).
    rewrite (encodeURIComponent_illFormed _ Henc). reflexivity.
  - rewrite (encodeURIComponent_illFormed vault Hvault). reflexivity.
Qed.

Lemma mutation_named (vault target method body : string) :
  vault <> EmptyString ->
  mutation generalSettings vault target method body =
  mkRequest (interp (localRestApiUrl generalSettings) ++ "/vault/"
             ++ percentEncodeAll vault ++ "/" ++ percentEncodeAll target)
            method [authorization generalSettings; contentType body] (Some body).
Proof using.
  intros Hvault. unfold mutation, address.
  destruct vault; [congruence|reflexivity].
Qed.

(** X9. On a named vault that can be encoded, the probing revision
    refines the earlier one wherever the earlier one gets as far as a
    request. The earlier revision encodes <path><name>.md first,
    whatever the behavior, and then sends one request chosen by the
    behavior alone. When that path can be encoded: for overwrite the two
    runs are equal; for the append and prepend behaviors the probing
    revision first probes the same target and then sends that very
    request when the prober reports the target present, and a POST of
    the raw body when it reports it absent; for create, when the
    unsuffixed name is reported absent, it sends that very request after
    the probe. When that path cannot be encoded the earlier revision
    sends nothing and fails, the daily behaviors included; the probing
    revision does the same for the regular behaviors, but for the daily
    ones, which do not use the path, it probes and writes the daily
    note. *)
Theorem probing_refines_unprobed
        (fileContent noteName path vault : string) (behavior : Behavior) (w : World) :
  gateOpen generalSettings = true ->
  vault <> EmptyString ->
  wellFormed vault = true ->
  let regular := normalizePath path ++ sanitizeFileName noteName ++ ".md" in
  let target := placementTarget sanitizeFileName now noteName path behavior in
  let sent :=
    mutation generalSettings vault target
             (fst (directPlan behavior fileContent))
             (snd (directPlan behavior fileContent)) in
  let earlier :=
    Unprobed.createNoteViaLocalRestApi generalSettings sanitizeFileName remote now
      fileContent noteName path vault behavior w in
  let probed :=
    createNoteViaLocalRestApi generalSettings sanitizeFileName remote now
      fileContent noteName path vault behavior w in
  (wellFormed regular = true ->
   requests (snd earlier) = (requests w ++ [sent])%list
   /\ (behavior = Overwrite -> probed = earlier)
   /\ (behavior <> Create -> behavior <> Overwrite ->
       requests (snd probed) =
       (requests w
        ++ [probe generalSettings vault target;
            if reportsPresent generalSettings remote (requests w) vault target
            then sent
            else mutation generalSettings vault target "POST" fileContent])%list)
   /\ (behavior = Create ->
       reportsPresent generalSettings remote (requests w) vault target = false ->
       requests (snd probed) =
       (requests w ++ [probe generalSettings vault target; sent])%list))
  /\ (wellFormed regular = false ->
      earlier = (Normal (failure URIError), w)
      /\ (isDailyNote behavior = false ->
          fst probed = fst earlier /\ requests (snd probed) = requests (snd earlier))
      /\ (isDailyNote behavior = true ->
          exists final,
            isWrite final = true
            /\ requests (snd probed) =
               (requests w ++ [probe generalSettings vault target; final])%list)).
Proof.
  intros Hgate Hvault Hwell regular target sent earlier probed.
  split.
  - intros Hregular.
    assert (Henc : encodable vault target = true).
    { unfold target. destruct (isDailyNote behavior) eqn:Hdaily.
      - rewrite placementTarget_daily, encodable_daily by exact Hdaily. exact Hwell.
      - rewrite placementTarget_regular by exact Hdaily.
        unfold encodable. fold regular. rewrite Hregular, Hwell. reflexivity. }
    assert (Hearlier : earlier = (Normal (normalized (remote (requests w) sent)),
                                  issued w sent)).
    { unfold earlier, sent. rewrite mutation_named by exact Hvault.
      apply unprobed_run; assumption. }
    destruct (createNote_run generalSettings sanitizeFileName remote now
                fileContent noteName path vault behavior w Hgate Henc)
      as (t & method & body & w1 & Hrun & Hbranch).
    fold probed in Hrun.
    split; [rewrite Hearlier; reflexivity|].
    split; [|split].
    + intros ->. destruct Hbranch as (-> & -> & -> & ->).
      rewrite Hrun, Hearlier. unfold sent, target.
      rewrite placementTarget_regular by reflexivity. reflexivity.
    + intros Hcreate Hoverwrite. rewrite Hrun. cbn [snd issued requests].
      subst sent target.
      destruct behavior; try congruence;
        first [rewrite !placementTarget_daily by reflexivity
              |rewrite !placementTarget_regular by reflexivity];
        destruct Hbranch as (-> & -> & Hplan);
        match type of Hplan with
        | _ = mergePlan ?present _ _ => destruct present
        end;
        unfold directPlan, mergePlan in *;
        cbn [fst snd position] in *;
        injection Hplan as -> ->; rewrite <- app_assoc; reflexivity.
    + intros -> Habsent. rewrite Hrun. cbn [snd issued requests].
      destruct Hbranch as (Hfind & -> & ->).
      subst sent target. rewrite !placementTarget_regular in * by reflexivity.
      destruct (findAvailableFileName_found generalSettings remote now vault
                  (normalizePath path) (sanitizeFileName noteName) w 0)
        as [log Hfound].
      * lia.
      * intros i Hi. lia.
      * rewrite reportedAt_zero. exact Habsent.
      * rewrite Hfound in Hfind. injection Hfind as <- <-.
        cbn [requests]. rewrite probesUpTo_one.
        unfold probing. cbn [candidate]. rewrite Henc.
        rewrite <- app_assoc. reflexivity.
  - intros Hregular.
    assert (Hill : encodable vault regular = false)
      by (unfold encodable; rewrite Hregular; reflexivity).
    assert (Hearlier : earlier = (Normal (failure URIError), w))
      by (apply unprobed_fails; assumption).
    split; [exact Hearlier|]. split.
    + intros Hdaily. unfold probed.
      rewrite createNote_fails;
        [|exact Hgate|rewrite placementTarget_regular by exact Hdaily; exact Hill].
      rewrite Hearlier. split; reflexivity.
    + intros Hdaily.
      assert (Henc : encodable vault target = true).
      { unfold target.
        rewrite placementTarget_daily, encodable_daily by exact Hdaily. exact Hwell. }
      destruct (createNote_run generalSettings sanitizeFileName remote now
                  fileContent noteName path vault behavior w Hgate Henc)
        as (t & method & body & w1 & Hrun & Hbranch).
      fold probed in Hrun. rewrite Hrun. cbn [snd issued requests].
      exists (mutation generalSettings vault t method body).
      unfold target. rewrite placementTarget_daily by exact Hdaily.
      destruct behavior; try discriminate Hdaily;
        destruct Hbranch as (-> & -> & Hplan);
        destruct (reportsPresent _ _ _ _ _);
        unfold mergePlan in Hplan;
        injection Hplan as -> ->;
        (split; [reflexivity|rewrite <- app_assoc; reflexivity]).
Qed.

(** X10. With no vault configured and a file path that can be encoded,
    the earlier revision addresses <base>/vault//<encoded path>, with
    an empty vault segment; the probing revision never sends a request
    to that address. *)
Theorem empty_vault_segment_gone
        (fileContent noteName path : string) (behavior : Behavior) (w : World) :
  gateOpen generalSettings = true ->
  wellFormed (normalizePath path ++ sanitizeFileName noteName ++ ".md") = true ->
  let target := placementTarget sanitizeFileName now noteName path behavior in
  let doubled :=
    interp (localRestApiUrl generalSettings) ++ "/vault//"
    ++ percentEncodeAll target in
  (exists sent,
      requests
        (snd (Unprobed.createNoteViaLocalRestApi generalSettings sanitizeFileName
                remote now fileContent noteName path EmptyString behavior w)) =
      (requests w ++ [sent])%list
      /\ url sent = doubled)
  /\ (exists fresh,
         requests
           (snd (createNoteViaLocalRestApi generalSettings sanitizeFileName remote
                   now fileContent noteName path EmptyString behavior w)) =
         (requests w ++ fresh)%list
         /\ Forall (fun r => url r <> doubled) fresh).
Proof.
  intros Hgate Hpath target doubled. split.
  - pose proof (unprobed_run fileContent noteName path EmptyString behavior w Hgate
                  eq_refl Hpath) as Hrun.
    cbv zeta in Hrun. rewrite Hrun. cbn [snd issued requests].
    eexists. split; reflexivity.
  - destruct (placement_targets generalSettings sanitizeFileName remote now
                fileContent noteName path EmptyString behavior w Hgate)
      as (fresh & Hreq & Hall).
    exists fresh. split; [exact Hreq|].
    revert Hall. apply Forall_impl. intros r [t Hurl] Hsame.
    rewrite buildUrl_address in Hurl.
    destruct (encodable EmptyString t); [|discriminate Hurl].
    injection Hurl as Hurl.
    rewrite <- Hurl in Hsame. unfold doubled, address in Hsame. cbn [truthy] in Hsame.
    apply append_cancel_l in Hsame.
    change ("/vault//" ++ percentEncodeAll target)
      with ("/vault/" ++ "/" ++ percentEncodeAll target) in Hsame.
    apply append_cancel_l in Hsame.
    pose proof (percentEncodeAll_encoded t) as Hfree.
    rewrite Hsame in Hfree. discriminate Hfree.
Qed.

(** *** Two creates in a row *)

Lemma keeping_reports (history : list Request) (vault filePath : string) :
  reportsPresent generalSettings keepingRemote history vault filePath =
  encodable vault filePath
  && existsb (fun q => isWrite q
                       && String.eqb (url q) (address generalSettings vault filePath))
             history.
Proof using.
  unfold reportsPresent, keepingRemote.
  change (isWrite (probe generalSettings vault filePath)) with false.
  cbn [url Observations.probe].
  destruct (existsb _ history); reflexivity.
Qed.

Lemma nothing_kept (history : list Request) (address : string) :
  Forall (fun q => isWrite q = false) history ->
  existsb (fun q => isWrite q && String.eqb (url q) address) history = false.
Proof using.
  induction 1 as [|q history Hq _ IH]; [reflexivity|].
  cbn [existsb]. rewrite Hq, IH. reflexivity.
Qed.

(** A create against the remote that keeps what it is sent, when the
    first [j] candidates are taken and candidate [j] is free. *)
Lemma create_on_keeping (fileContent noteName path vault : string) (w : World)
      (j : nat) :
  gateOpen generalSettings = true ->
  encodable vault (normalizePath path ++ sanitizeFileName noteName ++ ".md") = true ->
  (j <= 999)%nat ->
  (forall i, (i < j)%nat ->
             reportedAt generalSettings keepingRemote (requests w) vault
                        (normalizePath path) (sanitizeFileName noteName) i = true) ->
  reportedAt generalSettings keepingRemote (requests w) vault
             (normalizePath path) (sanitizeFileName noteName) j = false ->
  exists log,
    createNoteViaLocalRestApi generalSettings sanitizeFileName keepingRemote now
      fileContent noteName path vault Create w =
    (Normal (mkResult true None),
     mkWorld
       (requests w
        ++ map (fun i => probe generalSettings vault
                           (candidate (normalizePath path) (sanitizeFileName noteName) i))
               (seq 0 (S j))
        ++ [mutation generalSettings vault
                     (candidate (normalizePath path) (sanitizeFileName noteName) j)
                     "POST" fileContent])
       log).
Proof using generalSettings sanitizeFileName now.
  intros Hgate Henc Hj Hbefore Hat.
  destruct (createNote_run generalSettings sanitizeFileName keepingRemote now
              fileContent noteName path vault Create w Hgate)
    as (target & method & body & w1 & Hrun & Hfind & -> & ->).
  { rewrite placementTarget_regular by reflexivity. exact Henc. }
  destruct (findAvailableFileName_found generalSettings keepingRemote now vault
              (normalizePath path) (sanitizeFileName noteName) w j Hj Hbefore Hat)
    as [log Hfound].
  rewrite Hfound in Hfind. injection Hfind as <- <-.
  exists log. rewrite Hrun. unfold issued. cbn [requests warnings].
  rewrite probesUpTo_encodable by exact Henc.
  rewrite <- app_assoc. reflexivity.
Qed.

(** X11. Against a remote that keeps what it is sent and has received no
    write before, two creates in a row with the same note name and
    directory, which can be encoded, both succeed and do not collide:
    the first writes <name>.md after one probe, the second finds it
    taken, probes <name> 1.md and writes there. *)
Theorem successive_creates_do_not_collide
        (content1 content2 noteName path vault : string) (w : World) :
  gateOpen generalSettings = true ->
  Forall (fun q => isWrite q = false) (requests w) ->
  encodable vault (normalizePath path ++ sanitizeFileName noteName ++ ".md") = true ->
  let dir := normalizePath path in
  let base := sanitizeFileName noteName in
  let first :=
    createNoteViaLocalRestApi generalSettings sanitizeFileName keepingRemote now
      content1 noteName path vault Create w in
  let second :=
    createNoteViaLocalRestApi generalSettings sanitizeFileName keepingRemote now
      content2 noteName path vault Create (snd first) in
  fst first = Normal (mkResult true None)
  /\ fst second = Normal (mkResult true None)
  /\ requests (snd second) =
     (requests w
      ++ [probe generalSettings vault (dir ++ base ++ ".md");
          mutation generalSettings vault (dir ++ base ++ ".md") "POST" content1;
          probe generalSettings vault (dir ++ base ++ ".md");
          probe generalSettings vault (dir ++ base ++ " 1.md");
          mutation generalSettings vault (dir ++ base ++ " 1.md") "POST" content2])%list
  /\ address generalSettings vault (dir ++ base ++ ".md")
     <> address generalSettings vault (dir ++ base ++ " 1.md").
Proof using generalSettings sanitizeFileName now.
  intros Hgate Hquiet Henc dir base first second. subst dir base.
  assert (Hdistinct :
            address generalSettings vault
                    (candidate (normalizePath path) (sanitizeFileName noteName) 0)
            <> address generalSettings vault
                       (candidate (normalizePath path) (sanitizeFileName noteName) 1)).
  { intros Hsame. apply address_determines_path in Hsame.
    apply candidate_injective in Hsame. discriminate Hsame. }
  assert (Henc0 : encodable vault
                    (candidate (normalizePath path) (sanitizeFileName noteName) 0)
                  = true) by exact Henc.
  assert (Henc1 : encodable vault
                    (candidate (normalizePath path) (sanitizeFileName noteName) 1)
                  = true) by (rewrite encodable_candidate; exact Henc).
  destruct (create_on_keeping content1 noteName path vault w 0 Hgate Henc)
    as [log1 Hfirst].
  { lia. }
  { intros i Hi. lia. }
  { rewrite reportedAt_zero, keeping_reports, nothing_kept by exact Hquiet.
    apply andb_false_r. }
  fold first in Hfirst. cbn [seq map] in Hfirst.
  destruct (create_on_keeping content2 noteName path vault (snd first) 1 Hgate Henc)
    as [log2 Hsecond].
  { lia. }
  { intros i Hi. assert (i = 0%nat) as -> by lia.
    rewrite reportedAt_zero, keeping_reports, Hfirst, Henc0. cbn [snd requests andb].
    rewrite !existsb_app. cbn [existsb app].
    change (isWrite (mutation generalSettings vault
                              (candidate (normalizePath path) (sanitizeFileName noteName) 0)
                              "POST" content1)) with true.
    cbn [andb url mutation]. rewrite !String.eqb_refl.
    cbn [orb]. rewrite !orb_true_r. reflexivity. }
  { unfold reportedAt. rewrite keeping_reports, Hfirst, Henc1. cbn [snd requests andb].
    rewrite probesUpTo_encodable by exact Henc. cbn [seq map].
    rewrite !existsb_app, (nothing_kept (requests w)) by exact Hquiet.
    cbn [existsb app orb].
    change (isWrite (probe generalSettings vault
                           (candidate (normalizePath path) (sanitizeFileName noteName) 0)))
      with false.
    cbn [andb orb url mutation].
    apply String.eqb_neq in Hdistinct. rewrite Hdistinct.
    rewrite andb_false_r. reflexivity. }
  fold second in Hsecond.
  rewrite Hfirst in Hsecond |- *. cbn [fst snd requests] in Hsecond |- *.
  rewrite Hsecond. cbn [fst snd requests seq map].
  split; [reflexivity|]. split; [reflexivity|].
  split; [|exact Hdistinct].
  rewrite <- !app_assoc. reflexivity.
Qed.

(** *** The console *)

Lemma proberLog_short (history : list Request) (vault filePath : string) :
  (List.length (proberLog generalSettings remote history vault filePath) <= 1)%nat
  /\ (encodable vault filePath = true /\ cleanRemote remote ->
      proberLog generalSettings remote history vault filePath = []).
Proof using.
  unfold proberLog, cleanRemote.
  destruct (encodable vault filePath).
  - split.
    + unfold probeLog.
      destruct (remote history (probe generalSettings vault filePath)) as [r|e];
        [|cbn; lia].
      destruct (ok r); [cbn; lia|]. destruct (status r =? 404); cbn; lia.
    + intros [_ Hclean].
      specialize (Hclean history (probe generalSettings vault filePath)).
      unfold probeLog, cleanAnswer in *.
      destruct (remote history (probe generalSettings vault filePath)) as [r|e];
        [|discriminate Hclean].
      destruct (ok r); [reflexivity|].
      destruct (status r =? 404); [reflexivity|discriminate Hclean].
  - split; [cbn; lia|]. intros [Henc _]. discriminate Henc.
Qed.

Lemma logged_refl (quiet : Prop) (w : World) (n : nat) : logged quiet w w n.
Proof using.
  exists []. rewrite app_nil_r. repeat split. cbn. lia.
Qed.

Lemma logged_trans (quiet : Prop) (w1 w2 w3 : World) (n m : nat) :
  logged quiet w1 w2 n -> logged quiet w2 w3 m -> logged quiet w1 w3 (n + m).
Proof using.
  intros (e1 & H1 & L1 & C1) (e2 & H2 & L2 & C2).
  exists (e1 ++ e2)%list. rewrite H2, H1, app_assoc.
  split; [reflexivity|]. split; [rewrite length_app; lia|].
  intros Hquiet. rewrite (C1 Hquiet), (C2 Hquiet). reflexivity.
Qed.

Lemma checkFileExists_logged (vault filePath : string) (w : World) :
  logged (encodable vault filePath = true /\ cleanRemote remote)
         w (snd (checkFileExists generalSettings remote vault filePath w)) 1.
Proof using.
  rewrite checkFileExists_closed. cbn [snd].
  destruct (proberLog_short (requests w) vault filePath) as [Hshort Hclean].
  eexists. cbn [warnings]. split; [reflexivity|]. split; [exact Hshort|exact Hclean].
Qed.

Lemma probeSuffixes_logged (n : nat) :
  forall (vault path baseName : string) (counter : Z) (w : World),
    logged (encodable vault (path ++ baseName ++ ".md") = true /\ cleanRemote remote)
           w (snd (probeSuffixes generalSettings remote now n vault path baseName
                                 counter w)) n.
Proof using.
  induction n as [|n IH]; intros vault path baseName counter w.
  - apply logged_refl.
  - rewrite probeSuffixes_step.
    pose proof (checkFileExists_logged vault
                  (path ++ baseName ++ " " ++ numberToString counter ++ ".md") w)
      as Hstep.
    change (path ++ baseName ++ " " ++ numberToString counter ++ ".md")
      with (timestamped path baseName counter) in Hstep.
    rewrite encodable_timestamped in Hstep.
    change (timestamped path baseName counter)
      with (path ++ baseName ++ " " ++ numberToString counter ++ ".md") in Hstep.
    rewrite checkFileExists_closed in Hstep |- *. cbn [snd] in Hstep.
    destruct (reportsPresent generalSettings remote (requests w) vault
                (path ++ baseName ++ " " ++ numberToString counter ++ ".md"));
      cbn [negb snd].
    + change (S n) with (1 + n)%nat. eapply logged_trans; [exact Hstep|apply IH].
    + destruct Hstep as (extra & H1 & H2 & H3). exists extra.
      split; [exact H1|]. split; [lia|exact H3].
Qed.

Lemma findAvailableFileName_logged (vault path baseName : string) (w : World) :
  logged (encodable vault (path ++ baseName ++ ".md") = true /\ cleanRemote remote)
         w (snd (findAvailableFileName generalSettings remote now vault path
                                       baseName w)) 1000.
Proof using.
  unfold findAvailableFileName, bind.
  pose proof (checkFileExists_logged vault (path ++ baseName ++ ".md") w) as Hstep.
  rewrite checkFileExists_closed in Hstep |- *. cbn [snd] in Hstep.
  destruct (reportsPresent generalSettings remote (requests w) vault
              (path ++ baseName ++ ".md")); cbn [negb].
  - change 1000%nat with (1 + 999)%nat.
    eapply logged_trans; [exact Hstep|].
    change (Z.to_nat (1000 - 1)) with 999%nat. apply probeSuffixes_logged.
  - unfold ret. cbn [snd].
    destruct Hstep as (extra & H1 & H2 & H3). exists extra.
    split; [exact H1|]. split; [lia|exact H3].
Qed.

Lemma Behavior_eq_Overwrite (behavior : Behavior) :
  behavior = Overwrite \/ behavior <> Overwrite.
Proof using.
  destruct behavior; auto; right; discriminate.
Qed.

(** The console after an append or a prepend is the console after its
    probe. *)
Lemma merge_console (fileContent noteName path vault : string)
      (behavior : Behavior) (w : World) :
  gateOpen generalSettings = true ->
  behavior <> Create ->
  behavior <> Overwrite ->
  warnings (snd (createNoteViaLocalRestApi generalSettings sanitizeFileName remote
                   now fileContent noteName path vault behavior w)) =
  warnings (snd (checkFileExists generalSettings remote vault
                   (placementTarget sanitizeFileName now noteName path behavior) w)).
Proof.
  intros Hgate Hcreate Hoverwrite.
  destruct (encodable vault (placementTarget sanitizeFileName now noteName path behavior))
    eqn:Henc.
  - remember (placementTarget sanitizeFileName now noteName path behavior)
      as target eqn:Htarget.
    rewrite checkFileExists_closed. cbn [snd warnings].
    destruct behavior; try congruence;
      first [rewrite placementTarget_daily in Htarget by reflexivity
            |rewrite placementTarget_regular in Htarget by reflexivity];
      unfold createNoteViaLocalRestApi; cbv zeta; cbn [isDailyNote];
      rewrite <- Htarget;
      destruct (reportsPresent generalSettings remote (requests w) vault target)
        eqn:Hpresent;
      (erewrite placement_shape
         by first [exact Hgate
                  |unfold bind;
                   rewrite checkFileExists_closed, Hpresent, buildUrl_address, Henc;
                   reflexivity]);
      reflexivity.
  - rewrite createNote_fails by assumption.
    rewrite checkFileExists_closed. unfold proberLog. rewrite Henc.
    destruct behavior; try congruence; reflexivity.
Qed.

(** X12. A placement writes to the console only through its probes: it
    never removes a warning, adds at most one per probe (at most 1000
    for a create, at most one otherwise), adds none when the target can
    be encoded and every answer of the remote is a status in 200..299
    or a 404, and none at all for an overwrite or with the gate closed.
    With the gate open, a target that cannot be encoded costs every
    behavior but overwrite exactly one warning, that of the prober. *)
Theorem console_only_for_probes
        (fileContent noteName path vault : string) (behavior : Behavior) (w : World) :
  let after :=
    snd (createNoteViaLocalRestApi generalSettings sanitizeFileName remote now
           fileContent noteName path vault behavior w) in
  let quiet :=
    encodable vault (placementTarget sanitizeFileName now noteName path behavior) = true
    /\ cleanRemote remote in
  logged quiet w after 1000
  /\ (behavior <> Create -> logged quiet w after 1)
  /\ (behavior = Overwrite -> warnings after = warnings w)
  /\ (gateOpen generalSettings = false -> after = w)
  /\ (gateOpen generalSettings = true ->
      encodable vault (placementTarget sanitizeFileName now noteName path behavior)
      = false ->
      behavior <> Overwrite ->
      warnings after = (warnings w ++ [encodingWarning])%list).
Proof.
  intros after quiet.
  assert (Hclosed : gateOpen generalSettings = false -> after = w).
  { intros Hgate. unfold after. rewrite closed_gate_run by exact Hgate. reflexivity. }
  assert (Hsame : forall n, warnings after = warnings w -> logged quiet w after n).
  { intros n Hwarnings. exists []. rewrite app_nil_r.
    split; [exact Hwarnings|]. split; [cbn; lia|reflexivity]. }
  assert (Hmerge : gateOpen generalSettings = true ->
                   behavior <> Create -> behavior <> Overwrite ->
                   logged quiet w after 1).
  { intros Hgate Hcreate Hoverwrite.
    pose proof (checkFileExists_logged vault
                  (placementTarget sanitizeFileName now noteName path behavior) w)
      as (extra & Hextra & Hshort & Hclean).
    exists extra. unfold after. rewrite merge_console by assumption.
    auto. }
  assert (Hover : behavior = Overwrite -> warnings after = warnings w).
  { intros ->. destruct (gateOpen generalSettings) eqn:Hgate.
    - destruct (encodable vault
                  (placementTarget sanitizeFileName now noteName path Overwrite))
        eqn:Henc.
      + destruct (createNote_run generalSettings sanitizeFileName remote now
                    fileContent noteName path vault Overwrite w Hgate Henc)
          as (t & m & b & w1 & Hrun & -> & _).
        unfold after. rewrite Hrun. reflexivity.
      + unfold after. rewrite createNote_fails by assumption.
        cbn [snd warnings]. apply app_nil_r.
    - rewrite (Hclosed eq_refl). reflexivity. }
  split; [|split; [|split; [exact Hover|split; [exact Hclosed|]]]].
  - destruct (gateOpen generalSettings) eqn:Hgate;
      [|rewrite (Hclosed eq_refl); apply logged_refl].
    destruct behavior;
      try (destruct (Hmerge eq_refl) as (extra & H1 & H2 & H3);
           [discriminate|discriminate|];
           exists extra; split; [exact H1|]; split; [lia|exact H3]).
    + destruct (encodable vault
                  (placementTarget sanitizeFileName now noteName path Create))
        eqn:Henc.
      * destruct (createNote_run generalSettings sanitizeFileName remote now
                    fileContent noteName path vault Create w Hgate Henc)
          as (t & m & b & w1 & Hrun & Hfind & _).
        pose proof (findAvailableFileName_logged vault (normalizePath path)
                      (sanitizeFileName noteName) w) as Hlogged.
        rewrite Hfind in Hlogged. cbn [snd] in Hlogged.
        unfold after. rewrite Hrun.
        destruct Hlogged as (extra & H1 & H2 & H3).
        exists extra. split; [exact H1|]. split; [exact H2|].
        intros [_ Hclean]. apply H3. split; [|exact Hclean].
        rewrite placementTarget_regular in Henc by reflexivity. exact Henc.
      * unfold after. rewrite createNote_fails by assumption.
        exists [encodingWarning]. split; [reflexivity|]. split; [cbn; lia|].
        intros [Hencoded _]. unfold quiet in *. congruence.
    + apply Hsame, Hover. reflexivity.
  - intros Hcreate.
    destruct (gateOpen generalSettings) eqn:Hgate;
      [|rewrite (Hclosed eq_refl); apply logged_refl].
    destruct (Behavior_eq_Overwrite behavior) as [->|Hoverwrite].
    + apply Hsame, Hover. reflexivity.
    + apply Hmerge; auto.
  - intros Hgate Henc Hoverwrite. unfold after.
    rewrite createNote_fails by assumption. cbn [snd warnings].
    destruct behavior; try reflexivity. congruence.
Qed.

(** *** The partial-update envelope *)

Lemma jsonReadString_escape (c : ascii) (rest : string) :
  jsonReadString (jsonEscape c ++ rest) =
  (String c (fst (jsonReadString rest)), snd (jsonReadString rest)).
Proof using.
  destruct c as [b0 b1 b2 b3 b4 b5 b6 b7].
  destruct b0, b1, b2, b3, b4, b5, b6, b7;
    cbn; destruct (jsonReadString rest); reflexivity.
Qed.

Lemma hexValue_digit (d : Z) : 0 <= d < 16 -> hexValue (hexDigitLower d) = d.
Proof using.
  intros Hd.
  assert (Hcases : d = 0 \/ d = 1 \/ d = 2 \/ d = 3 \/ d = 4 \/ d = 5 \/ d = 6
                   \/ d = 7 \/ d = 8 \/ d = 9 \/ d = 10 \/ d = 11 \/ d = 12
                   \/ d = 13 \/ d = 14 \/ d = 15) by lia.
  repeat (destruct Hcases as [->|Hcases]; [reflexivity|]).
  rewrite Hcases. reflexivity.
Qed.

Lemma byte_code (c : ascii) : byte (code c) = c.
Proof using.
  unfold byte, code. rewrite N2Z.id. apply ascii_N_embedding.
Qed.

(** The escape of a lone surrogate is read back as its three bytes. *)
Lemma utf8_surrogate (c0 c1 c2 : ascii) :
  surrogateBytes c0 c1 c2 = true ->
  utf8 (((16 * hexValue (hexDigitLower (codeUnit c1 c2 / 4096))
          + hexValue (hexDigitLower (codeUnit c1 c2 / 256 mod 16))) * 16
         + hexValue (hexDigitLower (codeUnit c1 c2 / 16 mod 16))) * 16
        + hexValue (hexDigitLower (codeUnit c1 c2 mod 16)))
  = String c0 (String c1 (String c2 EmptyString)).
Proof using.
  unfold surrogateBytes. intros H.
  repeat (apply andb_true_iff in H as [H ?]).
  apply Z.eqb_eq in H.
  repeat match goal with
         | Hb : (_ <=? _) = true |- _ => apply Z.leb_le in Hb
         end.
  assert (Hunit : 55296 <= codeUnit c1 c2 <= 57343) by (unfold codeUnit; lia).
  rewrite !hexValue_digit by (Z.div_mod_to_equations; lia).
  replace (((16 * (codeUnit c1 c2 / 4096) + codeUnit c1 c2 / 256 mod 16) * 16
            + codeUnit c1 c2 / 16 mod 16) * 16 + codeUnit c1 c2 mod 16)
    with (codeUnit c1 c2) by (Z.div_mod_to_equations; lia).
  unfold utf8.
  destruct (Z.ltb_spec (codeUnit c1 c2) 128); [lia|].
  destruct (Z.ltb_spec (codeUnit c1 c2) 2048); [lia|].
  replace (224 + codeUnit c1 c2 / 4096) with (code c0)
    by (Z.div_mod_to_equations; lia).
  replace (128 + codeUnit c1 c2 / 64 mod 64) with (code c1)
    by (unfold codeUnit; Z.div_mod_to_equations; lia).
  replace (128 + codeUnit c1 c2 mod 64) with (code c2)
    by (unfold codeUnit; Z.div_mod_to_equations; lia).
  rewrite !byte_code. reflexivity.
Qed.

Lemma jsonReadString_surrogate (c0 c1 c2 : ascii) (rest : string) :
  surrogateBytes c0 c1 c2 = true ->
  jsonReadString ("\u" ++ hex4 (codeUnit c1 c2) ++ rest) =
  (String c0 (String c1 (String c2 (fst (jsonReadString rest)))),
   snd (jsonReadString rest)).
Proof using.
  intros Hsurrogate.
  pose proof (utf8_surrogate c0 c1 c2 Hsurrogate) as Hread.
  unfold hex4.
  change (jsonReadString
            (String "\" (String "u"
               (String (hexDigitLower (codeUnit c1 c2 / 4096))
                  (String (hexDigitLower (codeUnit c1 c2 / 256 mod 16))
                     (String (hexDigitLower (codeUnit c1 c2 / 16 mod 16))
                        (String (hexDigitLower (codeUnit c1 c2 mod 16)) rest))))))
          = (String c0 (String c1 (String c2 (fst (jsonReadString rest)))),
             snd (jsonReadString rest))).
  set (a := hexDigitLower (codeUnit c1 c2 / 4096)) in *.
  set (b := hexDigitLower (codeUnit c1 c2 / 256 mod 16)) in *.
  set (h := hexDigitLower (codeUnit c1 c2 / 16 mod 16)) in *.
  set (l := hexDigitLower (codeUnit c1 c2 mod 16)) in *.
  change (jsonReadString (String "\" (String "u" (String a (String b (String h (String l rest)))))))
    with (let (text, after) := jsonReadString rest in
          (utf8 (((16 * hexValue a + hexValue b) * 16 + hexValue h) * 16 + hexValue l)
           ++ text, after)).
  rewrite Hread. destruct (jsonReadString rest). reflexivity.
Qed.

Lemma jsonEscapeAll_step (c0 : ascii) (rest0 : string) :
  jsonEscapeAll (String c0 rest0) =
  match rest0 with
  | String c1 (String c2 rest2) =>
      if surrogateBytes c0 c1 c2
      then "\u" ++ hex4 (codeUnit c1 c2) ++ jsonEscapeAll rest2
      else jsonEscape c0 ++ jsonEscapeAll rest0
  | _ => jsonEscape c0 ++ jsonEscapeAll rest0
  end.
Proof using.
  reflexivity.
Qed.

Lemma jsonReadString_escaped (n : nat) :
  forall s after : string,
    (String.length s <= n)%nat ->
    jsonReadString (jsonEscapeAll s ++ String "034" after) = (s, after).
Proof using.
  induction n as [|n IH]; intros s after Hlength.
  - destruct s; [reflexivity|cbn in Hlength; lia].
  - destruct s as [|c0 rest0]; [reflexivity|].
    cbn [String.length] in Hlength.
    assert (Hplain : jsonReadString ((jsonEscape c0 ++ jsonEscapeAll rest0)
                                     ++ String "034" after)
                     = (String c0 rest0, after)).
    { rewrite append_associative, jsonReadString_escape, IH by lia. reflexivity. }
    rewrite jsonEscapeAll_step.
    destruct rest0 as [|c1 [|c2 rest2]]; try exact Hplain.
    destruct (surrogateBytes c0 c1 c2) eqn:Hsurrogate; [|exact Hplain].
    cbn [String.length] in Hlength.
    rewrite !append_associative.
    rewrite (jsonReadString_surrogate c0 c1 c2 _ Hsurrogate), IH by lia.
    reflexivity.
Qed.

Lemma jsonReadString_escapeAll (s : string) (after : string) :
  jsonReadString (jsonEscapeAll s ++ String "034" after) = (s, after).
Proof using.
  apply (jsonReadString_escaped (String.length s)). lia.
Qed.

(** X13. The body of a PATCH can be read back: two envelopes that are
    equal as text carry the same content and the same position, and
    reading the string that follows the "content" key returns the
    document body byte for byte. *)
Theorem envelope_read_back :
  (forall content position after,
      envelope content position = "{" ++ after ->
      exists rest,
        after = String "034" ("content" ++ String "034" (":" ++ String "034" rest))
        /\ fst (jsonReadString rest) = content)
  /\ (forall content1 position1 content2 position2,
         envelope content1 position1 = envelope content2 position2 ->
         content1 = content2 /\ position1 = position2).
Proof using.
  assert (Hshape : forall content position,
             envelope content position =
             "{" ++ String "034" ("content" ++ String "034" (":" ++ String "034"
               (jsonEscapeAll content ++ String "034"
                  ("," ++ String "034" ("position" ++ String "034" (":" ++ String "034"
                     (jsonEscapeAll position ++ String "034" "}")))))))).
  { intros content position.
    unfold envelope, JSON_stringify, jsonMembers, jsonQuote.
    change (jsonEscapeAll "content") with "content".
    change (jsonEscapeAll "position") with "position".
    cbn [append]. rewrite !append_associative. cbn [append].
    rewrite !append_associative. reflexivity. }
  split.
  - intros content position after Henvelope. rewrite Hshape in Henvelope.
    injection Henvelope as <-. eexists. split; [reflexivity|].
    rewrite jsonReadString_escapeAll. reflexivity.
  - intros content1 position1 content2 position2 Hsame.
    rewrite !Hshape in Hsame.
    repeat (cbn [append] in Hsame; injection Hsame as Hsame).
    apply (f_equal jsonReadString) in Hsame.
    rewrite !jsonReadString_escapeAll in Hsame.
    injection Hsame as -> Hsame. split; [reflexivity|].
    repeat (cbn [append] in Hsame; injection Hsame as Hsame).
    apply (f_equal jsonReadString) in Hsame.
    rewrite !jsonReadString_escapeAll in Hsame.
    injection Hsame as ->. reflexivity.
Qed.

(** *** Inputs that play no part *)

(** X14. The daily behaviors do not look at the directory path: two
    runs that differ only in the path are equal (result, requests and
    warnings). And append-specific, prepend-specific and overwrite do
    not read the clock: two runs that differ only in the instant are
    equal. *)
Theorem unused_inputs
        (fileContent noteName path1 path2 vault : string) (now1 now2 : Z) (w : World) :
  (createNoteViaLocalRestApi generalSettings sanitizeFileName remote now1
     fileContent noteName path1 vault AppendDaily w =
   createNoteViaLocalRestApi generalSettings sanitizeFileName remote now1
     fileContent noteName path2 vault AppendDaily w)
  /\ (createNoteViaLocalRestApi generalSettings sanitizeFileName remote now1
        fileContent noteName path1 vault PrependDaily w =
      createNoteViaLocalRestApi generalSettings sanitizeFileName remote now1
        fileContent noteName path2 vault PrependDaily w)
  /\ (createNoteViaLocalRestApi generalSettings sanitizeFileName remote now1
        fileContent noteName path1 vault AppendSpecific w =
      createNoteViaLocalRestApi generalSettings sanitizeFileName remote now2
        fileContent noteName path1 vault AppendSpecific w)
  /\ (createNoteViaLocalRestApi generalSettings sanitizeFileName remote now1
        fileContent noteName path1 vault PrependSpecific w =
      createNoteViaLocalRestApi generalSettings sanitizeFileName remote now2
        fileContent noteName path1 vault PrependSpecific w)
  /\ (createNoteViaLocalRestApi generalSettings sanitizeFileName remote now1
        fileContent noteName path1 vault Overwrite w =
      createNoteViaLocalRestApi generalSettings sanitizeFileName remote now2
        fileContent noteName path1 vault Overwrite w).
Proof using generalSettings sanitizeFileName remote.
  unfold createNoteViaLocalRestApi.
  cbv beta iota zeta delta [isDailyNote].
  repeat split; reflexivity.
Qed.

End Further.

(** *** The further properties at work *)

(** X1 at work: one note, one address. *)
Lemma buildUrl_injective_witness :
  buildUrl exampleSettings "Main" "Inbox/Note.md" =
    inr "http://127.0.0.1:27123/vault/Main/Inbox%2FNote.md"
  /\ "Main" = "Main" /\ "Inbox/Note.md" = "Inbox/Note.md".
Proof.
  split; [reflexivity|].
  exact (buildUrl_injective exampleSettings "Main" "Inbox/Note.md"
           "Main" "Inbox/Note.md"
           "http://127.0.0.1:27123/vault/Main/Inbox%2FNote.md" eq_refl eq_refl).
Defined.

(** X3 at work: a create while Note.md is taken. *)
Lemma create_writes_to_free_name_witness :
  gateOpen exampleSettings = true
  /\ encodable "Main" "Inbox/Note.md" = true
  /\ exists (k : nat) (name : string),
      requests
        (snd (createNoteViaLocalRestApi exampleSettings dropReserved
                (remoteHolding ["http://127.0.0.1:27123/vault/Main/Inbox%2FNote.md"])
                exampleNow "# Hi" "Note" "Inbox" "Main" Create freshWorld)) =
      (requests freshWorld
       ++ probesUpTo exampleSettings "Main" (normalizePath "Inbox")
                     (dropReserved "Note") k
       ++ [mutation exampleSettings "Main" name "POST" "# Hi"])%list
      /\ (1 <= k <= 1000)%nat.
Proof.
  split; [reflexivity|]. split; [reflexivity|].
  destruct (create_writes_to_free_name exampleSettings dropReserved
              (remoteHolding ["http://127.0.0.1:27123/vault/Main/Inbox%2FNote.md"])
              exampleNow "# Hi" "Note" "Inbox" "Main" freshWorld eq_refl eq_refl)
    as (k & name & Hrequests & Hk & _).
  exists k, name. split; [exact Hrequests|exact Hk].
Defined.

(** X4 at work: an append to a note the remote lacks. *)
Lemma one_write_after_probes_witness :
  gateOpen exampleSettings = true
  /\ exists (probes writes : list Request),
      requests
        (snd (createNoteViaLocalRestApi exampleSettings dropReserved emptyRemote
                exampleNow "more" "Note" "Inbox" "Main" AppendSpecific freshWorld)) =
      (requests freshWorld ++ probes ++ writes)%list
      /\ Forall (fun final => isWrite final = true) writes
      /\ List.length writes = 1%nat
      /\ (List.length probes <= 1)%nat.
Proof.
  split; [reflexivity|].
  destruct (one_write_after_probes exampleSettings dropReserved emptyRemote
              exampleNow "more" "Note" "Inbox" "Main" AppendSpecific freshWorld
              eq_refl)
    as (probes & writes & Hrequests & _ & Hwrites & Hone & _ & _ & Hcount & _).
  exists probes, writes. split; [exact Hrequests|].
  split; [revert Hwrites; apply Forall_impl; intros final [Hwrite _]; exact Hwrite|].
  split; [exact (Hone eq_refl)|].
  apply Hcount. discriminate.
Defined.

(** X6 at work: a server error on the probe of an append. *)
Lemma failed_probe_creates_witness :
  gateOpen exampleSettings = true
  /\ requests
       (snd (createNoteViaLocalRestApi exampleSettings dropReserved brokenRemote
               exampleNow "more" "Note" "Inbox" "Main" AppendSpecific freshWorld)) =
     [probe exampleSettings "Main" "Inbox/Note.md";
      mutation exampleSettings "Main" "Inbox/Note.md" "POST" "more"].
Proof.
  split; [reflexivity|].
  refine (failed_probe_creates exampleSettings dropReserved brokenRemote exampleNow
            "more" "Note" "Inbox" "Main" AppendSpecific freshWorld eq_refl _ _ _).
  - discriminate.
  - discriminate.
  - intros r Hanswer. injection Hanswer as <-. cbn. lia.
Defined.

(** X7 at work: the daily note of 2026-11-03. *)
Lemma daily_address_verbatim_witness :
  -62167219200000 <= exampleNow < 253402300800000
  /\ utcDate exampleNow = (2026, 11, 3)
  /\ buildUrl exampleSettings "Main" (today exampleNow ++ ".md") =
     inr "http://127.0.0.1:27123/vault/Main/2026-11-03.md".
Proof.
  split; [unfold exampleNow; lia|]. split; [reflexivity|].
  refine (proj1 (proj2 (daily_address_verbatim exampleSettings exampleNow "Main"
                          2026 11 3 _ eq_refl)) "Main" eq_refl).
  unfold exampleNow. lia.
Defined.

(** X9 at work: an overwrite on a named vault. *)
Lemma probing_refines_unprobed_witness :
  gateOpen exampleSettings = true
  /\ "Main" <> EmptyString
  /\ wellFormed "Main" = true
  /\ createNoteViaLocalRestApi exampleSettings dropReserved emptyRemote exampleNow
       "# Hi" "Note" "Inbox" "Main" Overwrite freshWorld =
     Unprobed.createNoteViaLocalRestApi exampleSettings dropReserved emptyRemote
       exampleNow "# Hi" "Note" "Inbox" "Main" Overwrite freshWorld.
Proof.
  assert (Hvault : "Main" <> EmptyString) by discriminate.
  split; [reflexivity|]. split; [exact Hvault|]. split; [reflexivity|].
  exact (proj1 (proj2 (proj1 (probing_refines_unprobed exampleSettings dropReserved
                                emptyRemote exampleNow "# Hi" "Note" "Inbox" "Main"
                                Overwrite freshWorld eq_refl Hvault eq_refl)
                             eq_refl)) eq_refl).
Defined.

(** X10 at work: an overwrite with no vault configured. *)
Lemma empty_vault_segment_gone_witness :
  gateOpen exampleSettings = true
  /\ wellFormed "Inbox/Note.md" = true
  /\ exists sent,
      requests
        (snd (Unprobed.createNoteViaLocalRestApi exampleSettings dropReserved
                emptyRemote exampleNow "# Hi" "Note" "Inbox" EmptyString Overwrite
                freshWorld)) = [sent]
      /\ url sent = "http://127.0.0.1:27123/vault//Inbox%2FNote.md".
Proof.
  split; [reflexivity|]. split; [reflexivity|].
  exact (proj1 (empty_vault_segment_gone exampleSettings dropReserved emptyRemote
                  exampleNow "# Hi" "Note" "Inbox" Overwrite freshWorld
                  eq_refl eq_refl)).
Defined.

(** X11 at work: two creates of "Note" in "Inbox" on a fresh remote. *)
Lemma successive_creates_do_not_collide_witness :
  gateOpen exampleSettings = true
  /\ Forall (fun q => isWrite q = false) (requests freshWorld)
  /\ encodable "Main" "Inbox/Note.md" = true
  /\ map url
       (requests
          (snd (createNoteViaLocalRestApi exampleSettings dropReserved keepingRemote
                  exampleNow "second" "Note" "Inbox" "Main" Create
                  (snd (createNoteViaLocalRestApi exampleSettings dropReserved
                          keepingRemote exampleNow "first" "Note" "Inbox" "Main"
                          Create freshWorld))))) =
     ["http://127.0.0.1:27123/vault/Main/Inbox%2FNote.md";
      "http://127.0.0.1:27123/vault/Main/Inbox%2FNote.md";
      "http://127.0.0.1:27123/vault/Main/Inbox%2FNote.md";
      "http://127.0.0.1:27123/vault/Main/Inbox%2FNote%201.md";
      "http://127.0.0.1:27123/vault/Main/Inbox%2FNote%201.md"].
Proof.
  assert (Hquiet : Forall (fun q => isWrite q = false) (requests freshWorld))
    by constructor.
  split; [reflexivity|]. split; [exact Hquiet|]. split; [reflexivity|].
  destruct (successive_creates_do_not_collide exampleSettings dropReserved exampleNow
              "first" "second" "Note" "Inbox" "Main" freshWorld eq_refl Hquiet eq_refl)
    as (_ & _ & Hrequests & _).
  rewrite Hrequests. reflexivity.
Defined.

(** A daily note survives a note name that cannot be encoded, which the
    revision without probes rejects. *)
Example daily_with_ill_formed_name :
  requests
    (snd (createNoteViaLocalRestApi exampleSettings dropReserved emptyRemote exampleNow
            "# Hi" loneSurrogate "Inbox" "Main" AppendDaily freshWorld)) =
    [probe exampleSettings "Main" "2026-11-03.md";
     mutation exampleSettings "Main" "2026-11-03.md" "POST" "# Hi"]
  /\ Unprobed.createNoteViaLocalRestApi exampleSettings dropReserved emptyRemote
       exampleNow "# Hi" loneSurrogate "Inbox" "Main" AppendDaily freshWorld =
     (Normal (mkResult false (Some "URI malformed")), freshWorld).
Proof.
  split; vm_compute; reflexivity.
Qed.

(** JSON.stringify writes a lone surrogate as its escape. *)
Example envelope_of_lone_surrogate :
  envelope loneSurrogate "end" =
  "{" ++ String "034" ("content" ++ String "034" (":" ++ String "034"
    ("\ud800" ++ String "034" ("," ++ String "034" ("position" ++ String "034"
       (":" ++ String "034" ("end" ++ String "034" "}"))))))).
Proof.
  reflexivity.
Qed.

End Properties.
